(** * 2nd-Hand-Book-App: the mock-data fallback layer of the service modules

    A shallow embedding of the data-access services of the application
    ([utils/auth.ts], [utils/mockData.ts], [services/BookService.ts],
    [services/SavedItemsService.ts], [services/MessageService.ts] and the
    user service) together with the properties of their fixture paths and
    of their remote branches; the state updaters of the filter dialog
    ([components/FilterModal.tsx]) and the choice of the listing query of
    the home screen ([screens/HomeScreen.tsx]) are embedded as well.

    Every service method is an [async] function.  It is modelled as a
    computation in the monad [M] below: it reads the session, the clock
    and the answers of the remote data client from an environment, threads
    the module-level mutable variables of its module through, records every
    request it sends to the remote client, and settles as [Resolved],
    [Rejected] or stays [Pending]. *)

From Stdlib Require Import ZArith QArith String Ascii List Lia.
From Stdlib Require Import Decimal DecimalString DecimalNat.
From stdpp Require Import gmap strings list.

Close Scope Q_scope.
Import ListNotations.
Local Open Scope list_scope.
Local Open Scope string_scope.

(** ** JavaScript library functions used by the services *)

Module Js.

(** [`${n}`] for an array length [n]: plain decimal digits. *)
Definition number_toString (n : nat) : string :=
  NilEmpty.string_of_uint (Nat.to_uint n).

(** The first [k] characters of [cur ++ pad ++ pad ++ ...]. *)
Fixpoint take_cycle (k : nat) (cur pad : string) : string :=
  match k with
  | O => ""
  | S k' =>
      match cur with
      | String c r => String c (take_cycle k' r pad)
      | EmptyString =>
          match pad with
          | String c r => String c (take_cycle k' r pad)
          | EmptyString => ""
          end
      end
  end.

(** [s.padStart(targetLength, padString)]. *)
Definition padStart (targetLength : nat) (padString s : string) : string :=
  if (targetLength <=? String.length s)%nat then s
  else take_cycle (targetLength - String.length s) padString padString ++ s.

(** [a.find(p)] and [a.findIndex(p)]; [None] stands for [undefined] and
    for [-1]. *)
Fixpoint find {A} (p : A -> bool) (l : list A) : option A :=
  match l with
  | [] => None
  | x :: r => if p x then Some x else find p r
  end.

Fixpoint findIndex {A} (p : A -> bool) (l : list A) : option nat :=
  match l with
  | [] => None
  | x :: r => if p x then Some 0 else option_map S (findIndex p r)
  end.

(** [a.includes(x)] on an array of strings. *)
Definition includes (x : string) (l : list string) : bool :=
  existsb (String.eqb x) l.

(** [a.sort(cmp)]: the sort is stable; [cmp a b <= 0] keeps [a] in front
    of [b]. *)
Fixpoint insert_by {A} (cmp : A -> A -> Z) (x : A) (l : list A) : list A :=
  match l with
  | [] => [x]
  | y :: r => if (cmp x y <=? 0)%Z then x :: y :: r
              else y :: insert_by cmp x r
  end.

Definition sort {A} (cmp : A -> A -> Z) (l : list A) : list A :=
  fold_right (insert_by cmp) [] l.

(** [s.split(sep)] for a one-character separator. *)
Fixpoint split_aux (sep : ascii) (cur : string) (s : string) : list string :=
  match s with
  | EmptyString => [cur]
  | String c r =>
      if Ascii.eqb c sep then cur :: split_aux sep "" r
      else split_aux sep (cur ++ String c "") r
  end.

Definition split (sep : ascii) (s : string) : list string :=
  split_aux sep "" s.

(** The texts made of ASCII characters only. *)
Definition is_ascii (s : string) : bool :=
  forallb (fun c => (nat_of_ascii c <? 128)%nat) (list_ascii_of_string s).

(** [s.toLowerCase()] for a text of ASCII characters ([is_ascii]).  The
    library function also maps letters outside ASCII, which this
    definition leaves as they are: what is stated with it is stated for
    ASCII texts. *)
Definition lower_ascii (c : ascii) : ascii :=
  let n := nat_of_ascii c in
  if ((65 <=? n) && (n <=? 90))%nat then ascii_of_nat (n + 32) else c.

Fixpoint toLowerCase (s : string) : string :=
  match s with
  | EmptyString => EmptyString
  | String c r => String (lower_ascii c) (toLowerCase r)
  end.

(** [s.includes(t)] on strings. *)
Fixpoint str_includes (t s : string) : bool :=
  String.prefix t s ||
  match s with
  | EmptyString => false
  | String _ r => str_includes t r
  end.

(** *** [new Date(s).getTime()]

    The timestamps of the application are written in the ECMAScript
    date-time format, [YYYY-MM-DDTHH:mm:ssZ] in the seed data and
    [YYYY-MM-DDTHH:mm:ss.sssZ] as produced by [toISOString].  [getTime]
    gives the milliseconds since the epoch for these two shapes and
    [None] (the time value [NaN]) for any other text. *)

Definition digit (c : ascii) : option Z :=
  let n := nat_of_ascii c in
  if ((48 <=? n) && (n <=? 57))%nat then Some (Z.of_nat (n - 48)) else None.

Fixpoint digits (acc : Z) (l : list ascii) : option Z :=
  match l with
  | [] => Some acc
  | c :: r =>
      match digit c with
      | Some d => digits (acc * 10 + d) r
      | None => None
      end
  end.

Definition days_from_civil (y m d : Z) : Z :=
  let y' := if (m <=? 2)%Z then (y - 1)%Z else y in
  let era := (y' / 400)%Z in
  let yoe := (y' - era * 400)%Z in
  let mp := if (m <=? 2)%Z then (m + 9)%Z else (m - 3)%Z in
  let doy := ((153 * mp + 2) / 5 + d - 1)%Z in
  let doe := (yoe * 365 + yoe / 4 - yoe / 100 + doy)%Z in
  (era * 146097 + doe - 719468)%Z.

Definition in_range (lo hi x : Z) : bool := ((lo <=? x) && (x <=? hi))%Z.

Definition time_of_fields (y mo d h mi s ms : Z) : option Z :=
  if in_range 1 12 mo && in_range 1 31 d && in_range 0 23 h
     && in_range 0 59 mi && in_range 0 59 s
  then Some ((((days_from_civil y mo d * 24 + h) * 60 + mi) * 60 + s) * 1000
             + ms)%Z
  else None.

Definition getTime (s : string) : option Z :=
  match list_ascii_of_string s with
  | [y1; y2; y3; y4; "-"; m1; m2; "-"; d1; d2; "T";
     h1; h2; ":"; i1; i2; ":"; s1; s2; "Z"]%char =>
      match digits 0 [y1; y2; y3; y4], digits 0 [m1; m2], digits 0 [d1; d2],
            digits 0 [h1; h2], digits 0 [i1; i2], digits 0 [s1; s2] with
      | Some y, Some mo, Some d, Some h, Some mi, Some sec =>
          time_of_fields y mo d h mi sec 0
      | _, _, _, _, _, _ => None
      end
  | [y1; y2; y3; y4; "-"; m1; m2; "-"; d1; d2; "T";
     h1; h2; ":"; i1; i2; ":"; s1; s2; "."; f1; f2; f3; "Z"]%char =>
      match digits 0 [y1; y2; y3; y4], digits 0 [m1; m2], digits 0 [d1; d2],
            digits 0 [h1; h2], digits 0 [i1; i2], digits 0 [s1; s2],
            digits 0 [f1; f2; f3] with
      | Some y, Some mo, Some d, Some h, Some mi, Some sec, Some ms =>
          time_of_fields y mo d h mi sec ms
      | _, _, _, _, _, _, _ => None
      end
  | _ => None
  end.

(** [new Date(a).getTime() - new Date(b).getTime()] as a sort comparator:
    a [NaN] difference counts as [0]. *)
Definition time_diff (a b : string) : Z :=
  match getTime a, getTime b with
  | Some x, Some y => (x - y)%Z
  | _, _ => 0%Z
  end.

End Js.

(** ** Entities *)

(** [BookListing] of [services/BookService.ts]. [None] is an absent
    optional field. *)
Record BookListing := {
  l_id : string;
  l_title : string;
  l_author : string;
  l_price : Q;
  l_condition : string;
  l_description : option string;
  l_image_url : option string;
  l_category : option string;
  l_edition : option string;
  l_isbn : option string;
  l_publisher : option string;
  l_publication_year : option nat;
  l_is_negotiable : option bool;
  l_exchange_option : option bool;
  l_seller_id : string;
  l_created_at : string
}.

Record BookFilterOptions := {
  categories : option (list string);
  conditions : option (list string);
  minPrice : option Q;
  maxPrice : option Q;
  isNegotiable : option bool;
  exchangeOption : option bool
}.

(** [MockUser] of [utils/mockData.ts] and [User] of the user service. *)
Record MockUser := {
  mu_id : string;
  mu_email : string;
  mu_name : string;
  mu_profileImage : option string;
  mu_joinDate : string;
  mu_rating : Q;
  mu_bio : option string;
  mu_location : option string;
  mu_phone : option string
}.

Record User := {
  u_id : string;
  u_email : string;
  u_name : string;
  u_profileImage : option string;
  u_joinDate : string;
  u_rating : option Q;
  u_bio : option string;
  u_location : option string;
  u_phone : option string
}.

(** A row of the remote [user_profiles] table. *)
Record ProfileRow := {
  p_id : string;
  p_email : string;
  p_name : string;
  p_profile_image : option string;
  p_join_date : string;
  p_rating : option Q;
  p_bio : option string;
  p_location : option string;
  p_phone : option string
}.

Inductive SavedItemType := FAVORITE | WISHLIST.

Definition SavedItemType_text (type : SavedItemType) : string :=
  match type with FAVORITE => "favorite" | WISHLIST => "wishlist" end.

(** [Conversation], [Message] and [ConversationWithDetails] of
    [services/MessageService.ts]. *)
Record Conversation := {
  c_id : string;
  c_listing_id : string;
  c_buyer_id : string;
  c_seller_id : string;
  c_created_at : string;
  c_last_message_at : string;
  c_is_active : bool
}.

Record Message := {
  m_id : string;
  m_conversation_id : string;
  m_sender_id : string;
  m_receiver_id : string;
  m_content : string;
  m_created_at : string;
  m_read : bool
}.

Record OtherUser := {
  ou_id : string;
  ou_name : string;
  ou_profileImage : option string
}.

Record ListingSummary := {
  ls_id : string;
  ls_title : string;
  ls_image_url : option string;
  ls_price : Q
}.

(** [ConversationWithDetails extends Conversation]: [cd_conversation] holds
    the fields spread from the conversation. *)
Record ConversationWithDetails := {
  cd_conversation : Conversation;
  cd_unreadCount : nat;
  cd_lastMessage : option string;
  cd_otherUser : OtherUser;
  cd_listing : ListingSummary
}.

(** ** Errors, the remote data client and the service monad *)

Inductive JsError :=
| Error (message : string)             (* [new Error(message)] *)
| PostgrestError (code message : string) (* error object of the data client *)
| TypeError (reading : string).
  (* thrown by reading the property [reading] of [null] or [undefined];
     the text of its message is the engine's *)

(** Each service module declares the same helper. *)
Definition isTableNotExistError (error : JsError) : bool :=
  match error with
  | PostgrestError code _ => String.eqb code "42P01"
  | _ => false
  end.

Inductive Value :=
| VString (s : string)
| VBool (b : bool)
| VNumber (q : Q).

Definition Row := list (string * Value).

(** A JavaScript object as the service methods read it: the keys it
    holds, each with a value or with [undefined] ([None]). *)
Definition JsObject := gmap string (option Value).

(** [UserProfileUpdate]: the declared type names the optional keys [name],
    [profileImage], [bio], [location] and [phone].  An object of the type
    may hold one of them with the value [undefined], and it may hold other
    keys as well. *)
Definition UserProfileUpdate := JsObject.

(** The object literal that [updateProfile] resolves with: nine keys, each
    with a value or with [undefined] ([None]). *)
Record UserObject := {
  o_id : option Value;
  o_email : option Value;
  o_name : option Value;
  o_profileImage : option Value;
  o_joinDate : option Value;
  o_rating : option Value;
  o_bio : option Value;
  o_location : option Value;
  o_phone : option Value
}.

Inductive Filter :=
| f_eq (column : string) (value : Value)
| f_in (column : string) (values : list string)
| f_gte (column : string) (value : Q)
| f_lte (column : string) (value : Q)
| f_or (expression : string)
| f_match (query : Row).

Inductive Verb :=
| v_select (columns : string) (count_exact : bool)
| v_insert (row : Row)
| v_upsert (row : Row)
| v_update (patch : Row)
| v_delete.

(** One query built with the client's builder:
    [supabase.from(table).verb(...).filters...order(...).limit(...)];
    [returning] is a [.select()] after a write, [single] a [.single()]. *)
Record Request := {
  table : string;
  verb : Verb;
  filters : list Filter;
  order : option (string * bool);   (* column, ascending *)
  limit : option nat;
  returning : bool;
  single : bool
}.

Inductive Data :=
| d_null
| d_listings (rows : list BookListing)
| d_conversations (rows : list Conversation)
| d_conversation (row : Conversation)
| d_messages (rows : list Message)
| d_message (row : Message)
| d_saved (book_ids : list string)
| d_saved_id (id : string)
| d_profile (row : ProfileRow)
| d_users (rows : list OtherUser)
| d_summaries (rows : list ListingSummary).

Record Response := {
  data : Data;
  count : option nat;
  error : option JsError
}.

Inductive Reply :=
| Returned (r : Response)
| Threw (e : JsError).

(** The result of [supabase.auth.getSession()]: [data.session?.user?.id] and
    [error?.message]. *)
Record SessionResult := {
  session_user_id : option string;
  session_error : option string
}.

(** What a call finds around itself: the session, the remote store's reply
    to the requests sent so far (latest first), and the successive clock
    readings [new Date().toISOString()]. *)
Record Env := {
  session : SessionResult;
  remote : list Request -> Reply;
  clock : nat -> string
}.

Inductive Outcome (A : Type) :=
| Resolved (a : A)
| Rejected (e : JsError)
| Pending.
Arguments Resolved {A} a.
Arguments Rejected {A} e.
Arguments Pending {A}.

(** The process: the module variables [vars], the requests sent to the
    remote client so far and the number of clock readings taken. *)
Record Run (St : Type) := {
  vars : St;
  sent : list Request;
  ticks : nat
}.
Arguments vars {St} r.
Arguments sent {St} r.
Arguments ticks {St} r.
Arguments Build_Run {St} vars sent ticks.

Definition M (St A : Type) : Type := Env -> Run St -> Outcome A * Run St.

Module Monad.
Section Ops.
Context {St : Type}.

Definition ret {A} (a : A) : M St A := fun _ w => (Resolved a, w).

Definition throw {A} (e : JsError) : M St A := fun _ w => (Rejected e, w).

Definition pending {A} : M St A := fun _ w => (Pending, w).

Definition bind {A B} (m : M St A) (k : A -> M St B) : M St B :=
  fun env w =>
    match m env w with
    | (Resolved a, w') => k a env w'
    | (Rejected e, w') => (Rejected e, w')
    | (Pending, w') => (Pending, w')
    end.

(** [try { body } catch (error) { handler }] inside an [async] function.
    The block yields the operand of its [return]: a promise returned
    without [await] settles outside the [try], so [body] and [handler]
    compute the computation to continue with (see [tail] and [done]). *)
Definition try_catch {A} (body : M St (M St A)) (handler : JsError -> M St (M St A))
  : M St A :=
  fun env w =>
    match body env w with
    | (Resolved k, w') => k env w'
    | (Rejected e, w') =>
        match handler e env w' with
        | (Resolved k, w'') => k env w''
        | (Rejected e', w'') => (Rejected e', w'')
        | (Pending, w'') => (Pending, w'')
        end
    | (Pending, w') => (Pending, w')
    end.

(** [return v] and [return this.method(...)] inside a [try] block. *)
Definition done {A} (a : A) : M St (M St A) := ret (ret a).
Definition tail {A} (m : M St A) : M St (M St A) := ret m.

Definition read {A} (f : St -> A) : M St A :=
  fun _ w => (Resolved (f (vars w)), w).

Definition write (f : St -> St) : M St unit :=
  fun _ w => (Resolved tt, Build_Run (f (vars w)) (sent w) (ticks w)).

(** [new Date().toISOString()]. *)
Definition now : M St string :=
  fun env w =>
    (Resolved (clock env (ticks w)), Build_Run (vars w) (sent w) (S (ticks w))).

(** [await] of a query of the remote data client. *)
Definition call (q : Request) : M St Response :=
  fun env w =>
    let log := q :: sent w in
    match remote env log with
    | Returned r => (Resolved r, Build_Run (vars w) log (ticks w))
    | Threw e => (Rejected e, Build_Run (vars w) log (ticks w))
    end.

Definition getSession : M St SessionResult :=
  fun env w => (Resolved (session env), w).

(** [await Promise.all(l.map(async x => f x))], the callbacks being
    served one after the other. *)
Fixpoint for_each {A B} (f : A -> M St B) (l : list A) : M St (list B) :=
  match l with
  | [] => ret []
  | x :: r =>
      bind (f x) (fun y => bind (for_each f r) (fun ys => ret (y :: ys)))
  end.

End Ops.
End Monad.
Import Monad.

Declare Scope js_scope.
Delimit Scope js_scope with js.
Notation "'do' x <- m ; k" := (bind m (fun x => k))
  (at level 10, x name, m at level 100, k at level 200) : js_scope.
Notation "'run' m ; k" := (bind m (fun _ => k))
  (at level 10, m at level 100, k at level 200) : js_scope.
Local Open Scope js_scope.

(** ** Configuration

    Every module declares its own constant [USE_MOCK_DATA]; the sources
    set all of them to [false]. *)
Record Config := {
  auth_USE_MOCK_DATA : bool;
  book_USE_MOCK_DATA : bool;
  saved_USE_MOCK_DATA : bool;
  message_USE_MOCK_DATA : bool;
  user_USE_MOCK_DATA : bool
}.

Definition shipped : Config :=
  {| auth_USE_MOCK_DATA := false;
     book_USE_MOCK_DATA := false;
     saved_USE_MOCK_DATA := false;
     message_USE_MOCK_DATA := false;
     user_USE_MOCK_DATA := false |}.

(** ** [utils/mockData.ts] *)

Definition dquote : string := String (ascii_of_nat 34) "".

Definition mockUsers : list MockUser := [
  {| mu_id := "user-001";
     mu_email := "john.smith@example.com";
     mu_name := "John Smith";
     mu_profileImage := Some "https://randomuser.me/api/portraits/men/12.jpg";
     mu_joinDate := "2023-01-15T08:30:00Z";
     mu_rating := (47 # 10);
     mu_bio := Some "Avid reader and book collector. I love science fiction and philosophy books!";
     mu_location := Some "San Francisco, CA";
     mu_phone := Some "(555) 123-4567" |};
  {| mu_id := "user-002";
     mu_email := "emily.wong@example.com";
     mu_name := "Emily Wong";
     mu_profileImage := Some "https://randomuser.me/api/portraits/women/23.jpg";
     mu_joinDate := "2023-02-24T14:15:30Z";
     mu_rating := (49 # 10);
     mu_bio := Some "English Literature student with a passion for classics and poetry.";
     mu_location := Some "Boston, MA";
     mu_phone := Some "(555) 234-5678" |};
  {| mu_id := "user-003";
     mu_email := "michael.rodriguez@example.com";
     mu_name := "Michael Rodriguez";
     mu_profileImage := Some "https://randomuser.me/api/portraits/men/45.jpg";
     mu_joinDate := "2023-03-10T09:45:00Z";
     mu_rating := (21 # 5);
     mu_bio := Some "History teacher and collector of historical texts and biographies.";
     mu_location := Some "Chicago, IL";
     mu_phone := Some "(555) 345-6789" |};
  {| mu_id := "user-004";
     mu_email := "sarah.johnson@example.com";
     mu_name := "Sarah Johnson";
     mu_profileImage := Some "https://randomuser.me/api/portraits/women/67.jpg";
     mu_joinDate := "2023-04-05T16:20:00Z";
     mu_rating := (23 # 5);
     mu_bio := Some "Medical student with a large collection of textbooks and medical references.";
     mu_location := Some "Seattle, WA";
     mu_phone := Some "(555) 456-7890" |};
  {| mu_id := "user-005";
     mu_email := "david.kim@example.com";
     mu_name := "David Kim";
     mu_profileImage := Some "https://randomuser.me/api/portraits/men/89.jpg";
     mu_joinDate := "2023-05-18T11:30:00Z";
     mu_rating := (9 # 2);
     mu_bio := Some "Computer scientist and tech enthusiast with a large collection of programming books.";
     mu_location := Some "Austin, TX";
     mu_phone := Some "(555) 567-8901" |}
].

Definition mockListings : list BookListing := [
  {| l_id := "book-001";
     l_title := "The Great Gatsby";
     l_author := "F. Scott Fitzgerald";
     l_price := (1299 # 100);
     l_condition := "Good";
     l_description := Some "Classic novel set in the roaring 20s. Minor wear on cover, but pages are in good condition.";
     l_image_url := Some "https://m.media-amazon.com/images/I/71FTb9X6wsL._AC_UF1000,1000_QL80_.jpg";
     l_category := Some "Fiction";
     l_edition := Some "2nd Edition";
     l_isbn := Some "9780743273565";
     l_publisher := Some "Scribner";
     l_publication_year := Some 2004;
     l_is_negotiable := Some true;
     l_exchange_option := Some false;
     l_seller_id := "user-001";
     l_created_at := "2023-06-15T09:30:00Z" |};
  {| l_id := "book-002";
     l_title := "To Kill a Mockingbird";
     l_author := "Harper Lee";
     l_price := (21 # 2);
     l_condition := "Like New";
     l_description := Some "Pulitzer Prize-winning novel. Book is practically new, only read once.";
     l_image_url := Some "https://m.media-amazon.com/images/I/71FXlF2uRUL._AC_UF1000,1000_QL80_.jpg";
     l_category := Some "Fiction";
     l_edition := Some "50th Anniversary Edition";
     l_isbn := Some "9780061120084";
     l_publisher := Some "Harper Perennial";
     l_publication_year := Some 2006;
     l_is_negotiable := Some false;
     l_exchange_option := Some true;
     l_seller_id := "user-002";
     l_created_at := "2023-06-18T14:45:00Z" |};
  {| l_id := "book-003";
     l_title := "A Brief History of Time";
     l_author := "Stephen Hawking";
     l_price := (63 # 4);
     l_condition := "Very Good";
     l_description := Some "Landmark book on cosmology. Some highlighting on first few chapters, otherwise excellent condition.";
     l_image_url := Some "https://m.media-amazon.com/images/I/A1xkFZX5k-L._AC_UF1000,1000_QL80_.jpg";
     l_category := Some "Non-Fiction";
     l_edition := Some "Updated Edition";
     l_isbn := Some "9780553380163";
     l_publisher := Some "Bantam";
     l_publication_year := Some 1998;
     l_is_negotiable := Some true;
     l_exchange_option := Some false;
     l_seller_id := "user-003";
     l_created_at := "2023-06-20T10:15:00Z" |};
  {| l_id := "book-004";
     l_title := "Gray's Anatomy for Students";
     l_author := "Richard Drake, A. Wayne Vogl, Adam W. M. Mitchell";
     l_price := (45 # 1);
     l_condition := "Good";
     l_description := Some "Essential medical textbook. Has sticky notes and some underlining in important sections.";
     l_image_url := Some "https://m.media-amazon.com/images/I/81sXBhe5vzL._AC_UF1000,1000_QL80_.jpg";
     l_category := Some "Textbook";
     l_edition := Some "4th Edition";
     l_isbn := Some "9780323393041";
     l_publisher := Some "Elsevier";
     l_publication_year := Some 2019;
     l_is_negotiable := Some true;
     l_exchange_option := Some true;
     l_seller_id := "user-004";
     l_created_at := "2023-06-22T16:30:00Z" |};
  {| l_id := "book-005";
     l_title := "Clean Code: A Handbook of Agile Software Craftsmanship";
     l_author := "Robert C. Martin";
     l_price := (57 # 2);
     l_condition := "Very Good";
     l_description := Some "Essential guide for programmers. Spine is intact, pages clean with minimal notes.";
     l_image_url := Some "https://m.media-amazon.com/images/I/61KNobh6xpL._AC_UF1000,1000_QL80_.jpg";
     l_category := Some "Computer Science";
     l_edition := Some "1st Edition";
     l_isbn := Some "9780132350884";
     l_publisher := Some "Prentice Hall";
     l_publication_year := Some 2008;
     l_is_negotiable := Some false;
     l_exchange_option := Some false;
     l_seller_id := "user-005";
     l_created_at := "2023-06-24T11:00:00Z" |};
  {| l_id := "book-006";
     l_title := "1984";
     l_author := "George Orwell";
     l_price := (999 # 100);
     l_condition := "Acceptable";
     l_description := Some "Classic dystopian novel. Some wear on cover and several dog-eared pages, but text is all readable.";
     l_image_url := Some "https://m.media-amazon.com/images/I/71lrXHj5HzL._AC_UF1000,1000_QL80_.jpg";
     l_category := Some "Fiction";
     l_edition := Some "Signet Classic";
     l_isbn := Some "9780451524935";
     l_publisher := Some "Signet Classic";
     l_publication_year := Some 1961;
     l_is_negotiable := Some true;
     l_exchange_option := Some true;
     l_seller_id := "user-001";
     l_created_at := "2023-06-26T13:20:00Z" |};
  {| l_id := "book-007";
     l_title := "Pride and Prejudice";
     l_author := "Jane Austen";
     l_price := (35 # 4);
     l_condition := "Good";
     l_description := Some "Classic romance novel. Well-preserved vintage edition with beautiful cover art.";
     l_image_url := Some "https://m.media-amazon.com/images/I/71Q1tPupKjL._AC_UF1000,1000_QL80_.jpg";
     l_category := Some "Fiction";
     l_edition := Some "Vintage Classics";
     l_isbn := Some "9780679783268";
     l_publisher := Some "Vintage";
     l_publication_year := Some 2000;
     l_is_negotiable := Some false;
     l_exchange_option := Some false;
     l_seller_id := "user-002";
     l_created_at := "2023-06-28T09:45:00Z" |};
  {| l_id := "book-008";
     l_title := "Sapiens: A Brief History of Humankind";
     l_author := "Yuval Noah Harari";
     l_price := (1499 # 100);
     l_condition := "Like New";
     l_description := Some "Bestselling history of humanity. Read once, practically new condition.";
     l_image_url := Some "https://m.media-amazon.com/images/I/71N3-2sYDRL._AC_UF1000,1000_QL80_.jpg";
     l_category := Some "Non-Fiction";
     l_edition := Some "1st Edition";
     l_isbn := Some "9780062316097";
     l_publisher := Some "Harper";
     l_publication_year := Some 2015;
     l_is_negotiable := Some true;
     l_exchange_option := Some false;
     l_seller_id := "user-003";
     l_created_at := "2023-06-30T15:10:00Z" |};
  {| l_id := "book-009";
     l_title := "Principles of Neural Science";
     l_author := "Eric Kandel, John D. Koester, Sarah H. Mack, Steven Siegelbaum";
     l_price := (75 # 1);
     l_condition := "Very Good";
     l_description := Some "Standard neuroscience textbook. Well-maintained with minimal highlighting.";
     l_image_url := Some "https://m.media-amazon.com/images/I/91HULcIFgbL._AC_UF1000,1000_QL80_.jpg";
     l_category := Some "Textbook";
     l_edition := Some "6th Edition";
     l_isbn := Some "9781259642234";
     l_publisher := Some "McGraw Hill";
     l_publication_year := Some 2021;
     l_is_negotiable := Some true;
     l_exchange_option := Some false;
     l_seller_id := "user-004";
     l_created_at := "2023-07-02T10:30:00Z" |};
  {| l_id := "book-010";
     l_title := "Design Patterns: Elements of Reusable Object-Oriented Software";
     l_author := "Erich Gamma, Richard Helm, Ralph Johnson, John Vlissides";
     l_price := (65 # 2);
     l_condition := "Good";
     l_description := Some ("The famous " ++ dquote ++ "Gang of Four" ++ dquote ++ " book. Some notes in margins but all text is readable.");
     l_image_url := Some "https://m.media-amazon.com/images/I/51szD9HC9pL._AC_UF1000,1000_QL80_.jpg";
     l_category := Some "Computer Science";
     l_edition := Some "1st Edition";
     l_isbn := Some "9780201633610";
     l_publisher := Some "Addison-Wesley Professional";
     l_publication_year := Some 1994;
     l_is_negotiable := Some false;
     l_exchange_option := Some true;
     l_seller_id := "user-005";
     l_created_at := "2023-07-05T14:00:00Z" |};
  {| l_id := "book-011";
     l_title := "The Catcher in the Rye";
     l_author := "J.D. Salinger";
     l_price := (45 # 4);
     l_condition := "Good";
     l_description := Some "Classic coming-of-age novel. Some wear on cover edges but pages are clean.";
     l_image_url := Some "https://m.media-amazon.com/images/I/91HPG31dTwL._AC_UF1000,1000_QL80_.jpg";
     l_category := Some "Fiction";
     l_edition := Some "First Back Bay Paperback";
     l_isbn := Some "9780316769488";
     l_publisher := Some "Little, Brown and Company";
     l_publication_year := Some 1991;
     l_is_negotiable := Some true;
     l_exchange_option := Some false;
     l_seller_id := "user-001";
     l_created_at := "2023-07-08T11:45:00Z" |};
  {| l_id := "book-012";
     l_title := "The Alchemist";
     l_author := "Paulo Coelho";
     l_price := (10 # 1);
     l_condition := "Very Good";
     l_description := Some "International bestseller. Minimal wear, spine unbroken.";
     l_image_url := Some "https://m.media-amazon.com/images/I/51Z0nLAfLmL._AC_UF1000,1000_QL80_.jpg";
     l_category := Some "Fiction";
     l_edition := Some "25th Anniversary Edition";
     l_isbn := Some "9780062315007";
     l_publisher := Some "HarperOne";
     l_publication_year := Some 2014;
     l_is_negotiable := Some false;
     l_exchange_option := Some true;
     l_seller_id := "user-002";
     l_created_at := "2023-07-10T16:20:00Z" |};
  {| l_id := "book-013";
     l_title := "A Short History of Nearly Everything";
     l_author := "Bill Bryson";
     l_price := (33 # 2);
     l_condition := "Like New";
     l_description := Some "Award-winning science book. Only read once, no marks or damage.";
     l_image_url := Some "https://m.media-amazon.com/images/I/71r4oZgV5jL._AC_UF1000,1000_QL80_.jpg";
     l_category := Some "Non-Fiction";
     l_edition := Some "Illustrated Edition";
     l_isbn := Some "9780307885159";
     l_publisher := Some "Broadway Books";
     l_publication_year := Some 2010;
     l_is_negotiable := Some true;
     l_exchange_option := Some false;
     l_seller_id := "user-003";
     l_created_at := "2023-07-12T09:15:00Z" |};
  {| l_id := "book-014";
     l_title := "Harrison's Principles of Internal Medicine";
     l_author := "J. Larry Jameson, Anthony S. Fauci, Dennis L. Kasper, Stephen L. Hauser, Dan L. Longo, Joseph Loscalzo";
     l_price := (95 # 1);
     l_condition := "Good";
     l_description := Some "Comprehensive medical reference. Some highlighting in first few chapters.";
     l_image_url := Some "https://m.media-amazon.com/images/I/91KsKd3UOiL._AC_UF1000,1000_QL80_.jpg";
     l_category := Some "Textbook";
     l_edition := Some "20th Edition";
     l_isbn := Some "9781259644030";
     l_publisher := Some "McGraw-Hill Education";
     l_publication_year := Some 2018;
     l_is_negotiable := Some true;
     l_exchange_option := Some false;
     l_seller_id := "user-004";
     l_created_at := "2023-07-15T14:30:00Z" |};
  {| l_id := "book-015";
     l_title := "JavaScript: The Good Parts";
     l_author := "Douglas Crockford";
     l_price := (2299 # 100);
     l_condition := "Very Good";
     l_description := Some "Classic programming book. Some dog-eared pages but otherwise in great shape.";
     l_image_url := Some "https://m.media-amazon.com/images/I/81kqrwS1nNL._AC_UF1000,1000_QL80_.jpg";
     l_category := Some "Computer Science";
     l_edition := Some "1st Edition";
     l_isbn := Some "9780596517748";
     l_publisher := Some "O'Reilly Media";
     l_publication_year := Some 2008;
     l_is_negotiable := Some false;
     l_exchange_option := Some true;
     l_seller_id := "user-005";
     l_created_at := "2023-07-18T10:00:00Z" |}
].

Definition getMockSellerById (sellerId : string) : option MockUser :=
  Js.find (fun user => String.eqb (mu_id user) sellerId) mockUsers.

Definition getMockListingById (listingId : string) : option BookListing :=
  Js.find (fun listing => String.eqb (l_id listing) listingId) mockListings.

Definition getMockListingsBySeller (sellerId : string) : list BookListing :=
  List.filter (fun listing => String.eqb (l_seller_id listing) sellerId) mockListings.

(** ** [utils/auth.ts] *)

Module Auth.
Section WithConfig.
Variable cfg : Config.
Context {St : Type}.

Definition getUserId : M St string :=
  if auth_USE_MOCK_DATA cfg then
    match mockUsers with
    | user :: _ => ret (mu_id user)
    | [] => throw (TypeError "id")
    end
  else
    do s <- getSession;
    match session_error s with
    | Some message => throw (Error ("Authentication error: " ++ message))
    | None =>
        match session_user_id s with
        | Some id =>
            if String.eqb id "" then throw (Error "Not authenticated")
            else ret id
        | None => throw (Error "Not authenticated")
        end
    end.

End WithConfig.
End Auth.

(** ** [services/BookService.ts] *)

Module BookService.

(** Truthiness of an optional string: [undefined] and [''] are falsy. *)
Definition truthy (s : option string) : bool :=
  match s with
  | Some t => negb (String.eqb t "")
  | None => false
  end.

(** The callback bodies of the mock branches, over the listing array. *)
Definition search (searchTerm : string) (listings : list BookListing)
  : list BookListing :=
  List.filter (fun listing =>
    let searchTermLower := Js.toLowerCase searchTerm in
    Js.str_includes searchTermLower (Js.toLowerCase (l_title listing))
    || Js.str_includes searchTermLower (Js.toLowerCase (l_author listing))
    || match l_description listing with
       | Some d => truthy (Some d)
                   && Js.str_includes searchTermLower (Js.toLowerCase d)
       | None => false
       end) listings.


Definition applyFilters (filters : BookFilterOptions)
           (listings : list BookListing) : list BookListing :=
  let filteredListings := listings in
  (* category filter *)
  let filteredListings :=
    match categories filters with
    | Some cats =>
        if (0 <? length cats)%nat then
          List.filter (fun listing =>
            match l_category listing with
            | Some c => truthy (Some c) && Js.includes c cats
            | None => false
            end) filteredListings
        else filteredListings
    | None => filteredListings
    end in
  (* condition filter *)
  let filteredListings :=
    match conditions filters with
    | Some conds =>
        if (0 <? length conds)%nat then
          List.filter (fun listing => Js.includes (l_condition listing) conds)
                      filteredListings
        else filteredListings
    | None => filteredListings
    end in
  (* price range filters *)
  let filteredListings :=
    match minPrice filters with
    | Some lo => List.filter (fun listing => Qle_bool lo (l_price listing))
                             filteredListings
    | None => filteredListings
    end in
  let filteredListings :=
    match maxPrice filters with
    | Some hi => List.filter (fun listing => Qle_bool (l_price listing) hi)
                             filteredListings
    | None => filteredListings
    end in
  (* negotiable filter *)
  let filteredListings :=
    match isNegotiable filters with
    | Some b =>
        List.filter (fun listing =>
          match l_is_negotiable listing with
          | Some x => Bool.eqb x b
          | None => false
          end) filteredListings
    | None => filteredListings
    end in
  (* exchange option filter *)
  match exchangeOption filters with
  | Some b =>
      List.filter (fun listing =>
        match l_exchange_option listing with
        | Some x => Bool.eqb x b
        | None => false
        end) filteredListings
  | None => filteredListings
  end.

(** [data || []] for a listing query. *)
Definition rows (d : Data) : list BookListing :=
  match d with
  | d_listings l => l
  | _ => []
  end.

Definition listings_query (fs : list Filter) : Request :=
  {| table := "book_listings"; verb := v_select "*" false; filters := fs;
     order := Some ("created_at", false); limit := None;
     returning := false; single := false |}.

Section WithConfig.
Variable cfg : Config.
Context {St : Type}.

(** The remote branch shared by the list queries: send the query, throw
    its error, return [data || []]; the [catch] logs and rethrows. *)
Definition fetch (q : Request) : M St (list BookListing) :=
  try_catch
    (do r <- call q;
     match error r with
     | Some e => throw e
     | None => done (rows (data r))
     end)
    (fun e => throw e).

Definition getListings : M St (list BookListing) :=
  if book_USE_MOCK_DATA cfg then ret mockListings
  else fetch (listings_query []).

Definition searchListings (searchTerm : string) : M St (list BookListing) :=
  if book_USE_MOCK_DATA cfg then ret (search searchTerm mockListings)
  else fetch (listings_query
                [f_or ("title.ilike.%" ++ searchTerm ++ "%,author.ilike.%"
                       ++ searchTerm ++ "%,description.ilike.%"
                       ++ searchTerm ++ "%")]).



Definition filter_conditions (filters : BookFilterOptions) : list Filter :=
  (match categories filters with
  | Some cats => if (0 <? length cats)%nat then [f_in "category" cats] else []
  | None => []
  end ++
  match conditions filters with
  | Some conds =>
      if (0 <? length conds)%nat then [f_in "condition" conds] else []
  | None => []
  end ++
  match minPrice filters with Some lo => [f_gte "price" lo] | None => [] end ++
  match maxPrice filters with Some hi => [f_lte "price" hi] | None => [] end ++
  match isNegotiable filters with
  | Some b => [f_eq "is_negotiable" (VBool b)]
  | None => []
  end ++
  match exchangeOption filters with
  | Some b => [f_eq "exchange_option" (VBool b)]
  | None => []
  end)%list.

Definition getFilteredListings (filters : BookFilterOptions)
  : M St (list BookListing) :=
  if book_USE_MOCK_DATA cfg then ret (applyFilters filters mockListings)
  else fetch (listings_query (filter_conditions filters)).

End WithConfig.
End BookService.

(** ** [services/SavedItemsService.ts] *)

Module SavedItemsService.

(** The module variables.  [mockFavorites] and [mockWishlist] are
    [Record<string, string[]>] objects keyed by user id. *)
Record Vars := {
  mockFavorites : gmap string (list string);
  mockWishlist : gmap string (list string);
  DETECTED_MISSING_TABLE : bool
}.

Definition initial : Vars :=
  {| mockFavorites := ∅; mockWishlist := ∅; DETECTED_MISSING_TABLE := false |}.

Definition set_detected (v : Vars) : Vars :=
  {| mockFavorites := mockFavorites v; mockWishlist := mockWishlist v;
     DETECTED_MISSING_TABLE := true |}.

(** [record[userId] || []]. *)
Definition entry (record : gmap string (list string)) (userId : string)
  : list string :=
  match record !! userId with
  | Some ids => ids
  | None => []
  end.

(** [record[userId] = record[userId] || [];
     if (!record[userId].includes(bookId)) record[userId].push(bookId)]. *)
Definition add_to (record : gmap string (list string))
           (userId bookId : string) : gmap string (list string) :=
  let record := <[userId := entry record userId]> record in
  if negb (Js.includes bookId (entry record userId))
  then <[userId := (entry record userId ++ [bookId])%list]> record
  else record.

(** [record[userId] = (record[userId] || []).filter(id => id !== bookId)]. *)
Definition remove_from (record : gmap string (list string))
           (userId bookId : string) : gmap string (list string) :=
  <[userId := List.filter (fun id => negb (String.eqb id bookId))
                          (entry record userId)]> record.

Definition add_mock (userId bookId : string) (type : SavedItemType)
           (v : Vars) : Vars :=
  match type with
  | FAVORITE =>
      {| mockFavorites := add_to (mockFavorites v) userId bookId;
         mockWishlist := mockWishlist v;
         DETECTED_MISSING_TABLE := DETECTED_MISSING_TABLE v |}
  | WISHLIST =>
      {| mockFavorites := mockFavorites v;
         mockWishlist := add_to (mockWishlist v) userId bookId;
         DETECTED_MISSING_TABLE := DETECTED_MISSING_TABLE v |}
  end.

Definition remove_mock (userId bookId : string) (type : SavedItemType)
           (v : Vars) : Vars :=
  match type with
  | FAVORITE =>
      {| mockFavorites := remove_from (mockFavorites v) userId bookId;
         mockWishlist := mockWishlist v;
         DETECTED_MISSING_TABLE := DETECTED_MISSING_TABLE v |}
  | WISHLIST =>
      {| mockFavorites := mockFavorites v;
         mockWishlist := remove_from (mockWishlist v) userId bookId;
         DETECTED_MISSING_TABLE := DETECTED_MISSING_TABLE v |}
  end.

(** The saved ids of a user: [(mockFavorites[userId] || [])] or
    [(mockWishlist[userId] || [])]. *)
Definition savedIds (userId : string) (type : SavedItemType) (v : Vars)
  : list string :=
  match type with
  | FAVORITE => entry (mockFavorites v) userId
  | WISHLIST => entry (mockWishlist v) userId
  end.

Definition is_saved_mock (userId bookId : string) (type : SavedItemType)
           (v : Vars) : bool :=
  Js.includes bookId (savedIds userId type v).

Definition match_query (columns : string) (query : Row) (one : bool) : Request :=
  {| table := "saved_items"; verb := v_select columns false;
     filters := [f_match query]; order := None; limit := None;
     returning := false; single := one |}.

Definition error_code (e : JsError) : option string :=
  match e with
  | PostgrestError code _ => Some code
  | _ => None
  end.

Definition book_ids (d : Data) : list string :=
  match d with
  | d_saved ids => ids
  | _ => []
  end.

Section WithConfig.
Variable cfg : Config.

Definition fixture : M Vars bool :=
  do detected <- read DETECTED_MISSING_TABLE;
  ret (saved_USE_MOCK_DATA cfg || detected).

(** The recursive calls [this.method(...)] follow a raised flag; [fuel]
    bounds their depth. *)
Fixpoint addSavedItem_ (fuel : nat) (bookId : string) (type : SavedItemType)
  : M Vars unit :=
  match fuel with
  | O => pending
  | S fuel =>
      do userId <- Auth.getUserId cfg;
      if String.eqb userId "" then
        throw (Error "User must be logged in to save items")
      else
        do mock <- fixture;
        if mock then write (add_mock userId bookId type)
        else
          try_catch
            (do created_at <- now;
             do r <- call
               {| table := "saved_items";
                  verb := v_upsert
                    [("user_id", VString userId); ("book_id", VString bookId);
                     ("type", VString (SavedItemType_text type));
                     ("created_at", VString created_at)];
                  filters := []; order := None; limit := None;
                  returning := false; single := false |};
             match error r with
             | Some e =>
                 if isTableNotExistError e then
                   run write set_detected;
                   tail (addSavedItem_ fuel bookId type)
                 else throw e
             | None => done tt
             end)
            (fun e =>
               if isTableNotExistError e then
                 run write set_detected;
                 tail (addSavedItem_ fuel bookId type)
               else throw e)
  end.

Fixpoint removeSavedItem_ (fuel : nat) (bookId : string) (type : SavedItemType)
  : M Vars unit :=
  match fuel with
  | O => pending
  | S fuel =>
      do userId <- Auth.getUserId cfg;
      if String.eqb userId "" then
        throw (Error "User must be logged in to remove saved items")
      else
        do mock <- fixture;
        if mock then write (remove_mock userId bookId type)
        else
          try_catch
            (do r <- call
               {| table := "saved_items"; verb := v_delete;
                  filters :=
                    [f_match [("user_id", VString userId);
                              ("book_id", VString bookId);
                              ("type", VString (SavedItemType_text type))]];
                  order := None; limit := None;
                  returning := false; single := false |};
             match error r with
             | Some e =>
                 if isTableNotExistError e then
                   run write set_detected;
                   tail (removeSavedItem_ fuel bookId type)
                 else throw e
             | None => done tt
             end)
            (fun e =>
               if isTableNotExistError e then
                 run write set_detected;
                 tail (removeSavedItem_ fuel bookId type)
               else throw e)
  end.

Fixpoint isSavedItem_ (fuel : nat) (bookId : string) (type : SavedItemType)
  : M Vars bool :=
  match fuel with
  | O => pending
  | S fuel =>
      do userId <- Auth.getUserId cfg;
      if String.eqb userId "" then ret false
      else
        do mock <- fixture;
        if mock then read (is_saved_mock userId bookId type)
        else
          try_catch
            (do r <- call
               (match_query "id"
                  [("user_id", VString userId); ("book_id", VString bookId);
                   ("type", VString (SavedItemType_text type))] true);
             let found :=
               match data r with d_null => false | _ => true end in
             match error r with
             | Some e =>
                 if negb (bool_decide (error_code e = Some "PGRST116")) then
                   if isTableNotExistError e then
                     run write set_detected;
                     tail (isSavedItem_ fuel bookId type)
                   else throw e
                 else done found
             | None => done found
             end)
            (fun e =>
               if isTableNotExistError e then
                 run write set_detected;
                 tail (isSavedItem_ fuel bookId type)
               else done false)
  end.

(** The mock branch of [getSavedItems] awaits [BookService.getListings()]
    inside a timer callback: when that call rejects nothing resolves the
    promise. *)
Definition getSavedItems_mock (userId : string) (type : SavedItemType)
  : M Vars (list BookListing) :=
  fun env w =>
    match BookService.getListings cfg env w with
    | (Resolved allBooks, w') =>
        let savedIds := savedIds userId type (vars w') in
        (Resolved (List.filter (fun book => Js.includes (l_id book) savedIds)
                               allBooks), w')
    | (Rejected _, w') => (Pending, w')
    | (Pending, w') => (Pending, w')
    end.

Fixpoint getSavedItems_ (fuel : nat) (type : SavedItemType)
  : M Vars (list BookListing) :=
  match fuel with
  | O => pending
  | S fuel =>
      do userId <- Auth.getUserId cfg;
      if String.eqb userId "" then ret []
      else
        do mock <- fixture;
        if mock then getSavedItems_mock userId type
        else
          try_catch
            (do r <- call
               (match_query "book_id"
                  [("user_id", VString userId);
                   ("type", VString (SavedItemType_text type))] false);
             match error r with
             | Some e =>
                 if isTableNotExistError e then
                   run write set_detected;
                   tail (getSavedItems_ fuel type)
                 else throw e
             | None =>
                 match book_ids (data r) with
                 | [] => done []
                 | bookIds =>
                     do b <- call
                       {| table := "book_listings"; verb := v_select "*" false;
                          filters := [f_in "id" bookIds]; order := None;
                          limit := None; returning := false; single := false |};
                     match error b with
                     | Some booksError => throw booksError
                     | None => done (BookService.rows (data b))
                     end
                 end
             end)
            (fun e =>
               if isTableNotExistError e then
                 run write set_detected;
                 tail (getSavedItems_ fuel type)
               else done [])
  end.

Definition addSavedItem := addSavedItem_ 2.
Definition removeSavedItem := removeSavedItem_ 2.
Definition isSavedItem := isSavedItem_ 2.
Definition getSavedItems := getSavedItems_ 2.

Definition toggleSavedItem (bookId : string) (type : SavedItemType)
  : M Vars bool :=
  do isSaved <- isSavedItem bookId type;
  if isSaved then
    run removeSavedItem bookId type; ret false
  else
    run addSavedItem bookId type; ret true.

Definition getFavorites : M Vars (list BookListing) := getSavedItems FAVORITE.
Definition getWishlist : M Vars (list BookListing) := getSavedItems WISHLIST.

End WithConfig.
End SavedItemsService.

(** ** [services/MessageService.ts] *)

Module MessageService.

(** The module variables. *)
Record Vars := {
  mockConversations : list Conversation;
  mockMessages : list Message;
  DETECTED_MISSING_TABLES : bool
}.

(** The mock conversations and messages installed when the module is
    loaded. *)
Definition initial : Vars :=
  {| mockConversations :=
       [ {| c_id := "conv-001"; c_listing_id := "book-001";
            c_buyer_id := "user-002"; c_seller_id := "user-001";
            c_created_at := "2023-08-10T09:15:00Z";
            c_last_message_at := "2023-08-12T14:30:00Z";
            c_is_active := true |};
         {| c_id := "conv-002"; c_listing_id := "book-005";
            c_buyer_id := "user-001"; c_seller_id := "user-005";
            c_created_at := "2023-08-15T11:20:00Z";
            c_last_message_at := "2023-08-15T16:45:00Z";
            c_is_active := true |} ];
     mockMessages :=
       [ {| m_id := "msg-001"; m_conversation_id := "conv-001";
            m_sender_id := "user-002"; m_receiver_id := "user-001";
            m_content := "Hi, is this book still available?";
            m_created_at := "2023-08-10T09:15:00Z"; m_read := true |};
         {| m_id := "msg-002"; m_conversation_id := "conv-001";
            m_sender_id := "user-001"; m_receiver_id := "user-002";
            m_content := "Yes, it is still available. Are you interested?";
            m_created_at := "2023-08-10T10:30:00Z"; m_read := true |};
         {| m_id := "msg-003"; m_conversation_id := "conv-001";
            m_sender_id := "user-002"; m_receiver_id := "user-001";
            m_content := "Great! Would you consider a lower price?";
            m_created_at := "2023-08-12T14:30:00Z"; m_read := false |};
         {| m_id := "msg-004"; m_conversation_id := "conv-002";
            m_sender_id := "user-001"; m_receiver_id := "user-005";
            m_content := "Hello, I'm interested in your programming book. Is it still available?";
            m_created_at := "2023-08-15T11:20:00Z"; m_read := true |};
         {| m_id := "msg-005"; m_conversation_id := "conv-002";
            m_sender_id := "user-005"; m_receiver_id := "user-001";
            m_content := "Yes, it's still available. It's in great condition.";
            m_created_at := "2023-08-15T13:05:00Z"; m_read := true |};
         {| m_id := "msg-006"; m_conversation_id := "conv-002";
            m_sender_id := "user-001"; m_receiver_id := "user-005";
            m_content := "Perfect! When can we meet for the exchange?";
            m_created_at := "2023-08-15T16:45:00Z"; m_read := false |} ];
     DETECTED_MISSING_TABLES := false |}.

Definition set_detected (v : Vars) : Vars :=
  {| mockConversations := mockConversations v;
     mockMessages := mockMessages v;
     DETECTED_MISSING_TABLES := true |}.

Definition set_messages (f : list Message -> list Message) (v : Vars) : Vars :=
  {| mockConversations := mockConversations v;
     mockMessages := f (mockMessages v);
     DETECTED_MISSING_TABLES := DETECTED_MISSING_TABLES v |}.

Definition set_conversations (f : list Conversation -> list Conversation)
           (v : Vars) : Vars :=
  {| mockConversations := f (mockConversations v);
     mockMessages := mockMessages v;
     DETECTED_MISSING_TABLES := DETECTED_MISSING_TABLES v |}.

(** [conv.last_message_at = t] on a conversation object. *)
Definition with_last_message_at (t : string) (conv : Conversation)
  : Conversation :=
  {| c_id := c_id conv; c_listing_id := c_listing_id conv;
     c_buyer_id := c_buyer_id conv; c_seller_id := c_seller_id conv;
     c_created_at := c_created_at conv; c_last_message_at := t;
     c_is_active := c_is_active conv |}.

(** [{ ...msg, read: true }]. *)
Definition with_read (msg : Message) : Message :=
  {| m_id := m_id msg; m_conversation_id := m_conversation_id msg;
     m_sender_id := m_sender_id msg; m_receiver_id := m_receiver_id msg;
     m_content := m_content msg; m_created_at := m_created_at msg;
     m_read := true |}.

(** [`msg-${n}`.padStart(7, '0')] and [`conv-${n}`.padStart(7, '0')]. *)
Definition message_id (n : nat) : string :=
  Js.padStart 7 "0" ("msg-" ++ Js.number_toString n).

Definition conversation_id (n : nat) : string :=
  Js.padStart 7 "0" ("conv-" ++ Js.number_toString n).

(** [const convIndex = mockConversations.findIndex(conv => conv.id === id);
     if (convIndex !== -1) mockConversations[convIndex].last_message_at = t]. *)
Definition touch (id t : string) (convs : list Conversation)
  : list Conversation :=
  match Js.findIndex (fun conv => String.eqb (c_id conv) id) convs with
  | Some convIndex => alter (with_last_message_at t) convIndex convs
  | None => convs
  end.

(** *** The mock branches *)

Definition is_unread_for (userId : string) (msg : Message) : bool :=
  String.eqb (m_receiver_id msg) userId && negb (m_read msg).

Definition getConversations_mock (userId : string) (v : Vars)
  : list ConversationWithDetails :=
  let userConversations :=
    List.filter (fun conv => String.eqb (c_buyer_id conv) userId
                             || String.eqb (c_seller_id conv) userId)
                (mockConversations v) in
  let enhancedConversations :=
    List.map (fun conv =>
      let otherUserId :=
        if String.eqb (c_buyer_id conv) userId then c_seller_id conv
        else c_buyer_id conv in
      let otherUser :=
        Js.find (fun user => String.eqb (mu_id user) otherUserId) mockUsers in
      let unreadCount :=
        length (List.filter (fun msg =>
                  String.eqb (m_conversation_id msg) (c_id conv)
                  && String.eqb (m_receiver_id msg) userId
                  && negb (m_read msg)) (mockMessages v)) in
      let conversationMessages :=
        Js.sort (fun a b => Js.time_diff (m_created_at b) (m_created_at a))
          (List.filter (fun msg =>
             String.eqb (m_conversation_id msg) (c_id conv))
             (mockMessages v)) in
      let lastMessage :=
        match conversationMessages with
        | msg :: _ => Some (m_content msg)
        | [] => None
        end in
      let listing :=
        {| ls_id := c_listing_id conv;
           ls_title :=
             "Book #" ++
             match Js.split "-" (c_listing_id conv) with
             | _ :: part :: _ => part
             | _ => "undefined"
             end;
           ls_image_url :=
             Some "https://source.unsplash.com/random/200x300/?book";
           ls_price := 1999 # 100 |} in
      {| cd_conversation := conv;
         cd_unreadCount := unreadCount;
         cd_lastMessage := lastMessage;
         cd_otherUser :=
           {| ou_id :=
                match otherUser with
                | Some user => mu_id user
                | None => ""
                end;
              ou_name :=
                match otherUser with
                | Some user =>
                    if String.eqb (mu_name user) "" then "Unknown User"
                    else mu_name user
                | None => "Unknown User"
                end;
              ou_profileImage :=
                match otherUser with
                | Some user => mu_profileImage user
                | None => None
                end |};
         cd_listing := listing |}) userConversations in
  Js.sort (fun a b =>
             Js.time_diff (c_last_message_at (cd_conversation b))
                          (c_last_message_at (cd_conversation a)))
          enhancedConversations.

Definition getMessages_mock (conversationId : string) (v : Vars)
  : list Message :=
  Js.sort (fun a b => Js.time_diff (m_created_at a) (m_created_at b))
    (List.filter (fun msg => String.eqb (m_conversation_id msg) conversationId)
                 (mockMessages v)).

Definition getUnreadCount_mock (userId : string) (v : Vars) : nat :=
  length (List.filter (is_unread_for userId) (mockMessages v)).

Definition sendMessage_mock (userId conversationId content : string)
  : M Vars Message :=
  do conversation <-
    read (fun v => Js.find (fun conv => String.eqb (c_id conv) conversationId)
                           (mockConversations v));
  match conversation with
  | None => throw (Error "Conversation not found")
  | Some conversation =>
      let receiverId :=
        if String.eqb (c_buyer_id conversation) userId
        then c_seller_id conversation
        else c_buyer_id conversation in
      do n <- read (fun v => length (mockMessages v));
      do created_at <- now;
      let newMessage :=
        {| m_id := message_id (n + 1);
           m_conversation_id := conversationId;
           m_sender_id := userId;
           m_receiver_id := receiverId;
           m_content := content;
           m_created_at := created_at;
           m_read := false |} in
      run write (set_messages (fun msgs => msgs ++ [newMessage])%list);
      run write (set_conversations
                   (touch conversationId (m_created_at newMessage)));
      ret newMessage
  end.

Definition markMessagesAsRead_mock (userId conversationId : string)
  : M Vars unit :=
  write (set_messages
           (List.map (fun msg =>
              if String.eqb (m_conversation_id msg) conversationId
                 && String.eqb (m_receiver_id msg) userId
              then with_read msg
              else msg))).

Definition same_triple (listingId userId sellerId : string)
           (conv : Conversation) : bool :=
  String.eqb (c_listing_id conv) listingId
  && String.eqb (c_buyer_id conv) userId
  && String.eqb (c_seller_id conv) sellerId.

(** The conversation objects are shared with the array: the object that
    [find] returned is resolved after the update of [last_message_at], so
    the caller sees the object as it then stands at its position. *)
Definition startConversation_mock (userId listingId sellerId initialMessage : string)
  : M Vars Conversation :=
  do existing <-
    read (fun v => (Js.find (same_triple listingId userId sellerId)
                            (mockConversations v),
                    Js.findIndex (same_triple listingId userId sellerId)
                                 (mockConversations v)));
  match existing with
  | (Some existingConversation, Some position) =>
      do n <- read (fun v => length (mockMessages v));
      do created_at <- now;
      let newMessage :=
        {| m_id := message_id (n + 1);
           m_conversation_id := c_id existingConversation;
           m_sender_id := userId;
           m_receiver_id := sellerId;
           m_content := initialMessage;
           m_created_at := created_at;
           m_read := false |} in
      run write (set_messages (fun msgs => msgs ++ [newMessage])%list);
      run write (set_conversations
                   (touch (c_id existingConversation)
                          (m_created_at newMessage)));
      read (fun v => nth position (mockConversations v) existingConversation)
  | _ =>
      do k <- read (fun v => length (mockConversations v));
      do created_at <- now;
      do last_message_at <- now;
      let newConversation :=
        {| c_id := conversation_id (k + 1);
           c_listing_id := listingId;
           c_buyer_id := userId;
           c_seller_id := sellerId;
           c_created_at := created_at;
           c_last_message_at := last_message_at;
           c_is_active := true |} in
      run write (set_conversations (fun convs => convs ++ [newConversation])%list);
      do n <- read (fun v => length (mockMessages v));
      do message_at <- now;
      let newMessage :=
        {| m_id := message_id (n + 1);
           m_conversation_id := c_id newConversation;
           m_sender_id := userId;
           m_receiver_id := sellerId;
           m_content := initialMessage;
           m_created_at := message_at;
           m_read := false |} in
      run write (set_messages (fun msgs => msgs ++ [newMessage])%list);
      ret newConversation
  end.

(** *** The exported methods *)

Definition query (table : string) (fs : list Filter) : Request :=
  {| table := table; verb := v_select "*" false; filters := fs;
     order := None; limit := None; returning := false; single := false |}.

Definition the_conversation (d : Data) : option Conversation :=
  match d with
  | d_conversation c => Some c
  | _ => None
  end.

Definition the_message (d : Data) : option Message :=
  match d with
  | d_message m => Some m
  | _ => None
  end.

Definition message_row (conversationId userId receiverId content created_at : string)
  : Row :=
  [("conversation_id", VString conversationId); ("sender_id", VString userId);
   ("receiver_id", VString receiverId); ("content", VString content);
   ("created_at", VString created_at); ("read", VBool false)].

Definition touch_remote (conversationId t : string) : Request :=
  {| table := "conversations";
     verb := v_update [("last_message_at", VString t)];
     filters := [f_eq "id" (VString conversationId)];
     order := None; limit := None; returning := false; single := false |}.

Section WithConfig.
Variable cfg : Config.

Fixpoint getMessages_ (fuel : nat) (conversationId : string)
  : M Vars (list Message) :=
  match fuel with
  | O => pending
  | S fuel =>
      do detected <- read DETECTED_MISSING_TABLES;
      if message_USE_MOCK_DATA cfg || detected then
        read (getMessages_mock conversationId)
      else
        try_catch
          (do r <- call
             {| table := "messages"; verb := v_select "*" false;
                filters := [f_eq "conversation_id" (VString conversationId)];
                order := Some ("created_at", true); limit := None;
                returning := false; single := false |};
           match error r with
           | Some e =>
               if isTableNotExistError e then
                 run write set_detected;
                 tail (getMessages_ fuel conversationId)
               else throw e
           | None =>
               done (match data r with d_messages l => l | _ => [] end)
           end)
          (fun e =>
             if isTableNotExistError e then
               run write set_detected;
               tail (getMessages_ fuel conversationId)
             else throw e)
  end.

Definition getMessages := getMessages_ 2.

(** [sendMessage] resolves with the inserted row; [None] is a [null]
    row. *)
Definition sendMessage (conversationId content : string)
  : M Vars (option Message) :=
  do userId <- Auth.getUserId cfg;
  if String.eqb userId "" then
    throw (Error "User must be logged in to send messages")
  else if message_USE_MOCK_DATA cfg then
    do newMessage <- sendMessage_mock userId conversationId content;
    ret (Some newMessage)
  else
    try_catch
      (do c <- call
         {| table := "conversations"; verb := v_select "*" false;
            filters := [f_eq "id" (VString conversationId)];
            order := None; limit := None; returning := false;
            single := true |};
       match error c with
       | Some convError => throw convError
       | None =>
           match the_conversation (data c) with
           | None => throw (TypeError "buyer_id")
           | Some conversation =>
               let receiverId :=
                 if String.eqb (c_buyer_id conversation) userId
                 then c_seller_id conversation
                 else c_buyer_id conversation in
               do created_at <- now;
               do r <- call
                 {| table := "messages";
                    verb := v_insert
                      (message_row conversationId userId receiverId content
                                   created_at);
                    filters := []; order := None; limit := None;
                    returning := true; single := true |};
               match error r with
               | Some e => throw e
               | None =>
                   do last_message_at <- now;
                   run call (touch_remote conversationId last_message_at);
                   done (the_message (data r))
               end
           end
       end)
      (fun e => throw e).

Definition markMessagesAsRead (conversationId : string) : M Vars unit :=
  do userId <- Auth.getUserId cfg;
  if String.eqb userId "" then
    throw (Error "User must be logged in to mark messages as read")
  else if message_USE_MOCK_DATA cfg then
    markMessagesAsRead_mock userId conversationId
  else
    try_catch
      (do r <- call
         {| table := "messages"; verb := v_update [("read", VBool true)];
            filters := [f_eq "conversation_id" (VString conversationId);
                        f_eq "receiver_id" (VString userId);
                        f_eq "read" (VBool false)];
            order := None; limit := None; returning := false;
            single := false |};
       match error r with
       | Some e => throw e
       | None => done tt
       end)
      (fun e => throw e).

Definition startConversation (listingId sellerId initialMessage : string)
  : M Vars Conversation :=
  do userId <- Auth.getUserId cfg;
  if String.eqb userId "" then
    throw (Error "User must be logged in to start a conversation")
  else if String.eqb userId sellerId then
    throw (Error "Cannot start a conversation with yourself")
  else if message_USE_MOCK_DATA cfg then
    startConversation_mock userId listingId sellerId initialMessage
  else
    try_catch
      (do x <- call
         (query "conversations"
            [f_eq "listing_id" (VString listingId);
             f_eq "buyer_id" (VString userId);
             f_eq "seller_id" (VString sellerId);
             f_eq "is_active" (VBool true)]);
       match error x with
       | Some checkError => throw checkError
       | None =>
           do conversationId <-
             match data x with
             | d_conversations (existing :: _) =>
                 do t <- now;
                 run call (touch_remote (c_id existing) t);
                 ret (c_id existing)
             | _ =>
                 do created_at <- now;
                 do last_message_at <- now;
                 do n <- call
                   {| table := "conversations";
                      verb := v_insert
                        [("listing_id", VString listingId);
                         ("buyer_id", VString userId);
                         ("seller_id", VString sellerId);
                         ("created_at", VString created_at);
                         ("last_message_at", VString last_message_at);
                         ("is_active", VBool true)];
                      filters := []; order := None; limit := None;
                      returning := true; single := true |};
                 match error n, the_conversation (data n) with
                 | Some createError, _ => throw createError
                 | None, None => throw (Error "Failed to create conversation")
                 | None, Some newConversation => ret (c_id newConversation)
                 end
             end;
           do message_at <- now;
           run call
             {| table := "messages";
                verb := v_insert
                  (message_row conversationId userId sellerId initialMessage
                               message_at);
                filters := []; order := None; limit := None;
                returning := false; single := false |};
           do g <- call
             {| table := "conversations"; verb := v_select "*" false;
                filters := [f_eq "id" (VString conversationId)];
                order := None; limit := None; returning := false;
                single := true |};
           match error g, the_conversation (data g) with
           | Some getError, _ => throw getError
           | None, None => throw (Error "Failed to get conversation")
           | None, Some conversation => done conversation
           end
       end)
      (fun e => throw e).

(** The two [async] callbacks of [getConversations]; neither rejects. *)
Definition unread_count_of (userId : string) (conv : Conversation)
  : M Vars (string * nat) :=
  try_catch
    (do r <- call
       {| table := "messages"; verb := v_select "*" true;
          filters := [f_eq "conversation_id" (VString (c_id conv));
                      f_eq "receiver_id" (VString userId);
                      f_eq "read" (VBool false)];
          order := None; limit := None; returning := false;
          single := false |};
     match error r with
     | Some countError =>
         if isTableNotExistError countError then
           run write set_detected;
           throw countError
         else done (c_id conv, 0)
     | None =>
         done (c_id conv, match count r with Some n => n | None => 0 end)
     end)
    (fun e =>
       if isTableNotExistError e then
         run write set_detected;
         done (c_id conv, 0)
       else done (c_id conv, 0)).

Definition last_message_of (conv : Conversation)
  : M Vars (string * option string) :=
  try_catch
    (do r <- call
       {| table := "messages"; verb := v_select "content" false;
          filters := [f_eq "conversation_id" (VString (c_id conv))];
          order := Some ("created_at", false); limit := Some 1;
          returning := false; single := false |};
     match error r with
     | Some messagesError =>
         if isTableNotExistError messagesError then
           run write set_detected;
           throw messagesError
         else done (c_id conv, None)
     | None =>
         match data r with
         | d_messages (msg :: _) => done (c_id conv, Some (m_content msg))
         | _ => done (c_id conv, None)
         end
     end)
    (fun e =>
       if isTableNotExistError e then
         run write set_detected;
         done (c_id conv, None)
       else done (c_id conv, None)).

Definition other_party (userId : string) (conv : Conversation) : string :=
  if String.eqb (c_buyer_id conv) userId then c_seller_id conv
  else c_buyer_id conv.

(** [try { ... users = usersData || [] } catch { }]: every failure leaves
    the empty array. *)
Definition fetch_users (userIds : list string) : M Vars (list OtherUser) :=
  try_catch
    (do r <- call
       {| table := "user_profiles";
          verb := v_select "id, name, profile_image" false;
          filters := [f_in "id" userIds]; order := None; limit := None;
          returning := false; single := false |};
     match error r with
     | Some _ => done []
     | None => done (match data r with d_users l => l | _ => [] end)
     end)
    (fun _ => done []).

Definition fetch_summaries (listingIds : list string)
  : M Vars (list ListingSummary) :=
  try_catch
    (do r <- call
       {| table := "book_listings";
          verb := v_select "id, title, image_url, price" false;
          filters := [f_in "id" listingIds]; order := None; limit := None;
          returning := false; single := false |};
     match error r with
     | Some _ => done []
     | None => done (match data r with d_summaries l => l | _ => [] end)
     end)
    (fun _ => done []).

Definition combine (userId : string)
           (unreadCounts : list (string * nat))
           (lastMessages : list (string * option string))
           (users : list OtherUser) (listings : list ListingSummary)
           (conv : Conversation) : ConversationWithDetails :=
  let otherUserId := other_party userId conv in
  let otherUser :=
    match Js.find (fun user => String.eqb (ou_id user) otherUserId) users with
    | Some user => user
    | None => {| ou_id := otherUserId; ou_name := "Unknown User";
                 ou_profileImage := None |}
    end in
  let unreadCount :=
    match Js.find (fun uc => String.eqb (fst uc) (c_id conv)) unreadCounts with
    | Some uc => snd uc
    | None => 0
    end in
  let lastMessage :=
    match Js.find (fun lm => String.eqb (fst lm) (c_id conv)) lastMessages with
    | Some lm => snd lm
    | None => None
    end in
  let listing :=
    match Js.find (fun l => String.eqb (ls_id l) (c_listing_id conv)) listings with
    | Some l => l
    | None => {| ls_id := c_listing_id conv; ls_title := "Unknown Book";
                 ls_image_url := None; ls_price := 0 |}
    end in
  {| cd_conversation := conv;
     cd_unreadCount := unreadCount;
     cd_lastMessage := lastMessage;
     cd_otherUser := otherUser;
     cd_listing := listing |}.

(** The flag tests that follow the two [map(async ...)] run before the
    callbacks are served: the first one sees the flag as it was before
    the unread counts, the second one as the unread counts left it, and
    the last-message queries are sent either way. *)
Fixpoint getConversations_ (fuel : nat) : M Vars (list ConversationWithDetails) :=
  match fuel with
  | O => pending
  | S fuel =>
      do userId <- Auth.getUserId cfg;
      do detected <- read DETECTED_MISSING_TABLES;
      if message_USE_MOCK_DATA cfg || detected then
        read (getConversations_mock userId)
      else
        try_catch
          (do r <- call
             {| table := "conversations"; verb := v_select "*" false;
                filters :=
                  [f_or ("buyer_id.eq." ++ userId ++ ",seller_id.eq." ++ userId);
                   f_eq "is_active" (VBool true)];
                order := Some ("last_message_at", false); limit := None;
                returning := false; single := false |};
           match error r with
           | Some e =>
               if isTableNotExistError e then
                 run write set_detected;
                 tail (getConversations_ fuel)
               else throw e
           | None =>
               match data r with
               | d_conversations (first :: rest) =>
                   let conversations := first :: rest in
                   do before_counts <- read DETECTED_MISSING_TABLES;
                   do unreadCounts <-
                     for_each (unread_count_of userId) conversations;
                   if before_counts then tail (getConversations_ fuel)
                   else
                     do before_messages <- read DETECTED_MISSING_TABLES;
                     do lastMessages <- for_each last_message_of conversations;
                     if before_messages then tail (getConversations_ fuel)
                     else
                       do users <-
                         fetch_users (List.map (other_party userId) conversations);
                       do listings <-
                         fetch_summaries (List.map c_listing_id conversations);
                       done (List.map
                               (combine userId unreadCounts lastMessages
                                        users listings)
                               conversations)
               | _ => done []
               end
           end)
          (fun e =>
             if isTableNotExistError e then
               run write set_detected;
               tail (getConversations_ fuel)
             else throw e)
  end.

Definition getConversations := getConversations_ 2.

Fixpoint getUnreadCount_ (fuel : nat) : M Vars nat :=
  match fuel with
  | O => pending
  | S fuel =>
      do userId <- Auth.getUserId cfg;
      if String.eqb userId "" then ret 0
      else
        do detected <- read DETECTED_MISSING_TABLES;
        if message_USE_MOCK_DATA cfg || detected then
          read (getUnreadCount_mock userId)
        else
          try_catch
            (do r <- call
               {| table := "messages"; verb := v_select "*" true;
                  filters := [f_eq "receiver_id" (VString userId);
                              f_eq "read" (VBool false)];
                  order := None; limit := None; returning := false;
                  single := false |};
             match error r with
             | Some e =>
                 if isTableNotExistError e then
                   run write set_detected;
                   tail (getUnreadCount_ fuel)
                 else throw e
             | None =>
                 done (match count r with Some n => n | None => 0 end)
             end)
            (fun e =>
               if isTableNotExistError e then
                 run write set_detected;
                 tail (getUnreadCount_ fuel)
               else done 0)
  end.

Definition getUnreadCount := getUnreadCount_ 2.

End WithConfig.
End MessageService.

(** ** The user service: [updateProfile] *)

Module UserService.

(** The module variable; [mockUsers] is never written. *)
Record Vars := {
  DETECTED_MISSING_TABLES : bool
}.

Definition initial : Vars := {| DETECTED_MISSING_TABLES := false |}.

Definition set_detected (v : Vars) : Vars :=
  {| DETECTED_MISSING_TABLES := true |}.

(** [obj.key]: [undefined] for a key that the object does not hold. *)
Definition property (obj : JsObject) (key : string) : option Value :=
  match obj !! key with
  | Some value => value
  | None => None
  end.

(** [{ ...user, ...profileUpdate }.key], [stored] being [user.key]: the
    spread copies every key that the update object holds, a key with the
    value [undefined] included. *)
Definition spread (stored : option Value) (profileUpdate : UserProfileUpdate)
           (key : string) : option Value :=
  match profileUpdate !! key with
  | Some value => value
  | None => stored
  end.

(** The callback of the mock branch, over the user array: the object
    literal read off [{ ...mockUsers[userIndex], ...profileUpdate }]. *)
Definition updateProfile_mock (users : list MockUser) (userId : string)
           (profileUpdate : UserProfileUpdate) : Outcome UserObject :=
  match Js.findIndex (fun user => String.eqb (mu_id user) userId) users with
  | None => Rejected (Error "User not found")
  | Some userIndex =>
      let updatedUser (field : MockUser -> option Value) (key : string) :=
        spread (users !! userIndex ≫= field) profileUpdate key in
      Resolved
        {| o_id := updatedUser (fun user => Some (VString (mu_id user))) "id";
           o_email :=
             updatedUser (fun user => Some (VString (mu_email user))) "email";
           o_name :=
             updatedUser (fun user => Some (VString (mu_name user))) "name";
           o_profileImage :=
             updatedUser (fun user => option_map VString (mu_profileImage user))
                         "profileImage";
           o_joinDate :=
             updatedUser (fun user => Some (VString (mu_joinDate user)))
                         "joinDate";
           o_rating :=
             updatedUser (fun user => Some (VNumber (mu_rating user))) "rating";
           o_bio :=
             updatedUser (fun user => option_map VString (mu_bio user)) "bio";
           o_location :=
             updatedUser (fun user => option_map VString (mu_location user))
                         "location";
           o_phone :=
             updatedUser (fun user => option_map VString (mu_phone user))
                         "phone" |}
  end.

Definition settle {St A} (o : Outcome A) : M St A := fun _ w => (o, w).

Definition user_of_row (row : ProfileRow) : User :=
  {| u_id := p_id row; u_email := p_email row; u_name := p_name row;
     u_profileImage := p_profile_image row; u_joinDate := p_join_date row;
     u_rating := p_rating row; u_bio := p_bio row;
     u_location := p_location row; u_phone := p_phone row |}.

(** The object literal built from the returned row. *)
Definition object_of_user (user : User) : UserObject :=
  {| o_id := Some (VString (u_id user));
     o_email := Some (VString (u_email user));
     o_name := Some (VString (u_name user));
     o_profileImage := option_map VString (u_profileImage user);
     o_joinDate := Some (VString (u_joinDate user));
     o_rating := option_map VNumber (u_rating user);
     o_bio := option_map VString (u_bio user);
     o_location := option_map VString (u_location user);
     o_phone := option_map VString (u_phone user) |}.

(** The keys of the object given to [update] that are sent: the
    serialisation drops the keys whose value is [undefined]. *)
Definition key (name : string) (value : option Value) : Row :=
  match value with
  | Some x => [(name, x)]
  | None => []
  end.

Definition patch (profileUpdate : UserProfileUpdate) : Row :=
  (key "name" (property profileUpdate "name")
   ++ key "profile_image" (property profileUpdate "profileImage")
   ++ key "bio" (property profileUpdate "bio")
   ++ key "location" (property profileUpdate "location")
   ++ key "phone" (property profileUpdate "phone"))%list.

Section WithConfig.
Variable cfg : Config.

Fixpoint updateProfile_ (fuel : nat) (userId : string)
         (profileUpdate : UserProfileUpdate) : M Vars UserObject :=
  match fuel with
  | O => pending
  | S fuel =>
      do detected <- read DETECTED_MISSING_TABLES;
      if user_USE_MOCK_DATA cfg || detected then
        settle (updateProfile_mock mockUsers userId profileUpdate)
      else
        try_catch
          (do r <- call
             {| table := "user_profiles"; verb := v_update (patch profileUpdate);
                filters := [f_eq "id" (VString userId)];
                order := None; limit := None; returning := true;
                single := true |};
           match error r with
           | Some e =>
               if isTableNotExistError e then
                 run write set_detected;
                 tail (updateProfile_ fuel userId profileUpdate)
               else throw e
           | None =>
               match data r with
               | d_profile row => done (object_of_user (user_of_row row))
               | _ => throw (TypeError "id")
               end
           end)
          (fun e => throw e)
  end.

Definition updateProfile := updateProfile_ 2.

End WithConfig.
End UserService.

(** ** Specification-side definitions *)

(** The caller as [getUserId] sees it. *)
Definition caller (cfg : Config) (env : Env) : Outcome string :=
  fst (Auth.getUserId cfg env (Build_Run tt [] 0)).

(** An environment: a session, a remote store and a clock. *)
Definition anonymous : SessionResult :=
  {| session_user_id := None; session_error := None |}.

Definition signed_in (userId : string) : SessionResult :=
  {| session_user_id := Some userId; session_error := None |}.

(** A remote store without the tables: every query fails with the
    relation-missing error. *)
Definition relation_missing : JsError :=
  PostgrestError "42P01" "relation does not exist".

Definition no_tables : list Request -> Reply :=
  fun _ => Returned {| data := d_null; count := None;
                       error := Some relation_missing |}.

Definition fixed_clock : nat -> string :=
  fun _ => "2024-01-01T00:00:00.000Z".


(** The predicates of [getFilteredListings] as the specification words
    them: every provided predicate constrains the listing, an omitted one
    does not. *)
Definition meets_stated (filters : BookFilterOptions) (listing : BookListing)
  : bool :=
  match categories filters with
  | Some cats =>
      match l_category listing with
      | Some c => Js.includes c cats
      | None => false
      end
  | None => true
  end
  && match conditions filters with
     | Some conds => Js.includes (l_condition listing) conds
     | None => true
     end
  && match minPrice filters with
     | Some lo => Qle_bool lo (l_price listing)
     | None => true
     end
  && match maxPrice filters with
     | Some hi => Qle_bool (l_price listing) hi
     | None => true
     end
  && match isNegotiable filters with
     | Some b => bool_decide (l_is_negotiable listing = Some b)
     | None => true
     end
  && match exchangeOption filters with
     | Some b => bool_decide (l_exchange_option listing = Some b)
     | None => true
     end.

(** The same, an empty list of categories or conditions counting as an
    omitted one. *)
Definition nonempty {A} (l : option (list A)) : option (list A) :=
  match l with
  | Some (x :: r) => Some (x :: r)
  | _ => None
  end.

Definition meets (filters : BookFilterOptions) (listing : BookListing) : bool :=
  meets_stated
    {| categories := nonempty (categories filters);
       conditions := nonempty (conditions filters);
       minPrice := minPrice filters;
       maxPrice := maxPrice filters;
       isNegotiable := isNegotiable filters;
       exchangeOption := exchangeOption filters |}
    listing.

Definition no_filters : BookFilterOptions :=
  {| categories := None; conditions := None; minPrice := None;
     maxPrice := None; isNegotiable := None; exchangeOption := None |}.

Definition mock_mode : Config :=
  {| auth_USE_MOCK_DATA := true;
     book_USE_MOCK_DATA := true;
     saved_USE_MOCK_DATA := true;
     message_USE_MOCK_DATA := true;
     user_USE_MOCK_DATA := true |}.

(** *** The fixture store of the messaging module

    [serial prefix id] reads back the number in a generated identifier:
    leading zeros, the prefix, then decimal digits.  The identifiers of the
    store follow the array positions: the entity at position [i] carries
    the number [i + 1]. *)
Fixpoint strip_zeros (s : string) : string :=
  match s with
  | String c r => if Ascii.eqb c "0" then strip_zeros r else s
  | EmptyString => s
  end.

Fixpoint strip_prefix (p s : string) : option string :=
  match p with
  | EmptyString => Some s
  | String a p' =>
      match s with
      | String b s' => if Ascii.eqb a b then strip_prefix p' s' else None
      | EmptyString => None
      end
  end.

Definition serial (p id : string) : option nat :=
  match strip_prefix p (strip_zeros id) with
  | Some d => option_map Nat.of_uint (NilEmpty.uint_of_string d)
  | None => None
  end.

Record well_formed (v : MessageService.Vars) : Prop := {
  wf_conversation_ids :
    forall i c, MessageService.mockConversations v !! i = Some c ->
                serial "conv-" (c_id c) = Some (S i);
  wf_message_ids :
    forall i m, MessageService.mockMessages v !! i = Some m ->
                serial "msg-" (m_id m) = Some (S i);
  wf_triples :
    forall i j c c',
      MessageService.mockConversations v !! i = Some c ->
      MessageService.mockConversations v !! j = Some c' ->
      c_listing_id c = c_listing_id c' -> c_buyer_id c = c_buyer_id c' ->
      c_seller_id c = c_seller_id c' -> i = j;
  wf_parties :
    forall c, c ∈ MessageService.mockConversations v ->
              c_buyer_id c <> c_seller_id c;
  wf_messages :
    forall m, m ∈ MessageService.mockMessages v ->
      exists c, c ∈ MessageService.mockConversations v
                /\ c_id c = m_conversation_id m
                /\ (m_receiver_id m = c_buyer_id c
                    \/ m_receiver_id m = c_seller_id c)
}.

(** The process states that calls of the exported methods lead to, from
    the state in which the module is loaded. *)
Inductive reachable (cfg : Config) : Run MessageService.Vars -> Prop :=
| reach_loaded :
    reachable cfg (Build_Run MessageService.initial [] 0)
| reach_getConversations env w :
    reachable cfg w ->
    reachable cfg (snd (MessageService.getConversations cfg env w))
| reach_getMessages env w conversationId :
    reachable cfg w ->
    reachable cfg (snd (MessageService.getMessages cfg conversationId env w))
| reach_sendMessage env w conversationId content :
    reachable cfg w ->
    reachable cfg
      (snd (MessageService.sendMessage cfg conversationId content env w))
| reach_markMessagesAsRead env w conversationId :
    reachable cfg w ->
    reachable cfg
      (snd (MessageService.markMessagesAsRead cfg conversationId env w))
| reach_startConversation env w listingId sellerId initialMessage :
    reachable cfg w ->
    reachable cfg
      (snd (MessageService.startConversation cfg listingId sellerId
              initialMessage env w))
| reach_getUnreadCount env w :
    reachable cfg w ->
    reachable cfg (snd (MessageService.getUnreadCount cfg env w)).

(** The number of messages of the conversation [conversationId] that are
    addressed to [userId] and not read, and the number of such messages
    in the whole store. *)
Fixpoint unread_in (conversationId userId : string) (msgs : list Message) : nat :=
  match msgs with
  | [] => 0
  | msg :: r =>
      (if bool_decide (m_conversation_id msg = conversationId
                       /\ m_receiver_id msg = userId /\ m_read msg = false)
       then 1 else 0) + unread_in conversationId userId r
  end.

Fixpoint unread_total (userId : string) (msgs : list Message) : nat :=
  match msgs with
  | [] => 0
  | msg :: r =>
      (if bool_decide (m_receiver_id msg = userId /\ m_read msg = false)
       then 1 else 0) + unread_total userId r
  end.

(** Two conversation objects that differ at most in [last_message_at]. *)
Definition akin (c c' : Conversation) : Prop :=
  c_id c' = c_id c /\ c_listing_id c' = c_listing_id c
  /\ c_buyer_id c' = c_buyer_id c /\ c_seller_id c' = c_seller_id c.

Definition stays_well_formed (w : Run MessageService.Vars) : Prop :=
  well_formed (vars w).

(** Process states and environments used as concrete inputs. *)
Definition loaded : Run MessageService.Vars :=
  Build_Run MessageService.initial [] 0.

Definition as_user (userId : string) : Env :=
  {| session := signed_in userId; remote := no_tables; clock := fixed_clock |}.

(** [triple P m Q]: started in a process state satisfying [P], the call [m]
    leaves a state satisfying [P], and a resolved value satisfies [Q]. *)
Definition triple {St A} (P : Run St -> Prop) (m : M St A) (Q : A -> Prop)
  : Prop :=
  forall env w, P w ->
    P (snd (m env w)) /\ forall a, fst (m env w) = Resolved a -> Q a.

Definition keeps {St A} (P : Run St -> Prop) (m : M St A) : Prop :=
  triple P m (fun _ => True).

(** The process after a remote branch that starts with the query [q]:
    the module variables are those of [w] and [q] has been sent. *)
Definition after_request {St} (q : Request) (w w' : Run St) : Prop :=
  vars w' = vars w /\ exists later, sent w' = (later ++ q :: sent w)%list.

(** ** Further code of the services and of their callers *)

(** *** The user service: [getUserById] *)

Module UserQueries.

(** The object built from a mock user: the fields are copied one by one. *)
Definition user_of_mock (user : MockUser) : User :=
  {| u_id := mu_id user; u_email := mu_email user; u_name := mu_name user;
     u_profileImage := mu_profileImage user; u_joinDate := mu_joinDate user;
     u_rating := Some (mu_rating user); u_bio := mu_bio user;
     u_location := mu_location user; u_phone := mu_phone user |}.

Definition profile_query (userId : string) : Request :=
  {| table := "user_profiles"; verb := v_select "*" false;
     filters := [f_eq "id" (VString userId)]; order := None; limit := None;
     returning := false; single := true |}.

Section WithConfig.
Variable cfg : Config.

(** [getUserById] resolves with a user or with [null] ([None]); its [catch]
    logs the error and returns [null]. *)
Definition getUserById (userId : string) : M UserService.Vars (option User) :=
  do detected <- read UserService.DETECTED_MISSING_TABLES;
  if user_USE_MOCK_DATA cfg || detected then
    ret (option_map user_of_mock (getMockSellerById userId))
  else
    try_catch
      (do r <- call (profile_query userId);
       match error r with
       | Some e =>
           if isTableNotExistError e then
             run write UserService.set_detected;
             done (option_map user_of_mock (getMockSellerById userId))
           else throw e
       | None =>
           match data r with
           | d_profile row => done (Some (UserService.user_of_row row))
           | _ => throw (TypeError "id")
           end
       end)
      (fun _ => done None).

End WithConfig.
End UserQueries.

(** *** [components/FilterModal.tsx]: the state updaters *)

Module FilterModal.

(** The updater of [toggleCategory]; [toggleCondition] has the same body. *)
Definition toggleCategory (category : string) (prev : list string)
  : list string :=
  if Js.includes category prev
  then List.filter (fun c => negb (String.eqb c category)) prev
  else (prev ++ [category])%list.

Definition toggleCondition (condition : string) (prev : list string)
  : list string :=
  if Js.includes condition prev
  then List.filter (fun c => negb (String.eqb c condition)) prev
  else (prev ++ [condition])%list.

(** The updater of [toggleNegotiable]; [toggleExchange] has the same body.
    [None] is [undefined]. *)
Definition toggleNegotiable (prev : option bool) : option bool :=
  match prev with
  | None => Some true
  | Some true => Some false
  | Some false => None
  end.

Definition toggleExchange (prev : option bool) : option bool :=
  match prev with
  | None => Some true
  | Some true => Some false
  | Some false => None
  end.

End FilterModal.

(** *** [screens/HomeScreen.tsx]: which listing query is sent *)

Module HomeScreen.

(** [hasFilters] of [fetchListings]: some value of the filter object is a
    non-empty array or a defined non-array.  An absent key and a key that
    holds [undefined] count alike. *)
Definition hasFilters (filters : BookFilterOptions) : bool :=
  match categories filters with
  | Some value => (0 <? length value)%nat
  | None => false
  end
  || match conditions filters with
     | Some value => (0 <? length value)%nat
     | None => false
     end
  || match minPrice filters with Some _ => true | None => false end
  || match maxPrice filters with Some _ => true | None => false end
  || match isNegotiable filters with Some _ => true | None => false end
  || match exchangeOption filters with Some _ => true | None => false end.

(** [count] of [handleApplyFilters]: the number shown on the filter
    button. *)
Definition filterCount (filters : BookFilterOptions) : nat :=
  let count := 0 in
  let count :=
    match categories filters with
    | Some value => if (0 <? length value)%nat then count + 1 else count
    | None => count
    end in
  let count :=
    match conditions filters with
    | Some value => if (0 <? length value)%nat then count + 1 else count
    | None => count
    end in
  let count :=
    match minPrice filters, maxPrice filters with
    | None, None => count
    | _, _ => count + 1
    end in
  let count :=
    match isNegotiable filters with Some _ => count + 1 | None => count end in
  match exchangeOption filters with Some _ => count + 1 | None => count end.

Inductive TabType := all | favorites | wishlist.

Section WithConfig.
Variable cfg : Config.

(** The data that [fetchListings] awaits for the active tab. *)
Definition fetchListings_data (activeTab : TabType) (filters : BookFilterOptions)
  : M SavedItemsService.Vars (list BookListing) :=
  match activeTab with
  | favorites => SavedItemsService.getFavorites cfg
  | wishlist => SavedItemsService.getWishlist cfg
  | all =>
      if hasFilters filters then BookService.getFilteredListings cfg filters
      else BookService.getListings cfg
  end.

End WithConfig.
End HomeScreen.

(** *** Specification-side definitions for the further properties *)

(** The time value of a timestamp; [0] for a text that [Date] cannot
    read. *)
Definition time_of (s : string) : Z :=
  match Js.getTime s with
  | Some t => t
  | None => 0%Z
  end.

Definition readable (s : string) : bool :=
  match Js.getTime s with
  | Some _ => true
  | None => false
  end.

(** [l] is in nondecreasing, or in nonincreasing, order of [key]. *)
Definition ascending {A} (key : A -> Z) (l : list A) : Prop :=
  forall i j a b, (i < j)%nat -> l !! i = Some a -> l !! j = Some b ->
                  (key a <= key b)%Z.

Definition descending {A} (key : A -> Z) (l : list A) : Prop :=
  forall i j a b, (i < j)%nat -> l !! i = Some a -> l !! j = Some b ->
                  (key b <= key a)%Z.

(** The answer of the remote client reports a missing relation, as an
    [error] of the result or as a thrown error. *)
Definition reports_missing (reply : Reply) : bool :=
  match reply with
  | Returned r =>
      match error r with
      | Some e => isTableNotExistError e
      | None => false
      end
  | Threw e => isTableNotExistError e
  end.

(** The states of the saved-items module that its exported methods lead
    to. *)
Inductive saved_reachable (cfg : Config)
  : Run SavedItemsService.Vars -> Prop :=
| saved_loaded :
    saved_reachable cfg (Build_Run SavedItemsService.initial [] 0)
| saved_add env w bookId type :
    saved_reachable cfg w ->
    saved_reachable cfg
      (snd (SavedItemsService.addSavedItem cfg bookId type env w))
| saved_remove env w bookId type :
    saved_reachable cfg w ->
    saved_reachable cfg
      (snd (SavedItemsService.removeSavedItem cfg bookId type env w))
| saved_is env w bookId type :
    saved_reachable cfg w ->
    saved_reachable cfg
      (snd (SavedItemsService.isSavedItem cfg bookId type env w))
| saved_toggle env w bookId type :
    saved_reachable cfg w ->
    saved_reachable cfg
      (snd (SavedItemsService.toggleSavedItem cfg bookId type env w))
| saved_get env w type :
    saved_reachable cfg w ->
    saved_reachable cfg (snd (SavedItemsService.getSavedItems cfg type env w)).

(** An environment whose remote client answers the first request with
    the conversations [rows] and every later one with no data. *)
Definition answering (userId : string) (rows : list Conversation) : Env :=
  {| session := signed_in userId;
     remote := fun log =>
       match log with
       | [_] => Returned {| data := d_conversations rows; count := None;
                            error := None |}
       | _ => Returned {| data := d_null; count := None; error := None |}
       end;
     clock := fixed_clock |}.

#[global] Instance SavedItemType_eq_dec : EqDecision SavedItemType.
Proof. solve_decision. Defined.

(** No book id is listed twice for a user. *)
Definition no_duplicates (v : SavedItemsService.Vars) : Prop :=
  forall userId type, NoDup (SavedItemsService.savedIds userId type v).

(** *** The remote client as the claims on the remote branches take it *)

(** What a condition of a request on [book_listings] holds of a row, as
    the data service evaluates it; a condition on a column that is no
    column of the filters holds. *)
Definition satisfies (listing : BookListing) (f : Filter) : bool :=
  match f with
  | f_in column values =>
      if String.eqb column "category" then
        match l_category listing with
        | Some c => Js.includes c values
        | None => false
        end
      else if String.eqb column "condition" then
        Js.includes (l_condition listing) values
      else true
  | f_gte column value =>
      if String.eqb column "price" then Qle_bool value (l_price listing)
      else true
  | f_lte column value =>
      if String.eqb column "price" then Qle_bool (l_price listing) value
      else true
  | f_eq column (VBool b) =>
      if String.eqb column "is_negotiable" then
        match l_is_negotiable listing with
        | Some x => Bool.eqb x b
        | None => false
        end
      else if String.eqb column "exchange_option" then
        match l_exchange_option listing with
        | Some x => Bool.eqb x b
        | None => false
        end
      else true
  | f_eq column (VString text) =>
      if String.eqb column "category" then
        match l_category listing with
        | Some c => String.eqb c text
        | None => false
        end
      else if String.eqb column "seller_id" then
        String.eqb (l_seller_id listing) text
      else true
  | _ => true
  end.

(** The rows of [table] that a request selects: those that satisfy every
    condition, in the order the request asks for. *)
Definition select (q : Request) (table : list BookListing) : list BookListing :=
  let found :=
    List.filter (fun listing => forallb (satisfies listing) (filters q)) table in
  match order q with
  | Some (column, ascending) =>
      if String.eqb column "created_at" then
        Js.sort (fun a b =>
                   if ascending : bool
                   then Js.time_diff (l_created_at a) (l_created_at b)
                   else Js.time_diff (l_created_at b) (l_created_at a))
                found
      else found
  | None => found
  end.

(** A remote client that answers every request from the listings of
    [table]. *)
Definition book_store (table : list BookListing) : list Request -> Reply :=
  fun log =>
    match log with
    | q :: _ => Returned {| data := d_listings (select q table); count := None;
                            error := None |}
    | [] => Returned {| data := d_null; count := None; error := None |}
    end.


(** A remote client that answers the [k]-th request of the process with
    the [k]-th reply of a script, and with no data once the script is
    used up. *)
Definition found (d : Data) : Reply :=
  Returned {| data := d; count := None; error := None |}.

Definition scripted (replies : list Reply) : list Request -> Reply :=
  fun log => nth (length log - 1) replies (found d_null).

(** A clock that advances by one second from reading to reading. *)
Definition ticking_clock : nat -> string :=
  fun n => "2024-01-01T00:00:" ++ Js.padStart 2 "0" (Js.number_toString n)
           ++ ".000Z".

(** What a request log holds for the messaging tables, latest first: the
    message rows sent for insertion, and the [last_message_at] values
    written, each with the id of its conversation. *)
Definition message_insert (q : Request) : option Row :=
  match verb q with
  | v_insert row => if String.eqb (table q) "messages" then Some row else None
  | _ => None
  end.

Definition stamp (q : Request) : option (string * string) :=
  match verb q, filters q with
  | v_update [(column, VString t)], [f_eq key (VString id)] =>
      if String.eqb (table q) "conversations"
         && String.eqb column "last_message_at" && String.eqb key "id"
      then Some (id, t)
      else None
  | _, _ => None
  end.

Definition message_inserts (log : list Request) : list Row :=
  omap message_insert log.

Definition stamps (log : list Request) : list (string * string) :=
  omap stamp log.

(** *** The user object, key by key *)

Definition user_keys : list string :=
  ["id"; "email"; "name"; "profileImage"; "joinDate"; "rating"; "bio";
   "location"; "phone"].

Definition field_of (key : string) (o : UserObject) : option Value :=
  if String.eqb key "id" then o_id o
  else if String.eqb key "email" then o_email o
  else if String.eqb key "name" then o_name o
  else if String.eqb key "profileImage" then o_profileImage o
  else if String.eqb key "joinDate" then o_joinDate o
  else if String.eqb key "rating" then o_rating o
  else if String.eqb key "bio" then o_bio o
  else if String.eqb key "location" then o_location o
  else if String.eqb key "phone" then o_phone o
  else None.

(** A mock user as the object that [updateProfile] reads. *)
Definition stored_object (user : MockUser) : UserObject :=
  {| o_id := Some (VString (mu_id user));
     o_email := Some (VString (mu_email user));
     o_name := Some (VString (mu_name user));
     o_profileImage := option_map VString (mu_profileImage user);
     o_joinDate := Some (VString (mu_joinDate user));
     o_rating := Some (VNumber (mu_rating user));
     o_bio := option_map VString (mu_bio user);
     o_location := option_map VString (mu_location user);
     o_phone := option_map VString (mu_phone user) |}.

(** The keys of the update object that the remote branch reads, each with
    the column it is sent as. *)
Definition profile_columns : list (string * string) :=
  [("name", "name"); ("profileImage", "profile_image"); ("bio", "bio");
   ("location", "location"); ("phone", "phone")].

(** ** Properties *)

Section MonadFacts.
Context {St : Type}.

Lemma getUserId_caller cfg env (w : Run St) :
  Auth.getUserId cfg env w = (caller cfg env, w).
Proof.
  unfold caller, Auth.getUserId.
  destruct (auth_USE_MOCK_DATA cfg); [reflexivity|].
  unfold bind, getSession.
  destruct (session_error (session env)); [reflexivity|].
  destruct (session_user_id (session env)) as [id|]; [|reflexivity].
  destruct (String.eqb id ""); reflexivity.
Qed.

Lemma caller_not_empty cfg env userId :
  caller cfg env = Resolved userId -> String.eqb userId "" = false.
Proof.
  unfold caller, Auth.getUserId.
  destruct (auth_USE_MOCK_DATA cfg).
  - simpl. intros [= <-]. reflexivity.
  - unfold bind, getSession; simpl.
    destruct (session_error (session env)); [discriminate|].
    destruct (session_user_id (session env)) as [id|]; [|discriminate].
    destruct (String.eqb id "") eqn:E; [discriminate|].
    simpl. intros [= <-]. exact E.
Qed.
End MonadFacts.

(** C2.  An anonymous caller of [isSavedItem], [getSavedItems] or
    [getUnreadCount] gets the rejection "Not authenticated" of [getUserId]:
    the calls fail instead of yielding [false], the empty list and [0]. *)
Theorem anonymous_caller_is_rejected
  (book saved message user : bool) (remote : list Request -> Reply)
  (clock : nat -> string) (bookId : string) (type : SavedItemType)
  (ws : Run SavedItemsService.Vars) (wm : Run MessageService.Vars) :
  let cfg := {| auth_USE_MOCK_DATA := false; book_USE_MOCK_DATA := book;
                saved_USE_MOCK_DATA := saved; message_USE_MOCK_DATA := message;
                user_USE_MOCK_DATA := user |} in
  let env := {| session := anonymous; remote := remote; clock := clock |} in
  SavedItemsService.isSavedItem cfg bookId type env ws
    = (Rejected (Error "Not authenticated"), ws)
  /\ SavedItemsService.getSavedItems cfg type env ws
    = (Rejected (Error "Not authenticated"), ws)
  /\ MessageService.getUnreadCount cfg env wm
    = (Rejected (Error "Not authenticated"), wm).
Proof.
  intros cfg env. repeat split; reflexivity.
Qed.

(** *** A small program logic for the service monad *)
Section Triples.
Context {St : Type}.
Variable P : Run St -> Prop.

Hypothesis P_tick : forall w, P w -> P (Build_Run (vars w) (sent w) (S (ticks w))).
Hypothesis P_sent : forall w q, P w -> P (Build_Run (vars w) (q :: sent w) (ticks w)).

Lemma triple_weaken {A} (m : M St A) (Q Q' : A -> Prop) :
  (forall a, Q a -> Q' a) -> triple P m Q -> triple P m Q'.
Proof.
  intros HQ Hm env w Hw. destruct (Hm env w Hw) as [H1 H2].
  split; [exact H1 | intros a Ha; apply HQ, H2, Ha].
Qed.

Lemma triple_ret {A} (a : A) (Q : A -> Prop) : Q a -> triple P (ret a) Q.
Proof.
  intros Ha env w Hw. split; [exact Hw|]. simpl. intros b [= <-]. exact Ha.
Qed.

Lemma triple_throw {A} (e : JsError) (Q : A -> Prop) : triple P (throw e) Q.
Proof. intros env w Hw. split; [exact Hw|]. simpl. discriminate. Qed.

Lemma triple_pending {A} (Q : A -> Prop) : triple P (@pending St A) Q.
Proof. intros env w Hw. split; [exact Hw|]. simpl. discriminate. Qed.

Lemma triple_bind {A B} (m : M St A) (k : A -> M St B) (R : A -> Prop)
      (Q : B -> Prop) :
  triple P m R -> (forall a, R a -> triple P (k a) Q) -> triple P (bind m k) Q.
Proof.
  intros Hm Hk env w Hw. unfold bind.
  destruct (Hm env w Hw) as [H1 H2].
  destruct (m env w) as [[a| e |] w']; simpl in *.
  - apply (Hk a (H2 a eq_refl) env w' H1).
  - split; [exact H1 | discriminate].
  - split; [exact H1 | discriminate].
Qed.

Lemma triple_try_catch {A} (body : M St (M St A))
      (handler : JsError -> M St (M St A)) (Q : A -> Prop) :
  triple P body (fun k => triple P k Q) ->
  (forall e, triple P (handler e) (fun k => triple P k Q)) ->
  triple P (try_catch body handler) Q.
Proof.
  intros Hb Hh env w Hw. unfold try_catch.
  destruct (Hb env w Hw) as [H1 H2].
  destruct (body env w) as [[k| e |] w']; simpl in *.
  - apply (H2 k eq_refl env w' H1).
  - destruct (Hh e env w' H1) as [H3 H4].
    destruct (handler e env w') as [[k| e' |] w'']; simpl in *.
    + apply (H4 k eq_refl env w'' H3).
    + split; [exact H3 | discriminate].
    + split; [exact H3 | discriminate].
  - split; [exact H1 | discriminate].
Qed.

Lemma triple_read {A} (f : St -> A) (Q : A -> Prop) :
  (forall w, P w -> Q (f (vars w))) -> triple P (read f) Q.
Proof.
  intros HQ env w Hw. split; [exact Hw|]. simpl. intros a [= <-]. auto.
Qed.

Lemma triple_write (f : St -> St) (Q : unit -> Prop) :
  (forall w, P w -> P (Build_Run (f (vars w)) (sent w) (ticks w))) ->
  Q tt -> triple P (write f) Q.
Proof.
  intros Hf HQ env w Hw. split; [apply Hf, Hw|]. simpl. intros [] _. exact HQ.
Qed.

Lemma triple_now (Q : string -> Prop) :
  (forall t, Q t) -> triple P now Q.
Proof.
  intros HQ env w Hw. split; [apply P_tick, Hw|]. intros a _. apply HQ.
Qed.

Lemma triple_call (q : Request) (Q : Response -> Prop) :
  (forall r, Q r) -> triple P (call q) Q.
Proof.
  intros HQ env w Hw. unfold call.
  destruct (remote env (q :: sent w)); simpl;
    (split; [apply P_sent, Hw | intros a _; apply HQ]).
Qed.

Lemma triple_getSession (Q : SessionResult -> Prop) :
  (forall s, Q s) -> triple P getSession Q.
Proof. intros HQ env w Hw. split; [exact Hw|]. intros a _. apply HQ. Qed.

Lemma triple_getUserId cfg (Q : string -> Prop) :
  (forall u, Q u) -> triple P (Auth.getUserId cfg) Q.
Proof.
  intros HQ env w Hw. rewrite getUserId_caller. simpl.
  split; [exact Hw | intros a _; apply HQ].
Qed.

Lemma triple_for_each {A B} (f : A -> M St B) (l : list A)
      (Q : list B -> Prop) :
  (forall x, keeps P (f x)) -> (forall ys, Q ys) -> triple P (for_each f l) Q.
Proof.
  intros Hf HQ. apply triple_weaken with (Q := fun _ => True); [auto|].
  induction l as [|x r IH]; simpl.
  - apply triple_ret. exact I.
  - apply triple_bind with (R := fun _ => True); [apply Hf|]. intros y _.
    apply triple_bind with (R := fun _ => True); [exact IH|]. intros ys _.
    apply triple_ret. exact I.
Qed.

End Triples.

Ltac triple_step side :=
  first
    [ exact I
    | assumption
    | solve [side]
    | apply triple_ret
    | apply triple_throw
    | apply triple_pending
    | apply triple_try_catch
    | apply triple_getUserId
    | apply triple_now; [solve [side] |]
    | apply triple_call; [solve [side] |]
    | apply triple_write; [solve [side] |]
    | apply triple_read
    | apply triple_for_each
    | apply triple_bind with (R := fun _ => True)
    | match goal with
      | |- triple _ (match ?x with _ => _ end) _ => destruct x eqn:?
      | |- triple _ (if ?x then _ else _) _ => destruct x eqn:?
      | |- keeps _ _ => unfold keeps
      end ].

Ltac triple_auto side :=
  repeat (intros; cbv beta; unfold done, tail; triple_step side).

Section FirstRequest.
Context {St : Type}.

Lemma try_catch_bind {A B} (m : M St A) (K : A -> M St (M St B))
      (H : JsError -> M St (M St B)) env w :
  try_catch (bind m K) H env w =
  match m env w with
  | (Resolved a, w1) => try_catch (K a) H env w1
  | (Rejected e, w1) => try_catch (throw e) H env w1
  | (Pending, w1) => (Pending, w1)
  end.
Proof.
  unfold try_catch, bind. destruct (m env w) as [[a|e|] w1]; reflexivity.
Qed.

Lemma after_request_tick q (w w' : Run St) :
  after_request q w w' ->
  after_request q w (Build_Run (vars w') (sent w') (S (ticks w'))).
Proof. intros H. exact H. Qed.

Lemma after_request_sent q (w w' : Run St) q' :
  after_request q w w' ->
  after_request q w (Build_Run (vars w') (q' :: sent w') (ticks w')).
Proof.
  intros [Hv [later Hl]]. split; [exact Hv|]. exists (q' :: later). simpl.
  now rewrite Hl.
Qed.

Lemma first_request {B} q (K : Response -> M St (M St B))
      (H : JsError -> M St (M St B)) env w :
  (forall r, triple (after_request q w) (K r)
                    (fun k => keeps (after_request q w) k)) ->
  (forall e, triple (after_request q w) (H e)
                    (fun k => keeps (after_request q w) k)) ->
  after_request q w (snd (try_catch (bind (call q) K) H env w)).
Proof.
  intros HK HH. rewrite try_catch_bind. unfold call.
  assert (P1 : after_request q w (Build_Run (vars w) (q :: sent w) (ticks w))).
  { split; [reflexivity|]. exists []. reflexivity. }
  destruct (remote env (q :: sent w)) as [r|e].
  - apply (triple_try_catch _ _ _ _ (HK r) HH env _ P1).
  - refine (proj1 (triple_try_catch _ _ _ (fun _ => True) _ HH env _ P1)).
    apply triple_throw.
Qed.
End FirstRequest.

(** C1.  With the shipped constant [USE_MOCK_DATA = false] and the flag
    [DETECTED_MISSING_TABLES] raised, the read methods [getConversations],
    [getMessages] and [getUnreadCount] answer from the mock collections
    without a request, but [sendMessage], [markMessagesAsRead] and
    [startConversation] do not look at the flag: each of them still sends
    its first query to the remote client and leaves the mock collections
    as they were. *)
Theorem raised_flag_does_not_reach_the_writes
  (cfg : Config) (env : Env) (w : Run MessageService.Vars)
  (userId conversationId content listingId sellerId initialMessage : string) :
  message_USE_MOCK_DATA cfg = false ->
  MessageService.DETECTED_MISSING_TABLES (vars w) = true ->
  caller cfg env = Resolved userId ->
  userId <> sellerId ->
  (MessageService.getConversations cfg env w
   = (Resolved (MessageService.getConversations_mock userId (vars w)), w)
   /\ MessageService.getMessages cfg conversationId env w
      = (Resolved (MessageService.getMessages_mock conversationId (vars w)), w)
   /\ MessageService.getUnreadCount cfg env w
      = (Resolved (MessageService.getUnreadCount_mock userId (vars w)), w))
  /\ after_request
    {| table := "conversations"; verb := v_select "*" false;
       filters := [f_eq "id" (VString conversationId)];
       order := None; limit := None; returning := false; single := true |}
    w (snd (MessageService.sendMessage cfg conversationId content env w))
  /\ after_request
    {| table := "messages"; verb := v_update [("read", VBool true)];
       filters := [f_eq "conversation_id" (VString conversationId);
                   f_eq "receiver_id" (VString userId);
                   f_eq "read" (VBool false)];
       order := None; limit := None; returning := false; single := false |}
    w (snd (MessageService.markMessagesAsRead cfg conversationId env w))
  /\ after_request
    (MessageService.query "conversations"
       [f_eq "listing_id" (VString listingId);
        f_eq "buyer_id" (VString userId);
        f_eq "seller_id" (VString sellerId);
        f_eq "is_active" (VBool true)])
    w (snd (MessageService.startConversation cfg listingId sellerId
              initialMessage env w)).
Proof.
  intros Hmock Hflag Hcaller Hne.
  pose proof (caller_not_empty _ _ _ Hcaller) as Hu.
  assert (Hseller : String.eqb userId sellerId = false)
    by (apply String.eqb_neq; exact Hne).
  split; [|split; [|split]].
  - assert (Hfix : message_USE_MOCK_DATA cfg
                   || MessageService.DETECTED_MISSING_TABLES (vars w) = true)
      by (rewrite Hflag; apply orb_true_r).
    split; [|split].
    + unfold MessageService.getConversations, MessageService.getConversations_,
        bind at 1.
      rewrite getUserId_caller, Hcaller. unfold bind at 1, read at 1.
      now rewrite Hfix.
    + unfold MessageService.getMessages, MessageService.getMessages_,
        bind at 1, read at 1.
      now rewrite Hfix.
    + unfold MessageService.getUnreadCount, MessageService.getUnreadCount_,
        bind at 1.
      rewrite getUserId_caller, Hcaller, Hu. unfold bind at 1, read at 1.
      now rewrite Hfix.
  - unfold MessageService.sendMessage, bind at 1.
    rewrite getUserId_caller, Hcaller, Hu, Hmock.
    apply first_request;
      triple_auto ltac:(intros;
        first [apply after_request_tick | apply after_request_sent]; assumption).
  - unfold MessageService.markMessagesAsRead, bind at 1.
    rewrite getUserId_caller, Hcaller, Hu, Hmock.
    apply first_request;
      triple_auto ltac:(intros;
        first [apply after_request_tick | apply after_request_sent]; assumption).
  - unfold MessageService.startConversation, bind at 1.
    rewrite getUserId_caller, Hcaller, Hu, Hseller, Hmock.
    apply first_request;
      triple_auto ltac:(intros;
        first [apply after_request_tick | apply after_request_sent]; assumption).
Qed.

(** The first relation-missing error seen by [getMessages] raises the flag;
    the [sendMessage] that follows goes to the remote client, is rejected
    with that error and appends nothing to the mock messages. *)
Lemma raised_flag_does_not_reach_the_writes_witness :
  let env := {| session := signed_in "user-001"; remote := no_tables;
                clock := fixed_clock |} in
  let w := snd (MessageService.getMessages shipped "conv-001" env
                  (Build_Run MessageService.initial [] 0)) in
  (message_USE_MOCK_DATA shipped = false
   /\ MessageService.DETECTED_MISSING_TABLES (vars w) = true
   /\ caller shipped env = Resolved "user-001"
   /\ "user-001" <> "user-005")
  /\ after_request
       {| table := "conversations"; verb := v_select "*" false;
          filters := [f_eq "id" (VString "conv-001")];
          order := None; limit := None; returning := false; single := true |}
       w (snd (MessageService.sendMessage shipped "conv-001" "Hello" env w))
  /\ fst (MessageService.sendMessage shipped "conv-001" "Hello" env w)
     = Rejected relation_missing
  /\ length (sent (snd (MessageService.sendMessage shipped "conv-001" "Hello"
                          env w))) = 2
  /\ MessageService.mockMessages
       (vars (snd (MessageService.sendMessage shipped "conv-001" "Hello" env w)))
     = MessageService.mockMessages MessageService.initial.
Proof.
  intros env w.
  assert (Hne : "user-001" <> "user-005") by discriminate.
  split; [repeat split; exact Hne|].
  split.
  - apply (raised_flag_does_not_reach_the_writes shipped env w "user-001"
             "conv-001" "Hello" "book-005" "user-005" "Hi"
             eq_refl eq_refl eq_refl Hne).
  - repeat split.
Defined.

(** *** Listings *)

Lemma filter_filter_and {A} (p q : A -> bool) (l : list A) :
  List.filter p (List.filter q l) = List.filter (fun x => q x && p x) l.
Proof.
  induction l as [|x r IH]; simpl; [reflexivity|].
  destruct (q x); simpl; [destruct (p x)|]; now rewrite IH.
Qed.

Lemma filter_true {A} (l : list A) : List.filter (fun _ => true) l = l.
Proof. induction l as [|x r IH]; simpl; [reflexivity | now rewrite IH]. Qed.

Lemma filter_agree {A} (p q : A -> bool) (l : list A) :
  Forall (fun x => p x = q x) l -> List.filter p l = List.filter q l.
Proof.
  induction 1 as [|x r Hx _ IH]; simpl; [reflexivity|].
  rewrite Hx, IH. reflexivity.
Qed.

Lemma eqb_bool_decide (o : option bool) (b : bool) :
  match o with Some x => Bool.eqb x b | None => false end
  = bool_decide (o = Some b).
Proof.
  destruct o as [x|]; [|reflexivity].
  destruct x, b; reflexivity.
Qed.

Lemma applyFilters_meets (filters : BookFilterOptions)
      (listings : list BookListing) :
  Forall (fun listing => l_category listing <> Some "") listings ->
  BookService.applyFilters filters listings = List.filter (meets filters) listings.
Proof.
  intros Hcat. unfold BookService.applyFilters.
  transitivity
    (List.filter
       (fun listing =>
          match nonempty (categories filters) with
          | Some cats =>
              match l_category listing with
              | Some c => BookService.truthy (Some c) && Js.includes c cats
              | None => false
              end
          | None => true
          end
          && match nonempty (conditions filters) with
             | Some conds => Js.includes (l_condition listing) conds
             | None => true
             end
          && match minPrice filters with
             | Some lo => Qle_bool lo (l_price listing)
             | None => true
             end
          && match maxPrice filters with
             | Some hi => Qle_bool (l_price listing) hi
             | None => true
             end
          && match isNegotiable filters with
             | Some b => match l_is_negotiable listing with
                         | Some x => Bool.eqb x b
                         | None => false
                         end
             | None => true
             end
          && match exchangeOption filters with
             | Some b => match l_exchange_option listing with
                         | Some x => Bool.eqb x b
                         | None => false
                         end
             | None => true
             end) listings).
  - rewrite <- !filter_filter_and.
    destruct (exchangeOption filters); [f_equal|rewrite filter_true];
    (destruct (isNegotiable filters); [f_equal|rewrite filter_true]);
    (destruct (maxPrice filters); [f_equal|rewrite filter_true]);
    (destruct (minPrice filters); [f_equal|rewrite filter_true]);
    (destruct (conditions filters) as [[|? ?]|]; simpl;
       [rewrite filter_true| f_equal |rewrite filter_true]);
    (destruct (categories filters) as [[|? ?]|]; simpl;
       [rewrite filter_true| |rewrite filter_true]); reflexivity.
  - apply filter_agree. eapply Forall_impl; [exact Hcat|].
    intros listing Hne. unfold meets, meets_stated; simpl.
    assert (Hc : forall cats,
               match l_category listing with
               | Some c => BookService.truthy (Some c) && Js.includes c cats
               | None => false
               end
               = match l_category listing with
                 | Some c => Js.includes c cats
                 | None => false
                 end).
    { intros cats. destruct (l_category listing) as [c|] eqn:E; [|reflexivity].
      unfold BookService.truthy.
      destruct (String.eqb_spec c ""); [congruence|reflexivity]. }
    destruct (nonempty (categories filters)), (nonempty (conditions filters)),
      (isNegotiable filters), (exchangeOption filters);
      rewrite ?Hc, ?eqb_bool_decide; reflexivity.
Qed.

Lemma mockListings_categories :
  Forall (fun listing => l_category listing <> Some "") mockListings.
Proof. repeat constructor; discriminate. Qed.

(** *** The user service *)

Lemma find_findIndex {A} (p : A -> bool) (l : list A) :
  match Js.findIndex p l with
  | Some i => exists x, l !! i = Some x /\ Js.find p l = Some x /\ p x = true
  | None => Js.find p l = None /\ Forall (fun x => p x = false) l
  end.
Proof.
  induction l as [|y r IH]; simpl.
  - split; [reflexivity | constructor].
  - destruct (p y) eqn:E.
    + exists y. auto.
    + destruct (Js.findIndex p r) as [i|]; simpl.
      * exact IH.
      * destruct IH as [H1 H2]. split; [exact H1 | constructor; assumption].
Qed.

Lemma updateProfile_mock_branch cfg env (w : Run UserService.Vars) userId
      profileUpdate :
  user_USE_MOCK_DATA cfg || UserService.DETECTED_MISSING_TABLES (vars w) = true ->
  UserService.updateProfile cfg userId profileUpdate env w
  = (UserService.updateProfile_mock mockUsers userId profileUpdate, w).
Proof.
  intros Hmock. unfold UserService.updateProfile. simpl.
  unfold bind, read. rewrite Hmock. reflexivity.
Qed.

(** C7.  On the fixture path [updateProfile] resolves with an object
    whose nine keys hold, each one, the value of the update object when
    the update object holds the key and the value of the stored user
    otherwise: a key that the update does not name is left as stored
    ([id], [email], [joinDate] and [rating] for an update of the declared
    type), and a key that it names takes the value it gives, [undefined]
    included.  For an id that no user has the call rejects with
    "User not found".  In both cases no variable and no stored user
    changes. *)
Theorem updateProfile_is_a_partial_update
  (cfg : Config) (env : Env) (w : Run UserService.Vars)
  (userId : string) (profileUpdate : UserProfileUpdate) :
  user_USE_MOCK_DATA cfg || UserService.DETECTED_MISSING_TABLES (vars w) = true ->
  match getMockSellerById userId with
  | Some user =>
      mu_id user = userId
      /\ exists updated,
           UserService.updateProfile cfg userId profileUpdate env w
           = (Resolved updated, w)
           /\ forall key,
                key ∈ user_keys ->
                field_of key updated
                = match profileUpdate !! key with
                  | Some value => value
                  | None => field_of key (stored_object user)
                  end
  | None =>
      UserService.updateProfile cfg userId profileUpdate env w
      = (Rejected (Error "User not found"), w)
  end.
Proof.
  intros Hmock. rewrite (updateProfile_mock_branch _ _ _ _ _ Hmock).
  unfold UserService.updateProfile_mock, getMockSellerById.
  pose proof (find_findIndex (fun user => String.eqb (mu_id user) userId)
                             mockUsers) as H.
  destruct (Js.findIndex _ mockUsers) as [i|].
  - destruct H as [user [Hi [Hf Hid]]]. rewrite Hf, Hi.
    split; [now apply String.eqb_eq|].
    eexists. split; [reflexivity|]. intros key Hkey. unfold user_keys in Hkey.
    repeat (apply elem_of_cons in Hkey as [-> | Hkey]; [reflexivity|]).
    inversion Hkey.
  - destruct H as [Hf _]. rewrite Hf. reflexivity.
Qed.

Lemma updateProfile_is_a_partial_update_witness :
  exists updated,
    UserService.updateProfile shipped "user-002"
      (<["bio" := None]> (<["name" := Some (VString "Emily W.")]> ∅))
      {| session := anonymous; remote := no_tables; clock := fixed_clock |}
      (Build_Run (UserService.set_detected UserService.initial) [] 0)
    = (Resolved updated,
       Build_Run (UserService.set_detected UserService.initial) [] 0)
    /\ field_of "name" updated = Some (VString "Emily W.")
    /\ field_of "bio" updated = None
    /\ field_of "email" updated = Some (VString "emily.wong@example.com").
Proof.
  destruct (updateProfile_is_a_partial_update shipped
              {| session := anonymous; remote := no_tables; clock := fixed_clock |}
              (Build_Run (UserService.set_detected UserService.initial) [] 0)
              "user-002"
              (<["bio" := None]> (<["name" := Some (VString "Emily W.")]> ∅))
              eq_refl)
    as [_ [updated [Hrun Hkeys]]].
  exists updated. split; [exact Hrun|].
  split; [|split].
  - rewrite Hkeys; [reflexivity|]. unfold user_keys.
    do 2 apply list_elem_of_further. apply list_elem_of_here.
  - rewrite Hkeys; [reflexivity|]. unfold user_keys.
    do 6 apply list_elem_of_further. apply list_elem_of_here.
  - rewrite Hkeys; [reflexivity|]. unfold user_keys.
    apply list_elem_of_further, list_elem_of_here.
Defined.

(** *** Saved items *)

Section SavedItems.
Import SavedItemsService.

Lemma includes_app_last (b : string) (l : list string) :
  Js.includes b (l ++ [b])%list = true.
Proof.
  unfold Js.includes. rewrite existsb_app. simpl.
  rewrite String.eqb_refl. now rewrite orb_true_r.
Qed.

Lemma entry_insert (record : gmap string (list string)) userId ids :
  entry (<[userId := ids]> record) userId = ids.
Proof. unfold entry. now rewrite lookup_insert_eq. Qed.

Lemma entry_insert_ne (record : gmap string (list string)) userId other ids :
  userId <> other -> entry (<[userId := ids]> record) other = entry record other.
Proof. intros H. unfold entry. now rewrite lookup_insert_ne. Qed.

Lemma add_to_includes record userId bookId :
  Js.includes bookId (entry (add_to record userId bookId) userId) = true.
Proof.
  unfold add_to. rewrite entry_insert.
  destruct (Js.includes bookId (entry record userId)) eqn:E; simpl.
  - now rewrite entry_insert.
  - rewrite entry_insert. apply includes_app_last.
Qed.

Lemma add_to_twice record userId bookId :
  add_to (add_to record userId bookId) userId bookId
  = add_to record userId bookId.
Proof.
  pose proof (add_to_includes record userId bookId) as Hin.
  unfold add_to at 1. rewrite entry_insert, Hin. simpl.
  unfold add_to. rewrite entry_insert.
  destruct (Js.includes bookId (entry record userId)); simpl;
    rewrite ?entry_insert, !insert_insert_eq; reflexivity.
Qed.

Lemma filter_not_included (bookId : string) (ids : list string) :
  Js.includes bookId ids = false ->
  List.filter (fun id => negb (String.eqb id bookId)) ids = ids.
Proof.
  unfold Js.includes. induction ids as [|x r IH]; simpl; [reflexivity|].
  intros H. apply orb_false_iff in H as [Hx Hr].
  rewrite String.eqb_sym, Hx. simpl. now rewrite IH.
Qed.

Lemma remove_from_absent record userId bookId other :
  Js.includes bookId (entry record userId) = false ->
  entry (remove_from record userId bookId) other = entry record other.
Proof.
  intros H. unfold remove_from. rewrite (filter_not_included _ _ H).
  destruct (decide (userId = other)) as [<-|Hne].
  - apply entry_insert.
  - now apply entry_insert_ne.
Qed.

Lemma addSavedItem_mock_branch cfg env (w : Run Vars) userId bookId type :
  saved_USE_MOCK_DATA cfg || DETECTED_MISSING_TABLE (vars w) = true ->
  caller cfg env = Resolved userId ->
  addSavedItem cfg bookId type env w
  = (Resolved tt,
     Build_Run (add_mock userId bookId type (vars w)) (sent w) (ticks w)).
Proof.
  intros Hmock Hcaller. unfold addSavedItem, addSavedItem_, bind at 1.
  rewrite getUserId_caller, Hcaller, (caller_not_empty _ _ _ Hcaller).
  unfold fixture, bind, read, ret. rewrite Hmock. reflexivity.
Qed.

Lemma removeSavedItem_mock_branch cfg env (w : Run Vars) userId bookId type :
  saved_USE_MOCK_DATA cfg || DETECTED_MISSING_TABLE (vars w) = true ->
  caller cfg env = Resolved userId ->
  removeSavedItem cfg bookId type env w
  = (Resolved tt,
     Build_Run (remove_mock userId bookId type (vars w)) (sent w) (ticks w)).
Proof.
  intros Hmock Hcaller. unfold removeSavedItem, removeSavedItem_, bind at 1.
  rewrite getUserId_caller, Hcaller, (caller_not_empty _ _ _ Hcaller).
  unfold fixture, bind, read, ret. rewrite Hmock. reflexivity.
Qed.

Lemma isSavedItem_mock_branch cfg env (w : Run Vars) userId bookId type :
  saved_USE_MOCK_DATA cfg || DETECTED_MISSING_TABLE (vars w) = true ->
  caller cfg env = Resolved userId ->
  isSavedItem cfg bookId type env w
  = (Resolved (is_saved_mock userId bookId type (vars w)), w).
Proof.
  intros Hmock Hcaller. unfold isSavedItem, isSavedItem_, bind at 1.
  rewrite getUserId_caller, Hcaller, (caller_not_empty _ _ _ Hcaller).
  unfold fixture, bind, read, ret. rewrite Hmock. reflexivity.
Qed.

Lemma add_mock_twice userId bookId type v :
  add_mock userId bookId type (add_mock userId bookId type v)
  = add_mock userId bookId type v.
Proof. destruct type; unfold add_mock; simpl; now rewrite add_to_twice. Qed.

End SavedItems.

(** C5.  On the fixture path, for every signed-in user, book and type:
    a second [addSavedItem] leaves the process exactly as the first one
    left it, with the item saved; and [removeSavedItem] of an item that is
    not saved leaves the saved ids of every user and type as they were. *)
Theorem saved_items_are_idempotent
  (cfg : Config) (env : Env) (w : Run SavedItemsService.Vars)
  (userId bookId : string) (type : SavedItemType) :
  saved_USE_MOCK_DATA cfg
  || SavedItemsService.DETECTED_MISSING_TABLE (vars w) = true ->
  caller cfg env = Resolved userId ->
  let once := SavedItemsService.addSavedItem cfg bookId type env w in
  let twice := SavedItemsService.addSavedItem cfg bookId type env (snd once) in
  let removed := SavedItemsService.removeSavedItem cfg bookId type env w in
  fst once = Resolved tt
  /\ twice = (Resolved tt, snd once)
  /\ SavedItemsService.isSavedItem cfg bookId type env (snd once)
     = (Resolved true, snd once)
  /\ (SavedItemsService.isSavedItem cfg bookId type env w = (Resolved false, w) ->
      fst removed = Resolved tt
      /\ (forall anyUser anyType,
             SavedItemsService.savedIds anyUser anyType (vars (snd removed))
             = SavedItemsService.savedIds anyUser anyType (vars w))
      /\ SavedItemsService.DETECTED_MISSING_TABLE (vars (snd removed))
         = SavedItemsService.DETECTED_MISSING_TABLE (vars w)
      /\ sent (snd removed) = sent w
      /\ ticks (snd removed) = ticks w
      /\ SavedItemsService.isSavedItem cfg bookId type env (snd removed)
         = (Resolved false, snd removed)).
Proof.
  intros Hmock Hcaller once twice removed.
  assert (Honce : once
            = (Resolved tt,
               Build_Run (SavedItemsService.add_mock userId bookId type (vars w))
                         (sent w) (ticks w)))
    by (apply addSavedItem_mock_branch; assumption).
  assert (Hflag : forall v,
             SavedItemsService.DETECTED_MISSING_TABLE
               (SavedItemsService.add_mock userId bookId type v)
             = SavedItemsService.DETECTED_MISSING_TABLE v)
    by (intros v; destruct type; reflexivity).
  assert (Hmock1 : saved_USE_MOCK_DATA cfg
                   || SavedItemsService.DETECTED_MISSING_TABLE (vars (snd once))
                   = true)
    by (rewrite Honce; simpl; rewrite Hflag; exact Hmock).
  split; [now rewrite Honce|].
  split.
  { unfold twice. rewrite (addSavedItem_mock_branch _ _ _ userId _ _ Hmock1 Hcaller).
    rewrite Honce. simpl. now rewrite add_mock_twice. }
  split.
  { rewrite (isSavedItem_mock_branch _ _ _ userId _ _ Hmock1 Hcaller).
    rewrite Honce. simpl. f_equal. f_equal.
    unfold SavedItemsService.is_saved_mock, SavedItemsService.savedIds.
    destruct type; simpl; apply add_to_includes. }
  intros Hnot.
  rewrite (isSavedItem_mock_branch _ _ _ userId _ _ Hmock Hcaller) in Hnot.
  assert (Habsent : SavedItemsService.is_saved_mock userId bookId type (vars w)
                    = false) by congruence.
  assert (Hremoved : removed
            = (Resolved tt,
               Build_Run (SavedItemsService.remove_mock userId bookId type (vars w))
                         (sent w) (ticks w)))
    by (apply removeSavedItem_mock_branch; assumption).
  assert (Hids : forall anyUser anyType,
             SavedItemsService.savedIds anyUser anyType
               (SavedItemsService.remove_mock userId bookId type (vars w))
             = SavedItemsService.savedIds anyUser anyType (vars w)).
  { intros anyUser anyType.
    unfold SavedItemsService.is_saved_mock, SavedItemsService.savedIds in *.
    destruct type, anyType; simpl; try reflexivity;
      now apply remove_from_absent. }
  rewrite Hremoved. simpl.
  assert (Hflag' : SavedItemsService.DETECTED_MISSING_TABLE
                     (SavedItemsService.remove_mock userId bookId type (vars w))
                   = SavedItemsService.DETECTED_MISSING_TABLE (vars w))
    by (destruct type; reflexivity).
  repeat split; auto.
  rewrite (isSavedItem_mock_branch _ _ _ userId); simpl;
    [| rewrite Hflag'; exact Hmock | exact Hcaller].
  unfold SavedItemsService.is_saved_mock in *. now rewrite Hids, Habsent.
Qed.

(** *** Messaging: generated identifiers *)

Lemma strip_zeros_padding (k : nat) (cur s : string) :
  cur = "0" \/ cur = "" ->
  strip_zeros (Js.take_cycle k cur "0" ++ s) = strip_zeros s.
Proof.
  revert cur. induction k as [|k IH]; intros cur Hcur; [reflexivity|].
  destruct Hcur as [-> | ->]; simpl; apply IH; right; reflexivity.
Qed.

Lemma serial_generated (p : string) (n : nat) :
  (forall d, strip_zeros (p ++ d) = p ++ d) ->
  (forall d, strip_prefix p (p ++ d) = Some d) ->
  serial p (Js.padStart 7 "0" (p ++ Js.number_toString n)) = Some n.
Proof.
  intros Hz Hp. unfold serial, Js.padStart.
  destruct (7 <=? String.length (p ++ Js.number_toString n))%nat.
  - rewrite Hz, Hp. unfold Js.number_toString.
    rewrite NilEmpty.usu. simpl. now rewrite Unsigned.of_to.
  - rewrite strip_zeros_padding by (left; reflexivity).
    rewrite Hz, Hp. unfold Js.number_toString.
    rewrite NilEmpty.usu. simpl. now rewrite Unsigned.of_to.
Qed.

Lemma serial_message_id (n : nat) :
  serial "msg-" (MessageService.message_id n) = Some n.
Proof. apply serial_generated; reflexivity. Qed.

Lemma serial_conversation_id (n : nat) :
  serial "conv-" (MessageService.conversation_id n) = Some n.
Proof. apply serial_generated; reflexivity. Qed.

(** *** Messaging: the store stays well formed *)

Section Messaging.
Import MessageService.

Lemma akin_refl c : akin c c.
Proof. repeat split. Qed.

Lemma akin_touched t c : akin c (with_last_message_at t c).
Proof. repeat split. Qed.

Lemma touch_akin id t convs : Forall2 akin convs (touch id t convs).
Proof.
  unfold touch. destruct (Js.findIndex _ convs) as [i|].
  - apply Forall2_alter_r.
    + apply Forall_Forall2_diag, Forall_forall. intros; apply akin_refl.
    + intros c c' _ _ [H1 [H2 [H3 H4]]]. repeat split; simpl; assumption.
  - apply Forall_Forall2_diag, Forall_forall. intros; apply akin_refl.
Qed.

Lemma touch_length id t convs : length (touch id t convs) = length convs.
Proof. symmetry. eapply Forall2_length, touch_akin. Qed.

Lemma wf_initial : well_formed initial.
Proof.
  split.
  - intros i c H.
    do 2 (destruct i as [|i]; [injection H as <-; reflexivity|]).
    discriminate.
  - intros i m H.
    do 6 (destruct i as [|i]; [injection H as <-; reflexivity|]).
    discriminate.
  - intros i j c c' Hi Hj.
    destruct i as [|[|i]]; destruct j as [|[|j]]; try discriminate;
      injection Hi as <-; injection Hj as <-; simpl; intros;
      first [reflexivity | discriminate].
  - apply Forall_forall. repeat constructor; discriminate.
  - apply Forall_forall. repeat constructor.
    all: simpl.
    all: first
           [ eexists; split; [apply list_elem_of_here|];
             split; [reflexivity|]; simpl; auto; fail
           | eexists; split; [apply list_elem_of_further, list_elem_of_here|];
             split; [reflexivity|]; simpl; auto; fail ].
Qed.

Lemma wf_set_detected v : well_formed v -> well_formed (set_detected v).
Proof. intros [H1 H2 H0 H3 H4]. split; assumption. Qed.

Lemma wf_akin v (f : list Conversation -> list Conversation) :
  Forall2 akin (mockConversations v) (f (mockConversations v)) ->
  well_formed v -> well_formed (set_conversations f v).
Proof.
  intros Hf [H1 H2 H0 H3 H4]. split; simpl.
  - intros i c' Hi.
    destruct (Forall2_lookup_r _ _ _ _ _ Hf Hi) as [c [Hc [Hid _]]].
    rewrite Hid. eauto.
  - exact H2.
  - intros i j c c' Hi Hj.
    destruct (Forall2_lookup_r _ _ _ _ _ Hf Hi) as [d [Hd [_ [-> [-> ->]]]]].
    destruct (Forall2_lookup_r _ _ _ _ _ Hf Hj) as [d' [Hd' [_ [-> [-> ->]]]]].
    eauto.
  - intros c' Hin. apply list_elem_of_lookup_1 in Hin as [i Hi].
    destruct (Forall2_lookup_r _ _ _ _ _ Hf Hi) as [c [Hc [_ [_ [Hb Hs]]]]].
    rewrite Hb, Hs. eapply H3, list_elem_of_lookup_2, Hc.
  - intros m Hm. destruct (H4 m Hm) as [c [Hin [Hid Hr]]].
    apply list_elem_of_lookup_1 in Hin as [i Hi].
    destruct (Forall2_lookup_l _ _ _ _ _ Hf Hi) as [c' [Hc' [Hid' [_ [Hb Hs]]]]].
    exists c'. split; [eapply list_elem_of_lookup_2, Hc'|].
    rewrite Hid', Hb, Hs. auto.
Qed.

Lemma wf_touch id t v :
  well_formed v -> well_formed (set_conversations (touch id t) v).
Proof. apply wf_akin, touch_akin. Qed.

Lemma wf_push_message v m :
  well_formed v ->
  m_id m = message_id (length (mockMessages v) + 1) ->
  (exists c, c ∈ mockConversations v /\ c_id c = m_conversation_id m
             /\ (m_receiver_id m = c_buyer_id c
                 \/ m_receiver_id m = c_seller_id c)) ->
  well_formed (set_messages (fun msgs => msgs ++ [m])%list v).
Proof.
  intros [H1 H2 H0 H3 H4] Hid Hc. split; simpl.
  - exact H1.
  - intros i m' Hi. apply lookup_snoc_Some in Hi as [[_ Hi] | [-> <-]].
    + eauto.
    + rewrite Hid, serial_message_id. f_equal. lia.
  - exact H0.
  - exact H3.
  - intros m' Hin. apply elem_of_app in Hin as [Hin | Hin]; [eauto|].
    apply list_elem_of_singleton in Hin as ->. exact Hc.
Qed.

Lemma wf_push_conversation v c :
  well_formed v ->
  c_id c = conversation_id (length (mockConversations v) + 1) ->
  c_buyer_id c <> c_seller_id c ->
  Forall (fun c' => same_triple (c_listing_id c) (c_buyer_id c) (c_seller_id c) c'
                    = false) (mockConversations v) ->
  well_formed (set_conversations (fun convs => convs ++ [c])%list v).
Proof.
  intros [H1 H2 H0 H3 H4] Hid Hne Hnew. split; simpl.
  - intros i c' Hi. apply lookup_snoc_Some in Hi as [[_ Hi] | [-> <-]].
    + eauto.
    + rewrite Hid, serial_conversation_id. f_equal. lia.
  - exact H2.
  - assert (Hclash : forall i d, mockConversations v !! i = Some d ->
              c_listing_id d = c_listing_id c -> c_buyer_id d = c_buyer_id c ->
              c_seller_id d = c_seller_id c -> False).
    { intros i d Hd E1 E2 E3.
      pose proof (proj1 (Forall_forall _ _) Hnew d
                        (list_elem_of_lookup_2 _ _ _ Hd)) as Hd'.
      unfold same_triple in Hd'. rewrite E1, E2, E3, !String.eqb_refl in Hd'.
      discriminate. }
    intros i j d d' Hi Hj E1 E2 E3.
    apply lookup_snoc_Some in Hi as [[_ Hi] | [-> <-]];
      apply lookup_snoc_Some in Hj as [[_ Hj] | [-> <-]].
    + eauto.
    + exfalso. eauto.
    + exfalso. symmetry in E1, E2, E3. eauto.
    + reflexivity.
  - intros c' Hin. apply elem_of_app in Hin as [Hin | Hin]; [eauto|].
    apply list_elem_of_singleton in Hin as ->. exact Hne.
  - intros m Hm. destruct (H4 m Hm) as [c' [Hin Hrest]].
    exists c'. split; [apply elem_of_app; left; exact Hin | exact Hrest].
Qed.

Lemma wf_mark_read v (g : Message -> Message) :
  (forall m, m_id (g m) = m_id m
             /\ m_conversation_id (g m) = m_conversation_id m
             /\ m_receiver_id (g m) = m_receiver_id m) ->
  well_formed v -> well_formed (set_messages (List.map g) v).
Proof.
  intros Hg [H1 H2 H0 H3 H4]. split; simpl.
  - exact H1.
  - intros i m' Hi.
    change (List.map g (mockMessages v)) with (g <$> mockMessages v) in Hi.
    apply list_lookup_fmap_Some in Hi as [m [-> Hi]].
    destruct (Hg m) as [-> _]. eauto.
  - exact H0.
  - exact H3.
  - intros m' Hin.
    change (List.map g (mockMessages v)) with (g <$> mockMessages v) in Hin.
    apply list_elem_of_fmap in Hin as [m [-> Hin]].
    destruct (Hg m) as [_ [-> ->]]. eauto.
Qed.

End Messaging.

Section MessagingRuns.
Import MessageService.

Lemma find_some {A} (p : A -> bool) (l : list A) (x : A) :
  Js.find p l = Some x -> x ∈ l /\ p x = true.
Proof.
  induction l as [|y r IH]; simpl; [discriminate|].
  destruct (p y) eqn:E.
  - intros [= <-]. split; [apply list_elem_of_here | exact E].
  - intros H. destruct (IH H) as [H1 H2].
    split; [apply list_elem_of_further, H1 | exact H2].
Qed.

Lemma sendMessage_mock_run userId conversationId content env (w : Run Vars) :
  sendMessage_mock userId conversationId content env w
  = match Js.find (fun conv => String.eqb (c_id conv) conversationId)
                  (mockConversations (vars w)) with
    | None => (Rejected (Error "Conversation not found"), w)
    | Some conversation =>
        let newMessage :=
          {| m_id := message_id (length (mockMessages (vars w)) + 1);
             m_conversation_id := conversationId;
             m_sender_id := userId;
             m_receiver_id :=
               if String.eqb (c_buyer_id conversation) userId
               then c_seller_id conversation
               else c_buyer_id conversation;
             m_content := content;
             m_created_at := clock env (ticks w);
             m_read := false |} in
        (Resolved newMessage,
         Build_Run
           (set_conversations (touch conversationId (clock env (ticks w)))
              (set_messages (fun msgs => msgs ++ [newMessage])%list (vars w)))
           (sent w) (S (ticks w)))
    end.
Proof.
  unfold sendMessage_mock, bind at 1, read.
  destruct (Js.find _ (mockConversations (vars w))); reflexivity.
Qed.

Lemma startConversation_mock_run userId listingId sellerId initialMessage env
      (w : Run Vars) :
  startConversation_mock userId listingId sellerId initialMessage env w
  = match Js.find (same_triple listingId userId sellerId)
                  (mockConversations (vars w)),
          Js.findIndex (same_triple listingId userId sellerId)
                       (mockConversations (vars w)) with
    | Some existingConversation, Some position =>
        let newMessage :=
          {| m_id := message_id (length (mockMessages (vars w)) + 1);
             m_conversation_id := c_id existingConversation;
             m_sender_id := userId;
             m_receiver_id := sellerId;
             m_content := initialMessage;
             m_created_at := clock env (ticks w);
             m_read := false |} in
        let v :=
          set_conversations
            (touch (c_id existingConversation) (clock env (ticks w)))
            (set_messages (fun msgs => msgs ++ [newMessage])%list (vars w)) in
        (Resolved (nth position (mockConversations v) existingConversation),
         Build_Run v (sent w) (S (ticks w)))
    | _, _ =>
        let newConversation :=
          {| c_id := conversation_id (length (mockConversations (vars w)) + 1);
             c_listing_id := listingId;
             c_buyer_id := userId;
             c_seller_id := sellerId;
             c_created_at := clock env (ticks w);
             c_last_message_at := clock env (S (ticks w));
             c_is_active := true |} in
        let newMessage :=
          {| m_id := message_id (length (mockMessages (vars w)) + 1);
             m_conversation_id := c_id newConversation;
             m_sender_id := userId;
             m_receiver_id := sellerId;
             m_content := initialMessage;
             m_created_at := clock env (S (S (ticks w)));
             m_read := false |} in
        (Resolved newConversation,
         Build_Run
           (set_messages (fun msgs => msgs ++ [newMessage])%list
              (set_conversations (fun convs => convs ++ [newConversation])%list
                 (vars w)))
           (sent w) (S (S (S (ticks w)))))
    end.
Proof.
  unfold startConversation_mock, bind at 1, read.
  destruct (Js.find _ (mockConversations (vars w))) as [existing|];
    [destruct (Js.findIndex _ (mockConversations (vars w))) as [position|]|];
    reflexivity.
Qed.

Lemma keeps_sendMessage_mock userId conversationId content :
  keeps stays_well_formed (sendMessage_mock userId conversationId content).
Proof.
  intros env w Hw. split; [|trivial]. rewrite sendMessage_mock_run.
  destruct (Js.find _ (mockConversations (vars w))) as [conversation|] eqn:E;
    [|exact Hw].
  apply find_some in E as [Hin Hid]. apply String.eqb_eq in Hid.
  apply wf_touch, wf_push_message; [exact Hw | reflexivity |].
  exists conversation. split; [exact Hin|]. split; [exact Hid|]. simpl.
  destruct (String.eqb (c_buyer_id conversation) userId); auto.
Qed.

Lemma keeps_markMessagesAsRead_mock userId conversationId :
  keeps stays_well_formed (markMessagesAsRead_mock userId conversationId).
Proof.
  intros env w Hw. split; [|trivial]. unfold markMessagesAsRead_mock.
  apply wf_mark_read; [|exact Hw].
  intros m. destruct (_ && _); repeat split.
Qed.

Lemma same_triple_true listingId userId sellerId conv :
  same_triple listingId userId sellerId conv = true ->
  c_listing_id conv = listingId /\ c_buyer_id conv = userId
  /\ c_seller_id conv = sellerId.
Proof.
  unfold same_triple. intros H.
  apply andb_true_iff in H as [H H3]. apply andb_true_iff in H as [H1 H2].
  apply String.eqb_eq in H1, H2, H3. auto.
Qed.

Lemma keeps_startConversation_mock userId listingId sellerId initialMessage :
  String.eqb userId sellerId = false ->
  keeps stays_well_formed
        (startConversation_mock userId listingId sellerId initialMessage).
Proof.
  intros Hne env w Hw. split; [|trivial]. rewrite startConversation_mock_run.
  pose proof (find_findIndex (same_triple listingId userId sellerId)
                             (mockConversations (vars w))) as Hfind.
  destruct (Js.findIndex _ (mockConversations (vars w))) as [position|].
  - destruct Hfind as [existing [Hat [-> Htriple]]].
    apply same_triple_true in Htriple as [_ [_ Hseller]].
    apply wf_touch, wf_push_message; [exact Hw | reflexivity |].
    exists existing. split; [eapply list_elem_of_lookup_2, Hat|].
    simpl. auto.
  - destruct Hfind as [-> Hall].
    apply wf_push_message; [apply wf_push_conversation| |].
    + exact Hw.
    + reflexivity.
    + simpl. apply String.eqb_neq, Hne.
    + exact Hall.
    + reflexivity.
    + eexists. split; [apply elem_of_app; right; apply list_elem_of_here|].
      simpl. auto.
Qed.

Ltac wf_side :=
  idtac;
  first
    [ apply keeps_sendMessage_mock
    | apply keeps_markMessagesAsRead_mock
    | apply keeps_startConversation_mock; assumption
    | intros; unfold stays_well_formed in *; simpl;
      first [assumption | apply wf_set_detected; assumption] ].

Lemma keeps_getConversations cfg fuel :
  keeps stays_well_formed (getConversations_ cfg fuel).
Proof.
  induction fuel as [|fuel IH]; simpl; triple_auto ltac:(wf_side).
Qed.

Lemma keeps_getMessages cfg fuel conversationId :
  keeps stays_well_formed (getMessages_ cfg fuel conversationId).
Proof.
  induction fuel as [|fuel IH]; simpl; triple_auto ltac:(wf_side).
Qed.

Lemma keeps_getUnreadCount cfg fuel :
  keeps stays_well_formed (getUnreadCount_ cfg fuel).
Proof.
  induction fuel as [|fuel IH]; simpl; triple_auto ltac:(wf_side).
Qed.

Lemma keeps_sendMessage cfg conversationId content :
  keeps stays_well_formed (sendMessage cfg conversationId content).
Proof. unfold sendMessage. triple_auto ltac:(wf_side). Qed.

Lemma keeps_markMessagesAsRead cfg conversationId :
  keeps stays_well_formed (markMessagesAsRead cfg conversationId).
Proof. unfold markMessagesAsRead. triple_auto ltac:(wf_side). Qed.

Lemma keeps_startConversation cfg listingId sellerId initialMessage :
  keeps stays_well_formed
        (startConversation cfg listingId sellerId initialMessage).
Proof. unfold startConversation. triple_auto ltac:(wf_side). Qed.

Lemma reachable_well_formed cfg w : reachable cfg w -> well_formed (vars w).
Proof.
  induction 1 as [|env w _ IH|env w cid _ IH|env w cid content _ IH
                  |env w cid _ IH|env w l s m _ IH|env w _ IH].
  - exact wf_initial.
  - apply (keeps_getConversations cfg 2 env w IH).
  - apply (keeps_getMessages cfg 2 cid env w IH).
  - apply (keeps_sendMessage cfg cid content env w IH).
  - apply (keeps_markMessagesAsRead cfg cid env w IH).
  - apply (keeps_startConversation cfg l s m env w IH).
  - apply (keeps_getUnreadCount cfg 2 env w IH).
Qed.

End MessagingRuns.

Section MessagingClaims.
Import MessageService.

Lemma wf_message_ids_distinct v :
  well_formed v -> NoDup (List.map m_id (mockMessages v)).
Proof.
  intros Hv. apply NoDup_alt. intros i j x Hi Hj.
  change (List.map m_id (mockMessages v)) with (m_id <$> mockMessages v) in *.
  apply list_lookup_fmap_Some in Hi as [m [-> Hi]].
  apply list_lookup_fmap_Some in Hj as [m' [E Hj]].
  pose proof (wf_message_ids v Hv i m Hi) as S1.
  pose proof (wf_message_ids v Hv j m' Hj) as S2.
  rewrite E in S1. congruence.
Qed.

Lemma wf_conversation_ids_distinct v :
  well_formed v -> NoDup (List.map c_id (mockConversations v)).
Proof.
  intros Hv. apply NoDup_alt. intros i j x Hi Hj.
  change (List.map c_id (mockConversations v))
    with (c_id <$> mockConversations v) in *.
  apply list_lookup_fmap_Some in Hi as [c [-> Hi]].
  apply list_lookup_fmap_Some in Hj as [c' [E Hj]].
  pose proof (wf_conversation_ids v Hv i c Hi) as S1.
  pose proof (wf_conversation_ids v Hv j c' Hj) as S2.
  rewrite E in S1. congruence.
Qed.

Lemma wf_next_message_id v m :
  well_formed v -> m ∈ mockMessages v ->
  m_id m <> message_id (length (mockMessages v) + 1).
Proof.
  intros Hv Hin E. apply list_elem_of_lookup_1 in Hin as [i Hi].
  pose proof (wf_message_ids v Hv i m Hi) as S1.
  rewrite E, serial_message_id in S1.
  apply lookup_lt_Some in Hi. injection S1 as S1. lia.
Qed.

Lemma wf_next_conversation_id v c :
  well_formed v -> c ∈ mockConversations v ->
  c_id c <> conversation_id (length (mockConversations v) + 1).
Proof.
  intros Hv Hin E. apply list_elem_of_lookup_1 in Hin as [i Hi].
  pose proof (wf_conversation_ids v Hv i c Hi) as S1.
  rewrite E, serial_conversation_id in S1.
  apply lookup_lt_Some in Hi. injection S1 as S1. lia.
Qed.

Lemma alter_as_insert {A} (f : A -> A) (l : list A) i x :
  l !! i = Some x -> alter f i l = <[i := f x]> l.
Proof.
  intros Hi. apply list_eq. intros j.
  rewrite list_lookup_alter.
  destruct (decide (i = j)) as [<-|Hne].
  - rewrite Hi. simpl. symmetry. apply list_lookup_insert_eq.
    eapply lookup_lt_Some, Hi.
  - symmetry. now apply list_lookup_insert_ne.
Qed.

Lemma sendMessage_mock_branch cfg env (w : Run Vars) userId conversationId
      content :
  message_USE_MOCK_DATA cfg = true ->
  caller cfg env = Resolved userId ->
  sendMessage cfg conversationId content env w
  = match sendMessage_mock userId conversationId content env w with
    | (Resolved newMessage, w') => (Resolved (Some newMessage), w')
    | (Rejected e, w') => (Rejected e, w')
    | (Pending, w') => (Pending, w')
    end.
Proof.
  intros Hmock Hcaller. unfold sendMessage, bind at 1.
  rewrite getUserId_caller, Hcaller, (caller_not_empty _ _ _ Hcaller), Hmock.
  unfold bind. destruct (sendMessage_mock _ _ _ env w) as [[m|e|] w'];
    reflexivity.
Qed.

Lemma startConversation_mock_branch cfg env (w : Run Vars) userId listingId
      sellerId initialMessage :
  message_USE_MOCK_DATA cfg = true ->
  caller cfg env = Resolved userId ->
  userId <> sellerId ->
  startConversation cfg listingId sellerId initialMessage env w
  = startConversation_mock userId listingId sellerId initialMessage env w.
Proof.
  intros Hmock Hcaller Hne. unfold startConversation, bind at 1.
  rewrite getUserId_caller, Hcaller, (caller_not_empty _ _ _ Hcaller), Hmock.
  apply String.eqb_neq in Hne. now rewrite Hne.
Qed.

End MessagingClaims.

(** C10.  In every state that the exported methods reach, the message ids
    are pairwise distinct and the conversation ids are pairwise distinct.
    The mock branches of [sendMessage] and [startConversation] append to
    the collections, never shorten them, and give a new entity the id
    derived from the length of its collection, which differs from the id
    of every entity in the store. *)
Theorem fixture_ids_are_pairwise_distinct
  (cfg : Config) (w : Run MessageService.Vars) :
  reachable cfg w ->
  let msgs := MessageService.mockMessages (vars w) in
  let convs := MessageService.mockConversations (vars w) in
  NoDup (List.map m_id msgs)
  /\ NoDup (List.map c_id convs)
  /\ (forall m, m ∈ msgs ->
        m_id m <> MessageService.message_id (length msgs + 1))
  /\ (forall c, c ∈ convs ->
        c_id c <> MessageService.conversation_id (length convs + 1))
  /\ (forall userId conversationId content env newMessage w',
        MessageService.sendMessage_mock userId conversationId content env w
        = (Resolved newMessage, w') ->
        m_id newMessage = MessageService.message_id (length msgs + 1)
        /\ MessageService.mockMessages (vars w') = (msgs ++ [newMessage])%list
        /\ length (MessageService.mockConversations (vars w')) = length convs)
  /\ (forall userId listingId sellerId initialMessage env conversation w',
        MessageService.startConversation_mock userId listingId sellerId
          initialMessage env w = (Resolved conversation, w') ->
        (exists newMessage,
            m_id newMessage = MessageService.message_id (length msgs + 1)
            /\ MessageService.mockMessages (vars w')
               = (msgs ++ [newMessage])%list)
        /\ (length (MessageService.mockConversations (vars w')) = length convs
            \/ (c_id conversation
                = MessageService.conversation_id (length convs + 1)
                /\ MessageService.mockConversations (vars w')
                   = (convs ++ [conversation])%list))).
Proof.
  intros Hreach msgs convs. apply reachable_well_formed in Hreach.
  split; [apply wf_message_ids_distinct, Hreach|].
  split; [apply wf_conversation_ids_distinct, Hreach|].
  split; [intros x Hx; apply wf_next_message_id; assumption|].
  split; [intros x Hx; apply wf_next_conversation_id; assumption|].
  split.
  - intros userId conversationId content env newMessage w'.
    rewrite sendMessage_mock_run.
    destruct (Js.find _ (MessageService.mockConversations (vars w)));
      [|discriminate].
    intros [= <- <-]. simpl.
    split; [reflexivity|]. split; [reflexivity|]. apply touch_length.
  - intros userId listingId sellerId initialMessage env conversation w'.
    rewrite startConversation_mock_run.
    destruct (Js.find _ (MessageService.mockConversations (vars w)))
      as [existing|];
      [destruct (Js.findIndex _ (MessageService.mockConversations (vars w)))
         as [position|]|];
      intros [= <- <-];
      (split; [eexists; split; [|reflexivity]; reflexivity|]);
      first [left; apply touch_length | right; split; reflexivity].
Qed.

(** X28.  The branch of [sendMessage] under [USE_MOCK_DATA], the sibling
    of its remote branch.  For a signed-in caller: when a conversation
    with the given id exists, it appends one message, unread, from the
    caller to the other party of that conversation, and the conversation
    then holds the [created_at] of the message as its [last_message_at],
    nothing else of it being changed; when none exists the call rejects
    with "Conversation not found" and the process is left as it was. *)
Theorem sendMessage_delivers_to_the_other_party
  (cfg : Config) (env : Env) (w : Run MessageService.Vars)
  (userId conversationId content : string) :
  message_USE_MOCK_DATA cfg = true ->
  caller cfg env = Resolved userId ->
  match Js.find (fun conv => String.eqb (c_id conv) conversationId)
                (MessageService.mockConversations (vars w)) with
  | None =>
      MessageService.sendMessage cfg conversationId content env w
      = (Rejected (Error "Conversation not found"), w)
  | Some conversation =>
      exists newMessage w' position,
        MessageService.sendMessage cfg conversationId content env w
        = (Resolved (Some newMessage), w')
        /\ MessageService.mockMessages (vars w')
           = (MessageService.mockMessages (vars w) ++ [newMessage])%list
        /\ m_id newMessage
           = MessageService.message_id
               (length (MessageService.mockMessages (vars w)) + 1)
        /\ m_conversation_id newMessage = conversationId
        /\ c_id conversation = conversationId
        /\ m_sender_id newMessage = userId
        /\ m_content newMessage = content
        /\ m_read newMessage = false
        /\ (userId = c_buyer_id conversation ->
            m_receiver_id newMessage = c_seller_id conversation)
        /\ (userId = c_seller_id conversation ->
            m_receiver_id newMessage = c_buyer_id conversation)
        /\ MessageService.mockConversations (vars w) !! position
           = Some conversation
        /\ MessageService.mockConversations (vars w')
           = <[position := MessageService.with_last_message_at
                             (m_created_at newMessage) conversation]>
               (MessageService.mockConversations (vars w))
        /\ exists stamped,
             MessageService.mockConversations (vars w') !! position
             = Some stamped
             /\ c_last_message_at stamped = m_created_at newMessage
             /\ akin conversation stamped
             /\ c_created_at stamped = c_created_at conversation
             /\ c_is_active stamped = c_is_active conversation
  end.
Proof.
  intros Hmock Hcaller.
  rewrite (sendMessage_mock_branch _ _ _ userId) by assumption.
  rewrite sendMessage_mock_run.
  pose proof (find_findIndex (fun conv => String.eqb (c_id conv) conversationId)
                (MessageService.mockConversations (vars w))) as Hfind.
  destruct (Js.findIndex _ (MessageService.mockConversations (vars w)))
    as [position|] eqn:Hindex.
  - destruct Hfind as [conversation [Hat [-> Hid]]]. apply String.eqb_eq in Hid.
    eexists _, _, position. split; [reflexivity|]. simpl.
    split; [reflexivity|]. split; [reflexivity|]. split; [reflexivity|].
    split; [exact Hid|]. split; [reflexivity|]. split; [reflexivity|].
    split; [reflexivity|].
    split; [intros ->; now rewrite String.eqb_refl|].
    split.
    { intros E. destruct (String.eqb_spec (c_buyer_id conversation) userId);
        congruence. }
    split; [exact Hat|].
    unfold MessageService.touch. rewrite Hindex.
    rewrite (alter_as_insert _ _ _ _ Hat).
    split; [reflexivity|].
    eexists. split; [apply list_lookup_insert_eq; eapply lookup_lt_Some, Hat|].
    repeat split.
  - destruct Hfind as [-> _]. reflexivity.
Qed.

Section ConversationDedup.
Import MessageService.

Lemma same_triple_eq listingId userId sellerId conv :
  same_triple listingId userId sellerId conv = true <->
  c_listing_id conv = listingId /\ c_buyer_id conv = userId
  /\ c_seller_id conv = sellerId.
Proof.
  split; [apply same_triple_true|]. intros [E1 [E2 E3]].
  unfold same_triple. now rewrite E1, E2, E3, !String.eqb_refl.
Qed.

Lemma unique_triple_find v i c listingId userId sellerId :
  well_formed v ->
  mockConversations v !! i = Some c ->
  same_triple listingId userId sellerId c = true ->
  Js.find (same_triple listingId userId sellerId) (mockConversations v) = Some c
  /\ Js.findIndex (same_triple listingId userId sellerId) (mockConversations v)
     = Some i.
Proof.
  intros Hv Hi Hc.
  pose proof (find_findIndex (same_triple listingId userId sellerId)
                             (mockConversations v)) as Hfind.
  destruct (Js.findIndex _ (mockConversations v)) as [j|].
  - destruct Hfind as [x [Hj [Hx Hpx]]].
    apply same_triple_eq in Hc as [E1 [E2 E3]].
    apply same_triple_eq in Hpx as [F1 [F2 F3]].
    assert (i = j) as <-
        by (eapply (wf_triples v Hv i j c x); congruence).
    split; [congruence | reflexivity].
  - destruct Hfind as [_ Hall].
    pose proof (proj1 (Forall_forall _ _) Hall c
                      (list_elem_of_lookup_2 _ _ _ Hi)). congruence.
Qed.

Lemma unique_id_findIndex v i c :
  well_formed v ->
  mockConversations v !! i = Some c ->
  Js.findIndex (fun conv => String.eqb (c_id conv) (c_id c))
               (mockConversations v) = Some i.
Proof.
  intros Hv Hi.
  pose proof (find_findIndex (fun conv => String.eqb (c_id conv) (c_id c))
                             (mockConversations v)) as Hfind.
  destruct (Js.findIndex _ (mockConversations v)) as [j|].
  - destruct Hfind as [x [Hj [_ Hpx]]]. apply String.eqb_eq in Hpx.
    pose proof (wf_conversation_ids v Hv i c Hi) as S1.
    pose proof (wf_conversation_ids v Hv j x Hj) as S2.
    rewrite Hpx in S2. congruence.
  - destruct Hfind as [_ Hall].
    pose proof (proj1 (Forall_forall _ _) Hall c
                      (list_elem_of_lookup_2 _ _ _ Hi)) as Hc.
    simpl in Hc. rewrite String.eqb_refl in Hc. discriminate.
Qed.

(** A second contact: the conversation of the triple exists. *)
Lemma startConversation_existing userId listingId sellerId initialMessage env
      (w : Run Vars) i c :
  well_formed (vars w) ->
  mockConversations (vars w) !! i = Some c ->
  same_triple listingId userId sellerId c = true ->
  let newMessage :=
    {| m_id := message_id (length (mockMessages (vars w)) + 1);
       m_conversation_id := c_id c;
       m_sender_id := userId;
       m_receiver_id := sellerId;
       m_content := initialMessage;
       m_created_at := clock env (ticks w);
       m_read := false |} in
  startConversation_mock userId listingId sellerId initialMessage env w
  = (Resolved (with_last_message_at (clock env (ticks w)) c),
     Build_Run
       {| mockConversations :=
            <[i := with_last_message_at (clock env (ticks w)) c]>
              (mockConversations (vars w));
          mockMessages := (mockMessages (vars w) ++ [newMessage])%list;
          DETECTED_MISSING_TABLES := DETECTED_MISSING_TABLES (vars w) |}
       (sent w) (S (ticks w))).
Proof.
  intros Hv Hi Hc newMessage. rewrite startConversation_mock_run.
  destruct (unique_triple_find _ _ _ _ _ _ Hv Hi Hc) as [-> ->].
  cbv zeta. unfold set_conversations, set_messages, touch; simpl.
  rewrite (unique_id_findIndex _ _ _ Hv Hi).
  rewrite (alter_as_insert _ _ _ _ Hi).
  rewrite (nth_lookup_Some _ _ _ (with_last_message_at (clock env (ticks w)) c))
    by (apply list_lookup_insert_eq; eapply lookup_lt_Some, Hi).
  reflexivity.
Qed.

Lemma filter_the_only_one {A} (p : A -> bool) (l : list A) i x :
  (forall j k y z, l !! j = Some y -> l !! k = Some z ->
                   p y = true -> p z = true -> j = k) ->
  l !! i = Some x -> p x = true -> List.filter p l = [x].
Proof.
  revert i. induction l as [|a r IH]; intros i Huniq Hi Hx; [discriminate|].
  destruct i as [|i]; simpl in *.
  - injection Hi as ->. rewrite Hx. f_equal.
    assert (Hr : Forall (fun y => p y = false) r).
    { apply Forall_forall. intros y Hy.
      apply list_elem_of_lookup_1 in Hy as [k Hk].
      destruct (p y) eqn:E; [|reflexivity].
      specialize (Huniq 0 (S k) x y eq_refl Hk Hx E). discriminate. }
    clear -Hr. induction Hr as [|y r' Hy _ IHr]; simpl; [reflexivity|].
    now rewrite Hy.
  - destruct (p a) eqn:E.
    + specialize (Huniq 0 (S i) a x eq_refl Hi E Hx). discriminate.
    + apply (IH i); [|exact Hi|exact Hx].
      intros j k y z Hj Hk Hy Hz.
      specialize (Huniq (S j) (S k) y z Hj Hk Hy Hz). lia.
Qed.

Lemma filter_none {A} (p : A -> bool) (l : list A) :
  Forall (fun x => p x = false) l -> List.filter p l = [].
Proof.
  induction 1 as [|x r Hx _ IH]; simpl; [reflexivity|]. now rewrite Hx.
Qed.

End ConversationDedup.

Section SecondContact.
Import MessageService.

Lemma second_contact cfg env (w : Run Vars) userId listingId sellerId
      initialMessage i c :
  message_USE_MOCK_DATA cfg = true ->
  reachable cfg w ->
  caller cfg env = Resolved userId ->
  userId <> sellerId ->
  mockConversations (vars w) !! i = Some c ->
  same_triple listingId userId sellerId c = true ->
  let result := startConversation cfg listingId sellerId initialMessage env w in
  let newMessage :=
    {| m_id := message_id (length (mockMessages (vars w)) + 1);
       m_conversation_id := c_id c;
       m_sender_id := userId;
       m_receiver_id := sellerId;
       m_content := initialMessage;
       m_created_at := clock env (ticks w);
       m_read := false |} in
  let touched := with_last_message_at (m_created_at newMessage) c in
  fst result = Resolved touched
  /\ mockConversations (vars (snd result))
     = <[i := touched]> (mockConversations (vars w))
  /\ mockMessages (vars (snd result))
     = (mockMessages (vars w) ++ [newMessage])%list
  /\ List.filter (same_triple listingId userId sellerId)
                 (mockConversations (vars (snd result))) = [touched].
Proof.
  intros Hmock Hreach Hcaller Hne Hi Hc result newMessage touched.
  pose proof (reachable_well_formed _ _ Hreach) as Hw.
  pose proof (reachable_well_formed _ _
                (reach_startConversation cfg env w listingId sellerId
                   initialMessage Hreach)) as Hw'.
  fold result in Hw'.
  assert (Hrun : result
            = (Resolved touched,
               Build_Run
                 {| mockConversations :=
                      <[i := touched]> (mockConversations (vars w));
                    mockMessages := (mockMessages (vars w) ++ [newMessage])%list;
                    DETECTED_MISSING_TABLES := DETECTED_MISSING_TABLES (vars w) |}
                 (sent w) (S (ticks w)))).
  { unfold result.
    rewrite (startConversation_mock_branch _ _ _ userId) by assumption.
    now apply startConversation_existing. }
  rewrite Hrun in *. simpl in *.
  repeat split.
  apply (filter_the_only_one _ _ i).
  - intros j k y z Hj Hk Hy Hz.
    apply same_triple_eq in Hy as [E1 [E2 E3]].
    apply same_triple_eq in Hz as [F1 [F2 F3]].
    eapply (wf_triples _ Hw' j k y z); simpl; congruence.
  - apply list_lookup_insert_eq. eapply lookup_lt_Some, Hi.
  - exact Hc.
Qed.

End SecondContact.

(** X29.  The branch of [startConversation] under [USE_MOCK_DATA], the
    sibling of its remote branch: two calls of [startConversation] by the
    same buyer for the same listing and seller leave exactly one
    conversation with that (listing, buyer, seller) triple: the second
    call creates no conversation, appends its message to the existing one
    and sets that conversation's [last_message_at] to the message's
    [created_at]; when no conversation of the triple existed before, the
    conversation holds exactly the two messages. *)
Theorem startConversation_twice_is_one_conversation
  (cfg : Config) (env1 env2 : Env) (w : Run MessageService.Vars)
  (userId listingId sellerId message1 message2 : string) :
  message_USE_MOCK_DATA cfg = true ->
  reachable cfg w ->
  caller cfg env1 = Resolved userId ->
  caller cfg env2 = Resolved userId ->
  userId <> sellerId ->
  let first :=
    MessageService.startConversation cfg listingId sellerId message1 env1 w in
  let second :=
    MessageService.startConversation cfg listingId sellerId message2 env2
                                     (snd first) in
  exists c1 c2 m1 m2,
    fst first = Resolved c1
    /\ fst second = Resolved c2
    /\ c2 = MessageService.with_last_message_at (m_created_at m2) c1
    /\ c_listing_id c2 = listingId /\ c_buyer_id c2 = userId
    /\ c_seller_id c2 = sellerId
    /\ List.filter (MessageService.same_triple listingId userId sellerId)
                   (MessageService.mockConversations (vars (snd second)))
       = [c2]
    /\ length (MessageService.mockConversations (vars (snd second)))
       = length (MessageService.mockConversations (vars (snd first)))
    /\ MessageService.mockMessages (vars (snd second))
       = (MessageService.mockMessages (vars w) ++ [m1; m2])%list
    /\ m_conversation_id m1 = c_id c2 /\ m_conversation_id m2 = c_id c2
    /\ m_content m1 = message1 /\ m_content m2 = message2
    /\ m_sender_id m2 = userId /\ m_receiver_id m2 = sellerId
    /\ m_read m2 = false
    /\ c_last_message_at c2 = m_created_at m2
    /\ (Js.find (MessageService.same_triple listingId userId sellerId)
                (MessageService.mockConversations (vars w)) = None ->
        length (MessageService.mockConversations (vars (snd second)))
        = S (length (MessageService.mockConversations (vars w)))
        /\ List.filter
             (fun m => String.eqb (m_conversation_id m) (c_id c2))
             (MessageService.mockMessages (vars (snd second)))
           = [m1; m2]).
Proof.
  intros Hmock Hreach Hcaller1 Hcaller2 Hne first second.
  pose proof (reachable_well_formed _ _ Hreach) as Hw.
  pose proof (reach_startConversation cfg env1 w listingId sellerId message1
                Hreach) as Hreach1.
  fold first in Hreach1.
  (* the first call leaves a conversation of the triple at some position *)
  assert (Hfirst : exists i c1 m1,
             fst first = Resolved c1
             /\ MessageService.mockConversations (vars (snd first)) !! i = Some c1
             /\ MessageService.same_triple listingId userId sellerId c1 = true
             /\ MessageService.mockMessages (vars (snd first))
                = (MessageService.mockMessages (vars w) ++ [m1])%list
             /\ m_conversation_id m1 = c_id c1 /\ m_content m1 = message1
             /\ (Js.find (MessageService.same_triple listingId userId sellerId)
                         (MessageService.mockConversations (vars w)) = None ->
                 length (MessageService.mockConversations (vars (snd first)))
                 = S (length (MessageService.mockConversations (vars w)))
                 /\ Forall (fun m => String.eqb (m_conversation_id m) (c_id c1)
                                     = false)
                           (MessageService.mockMessages (vars w)))).
  { pose proof (find_findIndex
                  (MessageService.same_triple listingId userId sellerId)
                  (MessageService.mockConversations (vars w))) as Hfind.
    destruct (Js.findIndex _ (MessageService.mockConversations (vars w)))
      as [i|] eqn:Hindex.
    - destruct Hfind as [c [Hi [Hsome Hc]]].
      destruct (second_contact cfg env1 w userId listingId sellerId message1 i c
                  Hmock Hreach Hcaller1 Hne Hi Hc) as [R1 [R2 [R3 _]]].
      fold first in R1, R2, R3.
      eexists i, _, _. split; [exact R1|].
      split; [rewrite R2; apply list_lookup_insert_eq; eapply lookup_lt_Some, Hi|].
      split; [exact Hc|]. split; [exact R3|].
      split; [reflexivity|]. split; [reflexivity|].
      intros Hnone. congruence.
    - destruct Hfind as [Hnone Hall].
      unfold first.
      rewrite (startConversation_mock_branch _ _ _ userId) by assumption.
      rewrite startConversation_mock_run, Hnone. cbv zeta. simpl.
      eexists (length (MessageService.mockConversations (vars w))), _, _.
      split; [reflexivity|].
      split; [now apply list_lookup_middle|].
      split; [apply same_triple_eq; auto|].
      split; [reflexivity|]. split; [reflexivity|]. split; [reflexivity|].
      intros _. split; [rewrite length_app; simpl; lia|].
      apply Forall_forall. intros m Hm.
      destruct (wf_messages _ Hw m Hm) as [c [Hin [Hid _]]].
      apply String.eqb_neq. rewrite <- Hid.
      now apply wf_next_conversation_id. }
  destruct Hfirst as [i [c1 [m1 [F1 [F2 [F3 [F4 [F5 [F6 F7]]]]]]]]].
  destruct (second_contact cfg env2 (snd first) userId listingId sellerId
              message2 i c1 Hmock Hreach1 Hcaller2 Hne F2 F3)
    as [R1 [R2 [R3 R4]]].
  fold second in R1, R2, R3, R4.
  apply same_triple_eq in F3 as [T1 [T2 T3]].
  eexists c1, _, m1, _.
  split; [exact F1|]. split; [exact R1|]. split; [reflexivity|].
  split; [exact T1|]. split; [exact T2|]. split; [exact T3|].
  split; [exact R4|].
  split; [rewrite R2; apply length_insert|].
  split; [rewrite R3, F4, <- app_assoc; reflexivity|].
  split; [exact F5|]. split; [reflexivity|]. split; [exact F6|].
  split; [reflexivity|]. split; [reflexivity|]. split; [reflexivity|].
  split; [reflexivity|]. split; [reflexivity|].
  intros Hnone. destruct (F7 Hnone) as [Hlen Hold].
  split; [rewrite R2, length_insert; exact Hlen|].
  rewrite R3, F4, <- app_assoc, List.filter_app. simpl.
  rewrite (filter_none _ _ Hold), F5. simpl. now rewrite String.eqb_refl.
Qed.

Section UnreadCounts.
Import MessageService.

Lemma insert_by_perm {A} (cmp : A -> A -> Z) (x : A) (l : list A) :
  Js.insert_by cmp x l ≡ₚ x :: l.
Proof.
  induction l as [|y r IH]; simpl; [reflexivity|].
  destruct (cmp x y <=? 0)%Z; [reflexivity|].
  rewrite IH. apply Permutation_swap.
Qed.

Lemma sort_perm {A} (cmp : A -> A -> Z) (l : list A) : Js.sort cmp l ≡ₚ l.
Proof.
  unfold Js.sort. induction l as [|x r IH]; simpl; [reflexivity|].
  rewrite insert_by_perm. now rewrite IH.
Qed.

Lemma unread_in_filter conversationId userId msgs :
  length (List.filter (fun msg =>
            String.eqb (m_conversation_id msg) conversationId
            && String.eqb (m_receiver_id msg) userId
            && negb (m_read msg)) msgs)
  = unread_in conversationId userId msgs.
Proof.
  induction msgs as [|m r IH]; simpl; [reflexivity|].
  destruct (String.eqb_spec (m_conversation_id m) conversationId) as [E1|E1];
    destruct (String.eqb_spec (m_receiver_id m) userId) as [E2|E2];
    destruct (m_read m) eqn:E3; simpl; rewrite IH;
    (rewrite bool_decide_eq_true_2 by auto)
    || (rewrite bool_decide_eq_false_2 by (intros [? [? ?]]; congruence));
    reflexivity.
Qed.

Lemma unread_total_filter userId msgs :
  length (List.filter (is_unread_for userId) msgs) = unread_total userId msgs.
Proof.
  unfold is_unread_for. induction msgs as [|m r IH]; simpl; [reflexivity|].
  destruct (String.eqb_spec (m_receiver_id m) userId) as [E2|E2];
    destruct (m_read m) eqn:E3; simpl; rewrite IH;
    (rewrite bool_decide_eq_true_2 by auto)
    || (rewrite bool_decide_eq_false_2 by (intros [? ?]; congruence));
    reflexivity.
Qed.

Lemma getConversations_mock_branch cfg env (w : Run Vars) userId :
  message_USE_MOCK_DATA cfg || DETECTED_MISSING_TABLES (vars w) = true ->
  caller cfg env = Resolved userId ->
  getConversations cfg env w
  = (Resolved (getConversations_mock userId (vars w)), w).
Proof.
  intros Hmock Hcaller. unfold getConversations, getConversations_, bind at 1.
  rewrite getUserId_caller, Hcaller. unfold bind at 1, read at 1.
  now rewrite Hmock.
Qed.

Lemma getUnreadCount_mock_branch cfg env (w : Run Vars) userId :
  message_USE_MOCK_DATA cfg || DETECTED_MISSING_TABLES (vars w) = true ->
  caller cfg env = Resolved userId ->
  getUnreadCount cfg env w
  = (Resolved (getUnreadCount_mock userId (vars w)), w).
Proof.
  intros Hmock Hcaller. unfold getUnreadCount, getUnreadCount_, bind at 1.
  rewrite getUserId_caller, Hcaller, (caller_not_empty _ _ _ Hcaller).
  unfold bind at 1, read at 1. now rewrite Hmock.
Qed.

Lemma getMessages_mock_branch cfg env (w : Run Vars) conversationId :
  message_USE_MOCK_DATA cfg || DETECTED_MISSING_TABLES (vars w) = true ->
  getMessages cfg conversationId env w
  = (Resolved (getMessages_mock conversationId (vars w)), w).
Proof.
  intros Hmock. unfold getMessages, getMessages_, bind at 1, read at 1.
  now rewrite Hmock.
Qed.

End UnreadCounts.

Section UnreadTotals.
Import MessageService.

Lemma NoDup_map_filter {A B} (f : A -> B) (p : A -> bool) (l : list A) :
  NoDup (List.map f l) -> NoDup (List.map f (List.filter p l)).
Proof.
  induction l as [|x r IH]; simpl; [trivial|].
  intros H. apply NoDup_cons in H as [Hx Hr].
  destruct (p x); simpl; [|auto].
  apply NoDup_cons. split; [|auto].
  intros Hin. apply Hx.
  apply list_elem_of_In, in_map_iff in Hin as [y [E Hy]].
  apply filter_In in Hy as [Hy _].
  apply list_elem_of_In, in_map_iff. eauto.
Qed.

Lemma sum_all_zero {A} (f : A -> nat) (l : list A) :
  (forall x, x ∈ l -> f x = 0) -> sum_list_with f l = 0.
Proof.
  induction l as [|x r IH]; simpl; [reflexivity|]. intros H.
  rewrite (H x) by apply list_elem_of_here.
  apply IH. intros y Hy. apply H, list_elem_of_further, Hy.
Qed.

(** Among conversations with distinct ids, exactly one carries the id of
    a conversation of the list. *)
Lemma sum_the_one (convs : list Conversation) (c0 : Conversation)
      (f : Conversation -> nat) :
  NoDup (List.map c_id convs) -> c0 ∈ convs ->
  (forall c, c ∈ convs -> f c = if bool_decide (c_id c = c_id c0) then 1 else 0) ->
  sum_list_with f convs = 1.
Proof.
  induction convs as [|x r IH]; simpl; intros Hnd Hin Hf; [inversion Hin|].
  apply NoDup_cons in Hnd as [Hx Hr].
  rewrite (Hf x) by apply list_elem_of_here.
  apply elem_of_cons in Hin as [-> | Hin].
  - rewrite bool_decide_eq_true_2 by reflexivity.
    rewrite sum_all_zero; [reflexivity|].
    intros y Hy. rewrite (Hf y) by (apply list_elem_of_further, Hy).
    rewrite bool_decide_eq_false_2; [reflexivity|].
    intros E. apply Hx. rewrite <- E.
    apply list_elem_of_In, in_map, list_elem_of_In, Hy.
  - rewrite bool_decide_eq_false_2.
    + apply IH; [exact Hr | exact Hin |].
      intros c Hc. apply Hf, list_elem_of_further, Hc.
    + intros E. apply Hx. rewrite E.
      apply list_elem_of_In, in_map, list_elem_of_In, Hin.
Qed.

Lemma sum_list_with_plus {A} (f g : A -> nat) (l : list A) :
  sum_list_with (fun x => f x + g x) l = sum_list_with f l + sum_list_with g l.
Proof. induction l as [|x r IH]; simpl; [reflexivity | rewrite IH; lia]. Qed.

Lemma sum_list_with_map {A B} (g : A -> B) (f : B -> nat) (l : list A) :
  sum_list_with f (List.map g l) = sum_list_with (fun x => f (g x)) l.
Proof. induction l as [|x r IH]; simpl; [reflexivity | now rewrite IH]. Qed.

Lemma sum_list_with_agree {A} (f g : A -> nat) (l : list A) :
  (forall x, f x = g x) -> sum_list_with f l = sum_list_with g l.
Proof.
  intros H. induction l as [|x r IH]; simpl; [reflexivity|]. now rewrite H, IH.
Qed.

Lemma unread_total_is_the_sum (userId : string) (convs : list Conversation)
      (msgs : list Message) :
  NoDup (List.map c_id convs) ->
  Forall (fun m => m_receiver_id m = userId ->
                   exists c, c ∈ convs /\ c_id c = m_conversation_id m) msgs ->
  sum_list_with (fun c => unread_in (c_id c) userId msgs) convs
  = unread_total userId msgs.
Proof.
  intros Hnd. induction 1 as [|m r Hm _ IH]; simpl.
  - apply sum_all_zero. reflexivity.
  - rewrite sum_list_with_plus, IH. f_equal.
    destruct (decide (m_receiver_id m = userId /\ m_read m = false))
      as [[Hu Hr]|Hno].
    + rewrite (bool_decide_eq_true_2 _ (conj Hu Hr)).
      destruct (Hm Hu) as [c0 [Hin Hid]].
      apply (sum_the_one convs c0); [exact Hnd | exact Hin |].
      intros c _.
      rewrite (bool_decide_ext _ (c_id c = c_id c0)); [reflexivity|].
      rewrite <- Hid. split.
      * intros [E _]. congruence.
      * intros E. split; [congruence | auto].
    + rewrite (bool_decide_eq_false_2 _ Hno).
      apply sum_all_zero. intros c _.
      rewrite bool_decide_eq_false_2; [reflexivity|].
      intros [_ H]. exact (Hno H).
Qed.

Lemma unread_total_of_conversations userId v :
  well_formed v ->
  sum_list_with cd_unreadCount (getConversations_mock userId v)
  = unread_total userId (mockMessages v).
Proof.
  intros Hv. unfold getConversations_mock.
  rewrite sort_perm, sum_list_with_map. simpl.
  rewrite (sum_list_with_agree _
             (fun c => unread_in (c_id c) userId (mockMessages v)))
    by (intros c; apply unread_in_filter).
  apply unread_total_is_the_sum.
  - apply NoDup_map_filter, wf_conversation_ids_distinct, Hv.
  - apply Forall_forall. intros m Hm Hu.
    destruct (wf_messages v Hv m Hm) as [c [Hin [Hid Hparty]]].
    exists c. split; [|exact Hid].
    apply list_elem_of_In, filter_In. split; [apply list_elem_of_In, Hin|].
    rewrite Hu in Hparty. destruct Hparty as [<- | <-];
      rewrite String.eqb_refl; [reflexivity | apply orb_true_r].
Qed.

End UnreadTotals.

(** C4.  On the fixture path, for a signed-in user: [getConversations]
    returns the user's conversations, each with an [unreadCount] equal to
    the number of messages of that conversation addressed to the user and
    not read; [getUnreadCount] is the number of messages of the store
    addressed to the user and not read, which in a reachable state is the
    sum of the [unreadCount]s over the user's conversations. *)
Theorem unread_counts_count_unread_messages
  (cfg : Config) (env : Env) (w : Run MessageService.Vars) (userId : string) :
  message_USE_MOCK_DATA cfg
  || MessageService.DETECTED_MISSING_TABLES (vars w) = true ->
  caller cfg env = Resolved userId ->
  exists conversations,
    MessageService.getConversations cfg env w = (Resolved conversations, w)
    /\ (forall d, d ∈ conversations ->
          cd_unreadCount d
          = unread_in (c_id (cd_conversation d)) userId
                      (MessageService.mockMessages (vars w)))
    /\ List.map cd_conversation conversations
       ≡ₚ List.filter (fun conv => String.eqb (c_buyer_id conv) userId
                                   || String.eqb (c_seller_id conv) userId)
                      (MessageService.mockConversations (vars w))
    /\ MessageService.getUnreadCount cfg env w
       = (Resolved (unread_total userId (MessageService.mockMessages (vars w))),
          w)
    /\ (reachable cfg w ->
        sum_list_with cd_unreadCount conversations
        = unread_total userId (MessageService.mockMessages (vars w))).
Proof.
  intros Hmock Hcaller.
  rewrite (getConversations_mock_branch _ _ _ userId) by assumption.
  rewrite (getUnreadCount_mock_branch _ _ _ userId) by assumption.
  eexists. split; [reflexivity|].
  split; [|split; [|split]].
  - unfold MessageService.getConversations_mock.
    intros d Hd. rewrite sort_perm in Hd.
    apply list_elem_of_In, in_map_iff in Hd as [conv [<- _]]. simpl.
    apply unread_in_filter.
  - unfold MessageService.getConversations_mock.
    rewrite sort_perm, List.map_map. simpl. now rewrite List.map_id.
  - unfold MessageService.getUnreadCount_mock. now rewrite unread_total_filter.
  - intros Hreach. apply unread_total_of_conversations.
    apply reachable_well_formed with (cfg := cfg), Hreach.
Qed.

(** *** The claims at concrete inputs *)

Lemma saved_items_are_idempotent_witness :
  let w := Build_Run (SavedItemsService.set_detected SavedItemsService.initial)
                     [] 0 in
  let once := SavedItemsService.addSavedItem shipped "book-001" FAVORITE
                (as_user "user-001") w in
  (saved_USE_MOCK_DATA shipped
   || SavedItemsService.DETECTED_MISSING_TABLE (vars w) = true
   /\ caller shipped (as_user "user-001") = Resolved "user-001")
  /\ SavedItemsService.addSavedItem shipped "book-001" FAVORITE
       (as_user "user-001") (snd once)
     = (Resolved tt, snd once)
  /\ SavedItemsService.savedIds "user-001" FAVORITE (vars (snd once))
     = ["book-001"].
Proof.
  intros w once. split; [split; reflexivity|].
  split; [|reflexivity].
  apply (saved_items_are_idempotent shipped (as_user "user-001") w
           "user-001" "book-001" FAVORITE eq_refl eq_refl).
Defined.

Lemma sendMessage_delivers_to_the_other_party_witness :
  (message_USE_MOCK_DATA mock_mode = true
   /\ caller mock_mode (as_user "") = Resolved "user-001")
  /\ exists newMessage w',
       MessageService.sendMessage mock_mode "conv-001" "Hello" (as_user "")
                                  loaded
       = (Resolved (Some newMessage), w')
       /\ m_id newMessage = "00msg-7"
       /\ m_receiver_id newMessage = "user-002"
       /\ m_read newMessage = false
       /\ MessageService.mockMessages (vars w')
          = (MessageService.mockMessages MessageService.initial
             ++ [newMessage])%list.
Proof.
  split; [split; reflexivity|].
  pose proof (sendMessage_delivers_to_the_other_party mock_mode (as_user "")
                loaded "user-001" "conv-001" "Hello" eq_refl eq_refl) as H.
  simpl in H.
  destruct H as [newMessage [w' [position
    [Hrun [Hmsgs [Hid [_ [_ [_ [_ [Hread [_ [Hrecv _]]]]]]]]]]]]].
  exists newMessage, w'.
  split; [exact Hrun|]. split; [exact Hid|].
  split; [exact (Hrecv eq_refl)|]. split; [exact Hread | exact Hmsgs].
Defined.

Lemma startConversation_twice_is_one_conversation_witness :
  let first := MessageService.startConversation mock_mode "book-003" "user-003"
                 "Hi" (as_user "") loaded in
  let second := MessageService.startConversation mock_mode "book-003" "user-003"
                  "Still there?" (as_user "") (snd first) in
  (message_USE_MOCK_DATA mock_mode = true
   /\ reachable mock_mode loaded
   /\ caller mock_mode (as_user "") = Resolved "user-001"
   /\ "user-001" <> "user-003")
  /\ exists c,
       fst second = Resolved c
       /\ List.filter (MessageService.same_triple "book-003" "user-001" "user-003")
                      (MessageService.mockConversations (vars (snd second)))
          = [c]
       /\ length (MessageService.mockConversations (vars (snd second))) = 3
       /\ length (List.filter
                    (fun m => String.eqb (m_conversation_id m) (c_id c))
                    (MessageService.mockMessages (vars (snd second)))) = 2.
Proof.
  intros first second.
  assert (Hne : "user-001" <> "user-003") by discriminate.
  split; [repeat split; [apply reach_loaded | exact Hne]|].
  destruct (startConversation_twice_is_one_conversation mock_mode
              (as_user "") (as_user "") loaded "user-001" "book-003" "user-003"
              "Hi" "Still there?" eq_refl (reach_loaded mock_mode)
              eq_refl eq_refl Hne)
    as [c1 [c2 [m1 [m2 [_ [H2 [_ [_ [_ [_ [H7 [_ [_ [_ [_ [_ [_ [_ [_ [_
        [_ Hfresh]]]]]]]]]]]]]]]]]]]]].
  destruct (Hfresh eq_refl) as [Hlen Hmsgs].
  exists c2. split; [exact H2|]. split; [exact H7|].
  split; [exact Hlen|]. subst first second. rewrite Hmsgs. reflexivity.
Defined.

Lemma unread_counts_count_unread_messages_witness :
  let w := snd (MessageService.getMessages shipped "conv-001"
                  (as_user "user-001") loaded) in
  (message_USE_MOCK_DATA shipped
   || MessageService.DETECTED_MISSING_TABLES (vars w) = true
   /\ caller shipped (as_user "user-001") = Resolved "user-001"
   /\ reachable shipped w)
  /\ exists conversations,
       MessageService.getConversations shipped (as_user "user-001") w
       = (Resolved conversations, w)
       /\ (forall d, d ∈ conversations ->
             cd_unreadCount d
             = unread_in (c_id (cd_conversation d)) "user-001"
                         (MessageService.mockMessages (vars w)))
       /\ MessageService.getUnreadCount shipped (as_user "user-001") w
          = (Resolved 1, w)
       /\ sum_list_with cd_unreadCount conversations = 1.
Proof.
  intros w.
  assert (Hreach : reachable shipped w)
    by (apply reach_getMessages, reach_loaded).
  split; [split; [reflexivity | split; [reflexivity | exact Hreach]]|].
  destruct (unread_counts_count_unread_messages shipped (as_user "user-001")
              w "user-001" eq_refl eq_refl)
    as [conversations [H1 [H2 [_ [H4 H5]]]]].
  exists conversations. split; [exact H1|]. split; [exact H2|].
  split; [exact H4 | exact (H5 Hreach)].
Defined.

Lemma fixture_ids_are_pairwise_distinct_witness :
  let w := snd (MessageService.sendMessage mock_mode "conv-002" "On my way"
                  (as_user "") loaded) in
  reachable mock_mode w
  /\ NoDup (List.map m_id (MessageService.mockMessages (vars w)))
  /\ List.map m_id (MessageService.mockMessages (vars w))
     = ["msg-001"; "msg-002"; "msg-003"; "msg-004"; "msg-005"; "msg-006";
        "00msg-7"].
Proof.
  intros w.
  assert (Hreach : reachable mock_mode w)
    by (apply reach_sendMessage, reach_loaded).
  split; [exact Hreach|]. split; [|reflexivity].
  exact (proj1 (fixture_ids_are_pairwise_distinct mock_mode w Hreach)).
Defined.

(** The scenarios of the specification on the seed data: for [user-001]
    the conversation [conv-001] has one unread message and shows the
    content of its third message; a first contact creates one conversation
    with one message. *)
Example seed_conversations_of_user_001 :
  List.map (fun d => (c_id (cd_conversation d), cd_unreadCount d,
                      cd_lastMessage d))
           (MessageService.getConversations_mock "user-001"
              MessageService.initial)
  = [("conv-002", 0, Some "Perfect! When can we meet for the exchange?");
     ("conv-001", 1, Some "Great! Would you consider a lower price?")].
Proof. vm_compute. reflexivity. Qed.

Example first_contact_creates_one_conversation :
  let r := MessageService.startConversation mock_mode "book-003" "user-003" "Hi"
             (as_user "") loaded in
  (exists c, fst r = Resolved c /\ c_id c = "0conv-3"
             /\ c_buyer_id c = "user-001" /\ c_seller_id c = "user-003")
  /\ length (MessageService.mockConversations (vars (snd r))) = 3
  /\ length (MessageService.mockMessages (vars (snd r))) = 7.
Proof.
  split; [eexists; split; [reflexivity|]; repeat split|]. split; reflexivity.
Qed.

Example toggle_twice :
  let w := Build_Run SavedItemsService.initial [] 0 in
  let r1 := SavedItemsService.toggleSavedItem mock_mode "book-001" WISHLIST
              (as_user "") w in
  let r2 := SavedItemsService.toggleSavedItem mock_mode "book-001" WISHLIST
              (as_user "") (snd r1) in
  fst r1 = Resolved true /\ fst r2 = Resolved false.
Proof. split; reflexivity. Qed.

(** ** Further properties *)

(** *** The screens: filter state and the listing query *)

Section FilterState.
Import FilterModal.

Lemma includes_elem_of (x : string) (l : list string) :
  Js.includes x l = true <-> x ∈ l.
Proof.
  unfold Js.includes. rewrite existsb_exists. split.
  - intros [y [Hin Heq]]. apply String.eqb_eq in Heq as ->.
    now apply list_elem_of_In.
  - intros Hin. exists x. split; [now apply list_elem_of_In|].
    apply String.eqb_refl.
Qed.

Lemma includes_not_elem_of (x : string) (l : list string) :
  Js.includes x l = false <-> x ∉ l.
Proof.
  rewrite <- includes_elem_of. destruct (Js.includes x l); split; congruence.
Qed.

Lemma elem_of_filter_other (x y : string) (l : list string) :
  x ∈ List.filter (fun c => negb (String.eqb c y)) l <-> x ∈ l /\ x <> y.
Proof.
  rewrite !list_elem_of_In, filter_In, negb_true_iff, String.eqb_neq.
  reflexivity.
Qed.

Lemma NoDup_filter_other (y : string) (l : list string) :
  NoDup l -> NoDup (List.filter (fun c => negb (String.eqb c y)) l).
Proof.
  induction 1 as [|x r Hx _ IH]; simpl; [constructor|].
  destruct (negb (String.eqb x y)); [|exact IH].
  constructor; [|exact IH]. rewrite elem_of_filter_other. tauto.
Qed.

Lemma toggle_membership (category : string) (prev : list string) :
  (category ∈ toggleCategory category prev <-> category ∉ prev)
  /\ (forall other, other <> category ->
        (other ∈ toggleCategory category prev <-> other ∈ prev)).
Proof.
  unfold toggleCategory.
  destruct (Js.includes category prev) eqn:E.
  - apply includes_elem_of in E. split.
    + rewrite elem_of_filter_other.
      split; [intros [_ H]; now destruct H | intros H; now destruct H].
    + intros other Hne. rewrite elem_of_filter_other. tauto.
  - apply includes_not_elem_of in E. split.
    + rewrite elem_of_app, list_elem_of_singleton.
      split; [intros _; exact E | intros _; right; reflexivity].
    + intros other Hne. rewrite elem_of_app, list_elem_of_singleton. tauto.
Qed.

(** X1.  [toggleCategory] flips the membership of the category and of no
    other one, whatever the selection is, and a second toggle gives back
    the categories that were selected; [toggleCondition] is the same
    function.  On a selection without repetitions the result has no
    repetitions and the second toggle gives the selection back up to the
    order of its elements. *)
Theorem toggleCategory_flips_one_membership (category : string)
        (prev : list string) :
  (category ∈ toggleCategory category prev <-> category ∉ prev)
  /\ (forall other, other <> category ->
        (other ∈ toggleCategory category prev <-> other ∈ prev))
  /\ (forall c, c ∈ toggleCategory category (toggleCategory category prev)
                <-> c ∈ prev)
  /\ toggleCondition category prev = toggleCategory category prev
  /\ (NoDup prev ->
      NoDup (toggleCategory category prev)
      /\ toggleCategory category (toggleCategory category prev) ≡ₚ prev).
Proof.
  destruct (toggle_membership category prev) as [Hown Hother].
  destruct (toggle_membership category (toggleCategory category prev))
    as [Hown' Hother'].
  split; [exact Hown|]. split; [exact Hother|].
  split; [|split; [reflexivity|]].
  - intros c. destruct (decide (c = category)) as [->|Hne].
    + rewrite Hown', Hown.
      destruct (decide (category ∈ prev)); tauto.
    + rewrite (Hother' c Hne). apply Hother, Hne.
  - intros Hnd. unfold toggleCategory.
    destruct (Js.includes category prev) eqn:E.
    + apply includes_elem_of in E.
      assert (Hout : Js.includes category
                (List.filter (fun c => negb (String.eqb c category)) prev)
                = false).
      { apply includes_not_elem_of. rewrite elem_of_filter_other. tauto. }
      rewrite Hout. split; [now apply NoDup_filter_other|].
      apply NoDup_Permutation.
      * apply NoDup_app. split; [now apply NoDup_filter_other|].
        split; [|apply NoDup_singleton].
        intros x Hx Hx'. apply list_elem_of_singleton in Hx' as ->.
        apply elem_of_filter_other in Hx. tauto.
      * exact Hnd.
      * intros x. rewrite elem_of_app, elem_of_filter_other,
          list_elem_of_singleton.
        destruct (decide (x = category)) as [->|Hne]; tauto.
    + assert (Hin : Js.includes category (prev ++ [category]) = true)
        by apply includes_app_last.
      rewrite Hin. apply includes_not_elem_of in E. split.
      * apply NoDup_app. split; [exact Hnd|].
        split; [|apply NoDup_singleton].
        intros x Hx Hx'. apply list_elem_of_singleton in Hx' as ->. tauto.
      * rewrite List.filter_app. simpl. rewrite String.eqb_refl. simpl.
        rewrite app_nil_r, filter_not_included; [reflexivity|].
        now apply includes_not_elem_of.
Qed.

Lemma toggleCategory_flips_one_membership_witness :
  NoDup (toggleCategory "Fiction" ["Science"; "Fiction"])
  /\ toggleCategory "Fiction" (toggleCategory "Fiction" ["Science"; "Fiction"])
     ≡ₚ ["Science"; "Fiction"].
Proof.
  apply (toggleCategory_flips_one_membership "Fiction" ["Science"; "Fiction"]).
  apply (bool_decide_unpack _). vm_compute. exact I.
Defined.

(** X2.  [toggleNegotiable] and [toggleExchange] walk through the three
    states undefined, true, false in this order: a toggle always changes
    the state, and three toggles give the state back. *)
Theorem toggleNegotiable_has_period_three (prev : option bool) :
  toggleNegotiable prev <> prev
  /\ toggleNegotiable (toggleNegotiable prev) <> prev
  /\ toggleNegotiable (toggleNegotiable (toggleNegotiable prev)) = prev
  /\ toggleNegotiable None = Some true
  /\ toggleExchange prev = toggleNegotiable prev.
Proof. destruct prev as [[|]|]; repeat split; discriminate. Qed.

End FilterState.

Section HomeScreenFacts.
Import HomeScreen.

Lemma no_filter_set filters :
  hasFilters filters = false ->
  BookService.filter_conditions filters = []
  /\ forall listings, BookService.applyFilters filters listings = listings.
Proof.
  unfold hasFilters, BookService.filter_conditions, BookService.applyFilters.
  destruct (categories filters) as [cats|], (conditions filters) as [conds|],
    (minPrice filters), (maxPrice filters), (isNegotiable filters),
    (exchangeOption filters); simpl;
    rewrite ?orb_true_r; try discriminate.
  all: try destruct (0 <? length cats)%nat; simpl; try discriminate.
  all: try destruct (0 <? length conds)%nat; simpl; try discriminate.
  all: intros _; split; reflexivity.
Qed.

(** X3.  On the tab of all listings [fetchListings] awaits what
    [getFilteredListings] gives for the filters of the screen, whatever
    they are: when no filter is set, [getListings] sends the request and
    returns the rows that [getFilteredListings] would.  The filter count
    of the button is zero exactly when no filter is set. *)
Theorem fetchListings_is_getFilteredListings (cfg : Config)
        (filters : BookFilterOptions) (env : Env)
        (w : Run SavedItemsService.Vars) :
  fetchListings_data cfg all filters env w
  = BookService.getFilteredListings cfg filters env w
  /\ (filterCount filters = 0 <-> hasFilters filters = false).
Proof.
  split.
  - unfold fetchListings_data.
    destruct (hasFilters filters) eqn:E; [reflexivity|].
    destruct (no_filter_set filters E) as [Hq Hf].
    unfold BookService.getFilteredListings, BookService.getListings.
    now rewrite Hq, Hf.
  - unfold filterCount, hasFilters.
    destruct (categories filters) as [cats|], (conditions filters) as [conds|],
      (minPrice filters), (maxPrice filters), (isNegotiable filters),
      (exchangeOption filters); simpl;
      try destruct (0 <? length cats)%nat; simpl;
      try destruct (0 <? length conds)%nat; simpl;
      split; first [reflexivity | discriminate].
Qed.

End HomeScreenFacts.

(** *** The listing queries *)

Section BookQueries.
Import BookService.

Lemma lower_ascii_idempotent (c : ascii) :
  Js.lower_ascii (Js.lower_ascii c) = Js.lower_ascii c.
Proof.
  destruct c as [[|] [|] [|] [|] [|] [|] [|] [|]]; reflexivity.
Qed.

Lemma toLowerCase_idempotent (s : string) :
  Js.toLowerCase (Js.toLowerCase s) = Js.toLowerCase s.
Proof.
  induction s as [|c r IH]; simpl; [reflexivity|].
  now rewrite lower_ascii_idempotent, IH.
Qed.

Lemma str_includes_empty (s : string) : Js.str_includes "" s = true.
Proof. destruct s; reflexivity. Qed.

Lemma fetch_run {St} (q : Request) env (w : Run St) :
  fetch q env w
  = (match remote env (q :: sent w) with
     | Returned r =>
         match error r with
         | Some e => Rejected e
         | None => Resolved (rows (data r))
         end
     | Threw e => Rejected e
     end,
     Build_Run (vars w) (q :: sent w) (ticks w)).
Proof.
  unfold fetch, try_catch, bind, call.
  destruct (remote env (q :: sent w)) as [r|e]; [|reflexivity].
  destruct (error r); reflexivity.
Qed.

Lemma mockListings_are_ascii :
  forallb (fun listing =>
             Js.is_ascii (l_title listing) && Js.is_ascii (l_author listing)
             && match l_description listing with
                | Some d => Js.is_ascii d
                | None => true
                end) mockListings = true.
Proof. vm_compute. reflexivity. Qed.

(** X4.  The fixture search compares in lower case.  For a search term
    of ASCII characters (the texts of the mock catalogue are ASCII): the
    case of the letters of the term does not matter, and a listing whose
    title contains the term, both in lower case, is found.  The empty
    term finds every listing. *)
Theorem searchListings_ignores_the_case_of_the_term {St} (cfg : Config)
        (searchTerm : string) (env : Env) (w : Run St) :
  book_USE_MOCK_DATA cfg = true ->
  Js.is_ascii searchTerm = true ->
  searchListings cfg (Js.toLowerCase searchTerm) env w
  = searchListings cfg searchTerm env w
  /\ searchListings cfg "" env w = getListings cfg env w
  /\ exists found,
      searchListings cfg searchTerm env w = (Resolved found, w)
      /\ forall listing,
           listing ∈ mockListings ->
           Js.str_includes (Js.toLowerCase searchTerm)
                           (Js.toLowerCase (l_title listing)) = true ->
           listing ∈ found.
Proof.
  intros Hmock _. unfold searchListings, getListings. rewrite Hmock.
  split; [|split].
  - unfold search. now rewrite toLowerCase_idempotent.
  - assert (Hall : search "" mockListings = mockListings).
    { unfold search. rewrite <- (filter_true mockListings) at 2.
      apply filter_agree, Forall_forall. intros listing _.
      simpl. now rewrite str_includes_empty. }
    now rewrite Hall.
  - eexists. split; [reflexivity|]. intros listing Hin Htitle.
    apply list_elem_of_In. apply filter_In.
    split; [now apply list_elem_of_In|]. cbv zeta. now rewrite Htitle.
Qed.

Lemma searchListings_ignores_the_case_of_the_term_witness :
  searchListings mock_mode (Js.toLowerCase "GATSBY") (as_user "user-001")
                 (Build_Run tt [] 0)
  = searchListings mock_mode "GATSBY" (as_user "user-001") (Build_Run tt [] 0).
Proof.
  apply (searchListings_ignores_the_case_of_the_term
           mock_mode "GATSBY" (as_user "user-001") (Build_Run tt [] 0));
    reflexivity.
Defined.



End BookQueries.

(** *** The order of the fixture answers of the messaging module *)

Section Sorting.
Context {A : Type}.

Lemma ascending_nil (key : A -> Z) : ascending key [].
Proof. intros i j a b _ Hi. discriminate. Qed.

Lemma ascending_cons (key : A -> Z) (a : A) (l : list A) :
  ascending key (a :: l)
  <-> (forall b, b ∈ l -> (key a <= key b)%Z) /\ ascending key l.
Proof.
  unfold ascending. split.
  - intros H. split.
    + intros b Hb. apply list_elem_of_lookup_1 in Hb as [j Hj].
      apply (H 0 (S j) a b); [lia | reflexivity | exact Hj].
    + intros i j x y Hij Hi Hj.
      apply (H (S i) (S j) x y); [lia | exact Hi | exact Hj].
  - intros [Hhd Htl] i j x y Hij Hi Hj.
    destruct j as [|j]; [lia|].
    destruct i as [|i].
    + injection Hi as <-. apply Hhd. eapply list_elem_of_lookup_2, Hj.
    + apply (Htl i j x y); [lia | exact Hi | exact Hj].
Qed.

Lemma insert_by_ascending (key : A -> Z) (cmp : A -> A -> Z) (x : A)
      (l : list A) :
  (forall y, y ∈ l -> (cmp x y <=? 0)%Z = (key x <=? key y)%Z) ->
  ascending key l -> ascending key (Js.insert_by cmp x l).
Proof.
  induction l as [|y r IH]; simpl; intros Hcmp Hl.
  - apply ascending_cons. split; [|apply ascending_nil].
    intros b Hb. inversion Hb.
  - rewrite Hcmp by apply list_elem_of_here.
    pose proof (proj1 (ascending_cons key y r) Hl) as [Hy Hr].
    destruct (Z.leb_spec (key x) (key y)) as [Hle|Hgt].
    + apply ascending_cons. split; [|exact Hl].
      intros b Hb. apply elem_of_cons in Hb as [->|Hb]; [exact Hle|].
      specialize (Hy b Hb). lia.
    + apply ascending_cons. split.
      * intros b Hb. rewrite insert_by_perm in Hb.
        apply elem_of_cons in Hb as [->|Hb]; [lia | auto].
      * apply IH; [|exact Hr]. intros z Hz. apply Hcmp.
        now apply list_elem_of_further.
Qed.

Lemma sort_ascending (key : A -> Z) (cmp : A -> A -> Z) (l : list A) :
  (forall x y, x ∈ l -> y ∈ l -> (cmp x y <=? 0)%Z = (key x <=? key y)%Z) ->
  ascending key (Js.sort cmp l).
Proof.
  unfold Js.sort. induction l as [|x r IH]; simpl; intros Hcmp.
  - apply ascending_nil.
  - apply insert_by_ascending.
    + intros y Hy. fold (Js.sort cmp r) in Hy. rewrite sort_perm in Hy.
      apply Hcmp; [apply list_elem_of_here | now apply list_elem_of_further].
    + apply IH. intros; apply Hcmp; now apply list_elem_of_further.
Qed.

Lemma sort_descending (key : A -> Z) (cmp : A -> A -> Z) (l : list A) :
  (forall x y, x ∈ l -> y ∈ l -> (cmp x y <=? 0)%Z = (key y <=? key x)%Z) ->
  descending key (Js.sort cmp l).
Proof.
  intros Hcmp.
  assert (H : ascending (fun a => (- key a)%Z) (Js.sort cmp l)).
  { apply sort_ascending. intros x y Hx Hy. rewrite (Hcmp x y Hx Hy).
    destruct (Z.leb_spec (key y) (key x)), (Z.leb_spec (- key x) (- key y));
      first [reflexivity | lia]. }
  intros i j a b Hij Hi Hj. specialize (H i j a b Hij Hi Hj). simpl in H. lia.
Qed.

Lemma descending_head (key : A -> Z) (a : A) (l : list A) :
  descending key (a :: l) -> forall b, b ∈ a :: l -> (key b <= key a)%Z.
Proof.
  intros H b Hb. apply elem_of_cons in Hb as [->|Hb]; [lia|].
  apply list_elem_of_lookup_1 in Hb as [j Hj].
  apply (H 0 (S j) a b); [lia | reflexivity | exact Hj].
Qed.

End Sorting.

Lemma time_diff_readable (a b : string) :
  readable a = true -> readable b = true ->
  Js.time_diff a b = (time_of a - time_of b)%Z.
Proof.
  unfold readable, Js.time_diff, time_of.
  destruct (Js.getTime a), (Js.getTime b); try discriminate. reflexivity.
Qed.

Lemma forallb_elem_of {A} (p : A -> bool) (l : list A) (x : A) :
  forallb p l = true -> x ∈ l -> p x = true.
Proof.
  intros H Hx. rewrite forallb_forall in H. apply H. now apply list_elem_of_In.
Qed.

Section MessageOrder.
Import MessageService.

Lemma elem_of_List_filter {A} (p : A -> bool) (l : list A) (x : A) :
  x ∈ List.filter p l <-> x ∈ l /\ p x = true.
Proof. rewrite !list_elem_of_In. apply filter_In. Qed.

(** X6.  On the fixture path [getMessages] resolves, without a request or
    a change of the store, with the messages of the conversation, each
    one once, in the order of their timestamps when those are date-time
    texts. *)
Theorem getMessages_fixture_is_in_time_order (cfg : Config) (env : Env)
        (w : Run Vars) (conversationId : string) :
  message_USE_MOCK_DATA cfg || DETECTED_MISSING_TABLES (vars w) = true ->
  forallb (fun msg => readable (m_created_at msg)) (mockMessages (vars w))
  = true ->
  exists msgs,
    getMessages cfg conversationId env w = (Resolved msgs, w)
    /\ msgs ≡ₚ List.filter
                 (fun msg => String.eqb (m_conversation_id msg) conversationId)
                 (mockMessages (vars w))
    /\ ascending (fun msg => time_of (m_created_at msg)) msgs.
Proof.
  intros Hmock Hread. eexists. split; [now apply getMessages_mock_branch|].
  unfold getMessages_mock. split; [apply sort_perm|].
  apply sort_ascending. intros x y Hx Hy.
  apply elem_of_List_filter in Hx as [Hx _].
  apply elem_of_List_filter in Hy as [Hy _].
  rewrite time_diff_readable
    by (exact (forallb_elem_of _ _ _ Hread Hx)
        || exact (forallb_elem_of _ _ _ Hread Hy)).
  destruct (Z.leb_spec (time_of (m_created_at x) - time_of (m_created_at y)) 0),
    (Z.leb_spec (time_of (m_created_at x)) (time_of (m_created_at y)));
    first [reflexivity | lia].
Qed.

Lemma getMessages_fixture_is_in_time_order_witness :
  exists msgs,
    getMessages mock_mode "conv-001" (as_user "user-001") loaded
    = (Resolved msgs, loaded)
    /\ msgs ≡ₚ List.filter
                 (fun msg => String.eqb (m_conversation_id msg) "conv-001")
                 (mockMessages (vars loaded))
    /\ ascending (fun msg => time_of (m_created_at msg)) msgs.
Proof.
  apply (getMessages_fixture_is_in_time_order
           mock_mode (as_user "user-001") loaded "conv-001");
    reflexivity.
Defined.

(** X7.  On the fixture path [getConversations] resolves with the
    conversations in which the caller is the buyer or the seller, each
    one once and the one with the latest [last_message_at] first; the
    [lastMessage] of an entry is the text of a message of that
    conversation that no other message of it is later than, and it is
    absent exactly when the conversation has no message. *)
Theorem getConversations_fixture_is_newest_first (cfg : Config) (env : Env)
        (w : Run Vars) (userId : string) :
  message_USE_MOCK_DATA cfg || DETECTED_MISSING_TABLES (vars w) = true ->
  caller cfg env = Resolved userId ->
  forallb (fun conv => readable (c_last_message_at conv))
          (mockConversations (vars w)) = true ->
  forallb (fun msg => readable (m_created_at msg)) (mockMessages (vars w))
  = true ->
  exists result,
    getConversations cfg env w = (Resolved result, w)
    /\ List.map cd_conversation result
       ≡ₚ List.filter (fun conv => String.eqb (c_buyer_id conv) userId
                                   || String.eqb (c_seller_id conv) userId)
                      (mockConversations (vars w))
    /\ descending (fun d => time_of (c_last_message_at (cd_conversation d)))
                  result
    /\ Forall (fun d =>
         match cd_lastMessage d with
         | Some text =>
             exists msg,
               msg ∈ mockMessages (vars w)
               /\ m_conversation_id msg = c_id (cd_conversation d)
               /\ m_content msg = text
               /\ forall other,
                    other ∈ mockMessages (vars w) ->
                    m_conversation_id other = c_id (cd_conversation d) ->
                    (time_of (m_created_at other)
                     <= time_of (m_created_at msg))%Z
         | None =>
             forall msg, msg ∈ mockMessages (vars w) ->
                         m_conversation_id msg <> c_id (cd_conversation d)
         end) result.
Proof.
  intros Hmock Hcaller Hconvs Hmsgs.
  eexists.
  split; [exact (getConversations_mock_branch _ _ _ userId Hmock Hcaller)|].
  unfold getConversations_mock. cbv zeta.
  match goal with
  | |- context [List.map ?f (List.filter ?p (mockConversations (vars w)))] =>
      set (enhance := f); set (mine := List.filter p (mockConversations (vars w)))
  end.
  assert (Hback : forall conv, cd_conversation (enhance conv) = conv)
    by (intros conv; reflexivity).
  split; [|split].
  - rewrite sort_perm, map_map.
    rewrite (map_ext _ (fun conv => conv) Hback), map_id. reflexivity.
  - apply sort_descending. intros x y Hx Hy.
    apply list_elem_of_In, in_map_iff in Hx as [cx [<- Hx]].
    apply list_elem_of_In, in_map_iff in Hy as [cy [<- Hy]].
    rewrite !Hback.
    apply list_elem_of_In, elem_of_List_filter in Hx as [Hx _].
    apply list_elem_of_In, elem_of_List_filter in Hy as [Hy _].
    rewrite time_diff_readable
      by (exact (forallb_elem_of _ _ _ Hconvs Hx)
          || exact (forallb_elem_of _ _ _ Hconvs Hy)).
    destruct (Z.leb_spec (time_of (c_last_message_at cy)
                          - time_of (c_last_message_at cx)) 0),
      (Z.leb_spec (time_of (c_last_message_at cy))
                  (time_of (c_last_message_at cx)));
      first [reflexivity | lia].
  - apply Forall_forall. intros d Hd. rewrite sort_perm in Hd.
    apply list_elem_of_In, in_map_iff in Hd as [conv [<- _]].
    rewrite Hback. unfold enhance; simpl.
    set (cmp := fun a b : Message =>
                  Js.time_diff (m_created_at b) (m_created_at a)).
    set (own := List.filter
                  (fun msg => String.eqb (m_conversation_id msg) (c_id conv))
                  (mockMessages (vars w))).
    assert (Hsorted : descending (fun msg => time_of (m_created_at msg))
                                 (Js.sort cmp own)).
    { apply sort_descending. intros x y Hx Hy.
      apply elem_of_List_filter in Hx as [Hx _].
      apply elem_of_List_filter in Hy as [Hy _]. unfold cmp.
      rewrite time_diff_readable
        by (exact (forallb_elem_of _ _ _ Hmsgs Hx)
            || exact (forallb_elem_of _ _ _ Hmsgs Hy)).
      destruct (Z.leb_spec (time_of (m_created_at y)
                            - time_of (m_created_at x)) 0),
        (Z.leb_spec (time_of (m_created_at y)) (time_of (m_created_at x)));
        first [reflexivity | lia]. }
    pose proof (sort_perm cmp own) as Hperm.
    destruct (Js.sort cmp own) as [|msg rest].
    + intros m Hm E. apply Permutation_nil_l in Hperm.
      assert (Hin : m ∈ own).
      { apply elem_of_List_filter. split; [exact Hm|].
        now apply String.eqb_eq. }
      rewrite <- Hperm in Hin. inversion Hin.
    + exists msg.
      assert (Hin : msg ∈ own)
        by (rewrite <- Hperm; apply list_elem_of_here).
      apply elem_of_List_filter in Hin as [Hin Hid].
      apply String.eqb_eq in Hid.
      split; [exact Hin|]. split; [exact Hid|]. split; [reflexivity|].
      intros other Hother Heq.
      apply (descending_head _ _ _ Hsorted). rewrite Hperm.
      apply elem_of_List_filter. split; [exact Hother|].
      now apply String.eqb_eq.
Qed.

Lemma getConversations_fixture_is_newest_first_witness :
  exists result,
    getConversations mock_mode (as_user "user-001") loaded
    = (Resolved result, loaded)
    /\ descending (fun d => time_of (c_last_message_at (cd_conversation d)))
                  result.
Proof.
  destruct (getConversations_fixture_is_newest_first
              mock_mode (as_user "user-001") loaded "user-001")
    as [result [H1 [_ [H2 _]]]]; try reflexivity.
  exists result. split; assumption.
Defined.

End MessageOrder.

(** *** Reading a conversation *)

Ltac count_absurd :=
  exfalso;
  repeat match goal with H : _ /\ _ |- _ => destruct H end;
  first
    [ congruence
    | match goal with
      | H : ~ _ |- _ => apply H; repeat split; congruence
      end ].

Section MarkAsRead.
Import MessageService.

Lemma markMessagesAsRead_mock_branch cfg env (w : Run Vars) userId
      conversationId :
  message_USE_MOCK_DATA cfg = true ->
  caller cfg env = Resolved userId ->
  markMessagesAsRead cfg conversationId env w
  = markMessagesAsRead_mock userId conversationId env w.
Proof.
  intros Hmock Hcaller. unfold markMessagesAsRead, bind at 1.
  rewrite getUserId_caller, Hcaller, (caller_not_empty _ _ _ Hcaller), Hmock.
  reflexivity.
Qed.

Lemma unread_in_marked conversationId userId c u msgs :
  unread_in c u
    (List.map (fun msg =>
       if String.eqb (m_conversation_id msg) conversationId
          && String.eqb (m_receiver_id msg) userId
       then with_read msg else msg) msgs)
  = if bool_decide (c = conversationId /\ u = userId) then 0
    else unread_in c u msgs.
Proof.
  induction msgs as [|m r IH]; simpl; [now destruct (bool_decide _)|].
  rewrite IH.
  destruct (String.eqb_spec (m_conversation_id m) conversationId) as [E1|E1],
    (String.eqb_spec (m_receiver_id m) userId) as [E2|E2]; simpl;
    repeat case_bool_decide; simpl; try reflexivity; count_absurd.
Qed.

Lemma unread_total_marked conversationId userId msgs :
  unread_total userId
    (List.map (fun msg =>
       if String.eqb (m_conversation_id msg) conversationId
          && String.eqb (m_receiver_id msg) userId
       then with_read msg else msg) msgs)
  + unread_in conversationId userId msgs
  = unread_total userId msgs.
Proof.
  induction msgs as [|m r IH]; simpl; [reflexivity|].
  rewrite <- IH.
  destruct (String.eqb_spec (m_conversation_id m) conversationId) as [E1|E1],
    (String.eqb_spec (m_receiver_id m) userId) as [E2|E2]; simpl;
    repeat case_bool_decide; simpl; try lia; count_absurd.
Qed.

Lemma mark_twice conversationId userId msgs :
  let mark := fun msg =>
    if String.eqb (m_conversation_id msg) conversationId
       && String.eqb (m_receiver_id msg) userId
    then with_read msg else msg in
  List.map mark (List.map mark msgs) = List.map mark msgs.
Proof.
  intros mark. rewrite map_map. apply map_ext. intros m. unfold mark.
  destruct (String.eqb (m_conversation_id m) conversationId
            && String.eqb (m_receiver_id m) userId) eqn:E; simpl.
  - now rewrite E.
  - now rewrite E.
Qed.

(** X8.  On the fixture path [markMessagesAsRead] leaves no unread message
    for the caller in the conversation and changes no other unread count:
    the unread total of the caller drops by the unread count the
    conversation had.  A message is kept as it is or only gets
    [read = true]; the conversations are not touched, and a second call
    changes nothing. *)
Theorem markMessagesAsRead_clears_the_conversation (cfg : Config) (env : Env)
        (w : Run Vars) (userId conversationId : string) :
  message_USE_MOCK_DATA cfg = true ->
  caller cfg env = Resolved userId ->
  exists w',
    markMessagesAsRead cfg conversationId env w = (Resolved tt, w')
    /\ unread_in conversationId userId (mockMessages (vars w')) = 0
    /\ (forall c u, (c, u) <> (conversationId, userId) ->
          unread_in c u (mockMessages (vars w'))
          = unread_in c u (mockMessages (vars w)))
    /\ unread_total userId (mockMessages (vars w'))
       + unread_in conversationId userId (mockMessages (vars w))
       = unread_total userId (mockMessages (vars w))
    /\ Forall2 (fun msg msg' => msg' = msg \/ msg' = with_read msg)
               (mockMessages (vars w)) (mockMessages (vars w'))
    /\ mockConversations (vars w') = mockConversations (vars w)
    /\ sent w' = sent w
    /\ markMessagesAsRead cfg conversationId env w' = (Resolved tt, w').
Proof.
  intros Hmock Hcaller. eexists.
  split; [exact (markMessagesAsRead_mock_branch _ _ _ _ _ Hmock Hcaller)|].
  simpl. split; [|split; [|split; [|split; [|split; [|split]]]]].
  - rewrite unread_in_marked. now rewrite bool_decide_eq_true_2.
  - intros c u Hne. rewrite unread_in_marked.
    rewrite bool_decide_eq_false_2; [reflexivity|].
    intros [-> ->]. now apply Hne.
  - apply unread_total_marked.
  - induction (mockMessages (vars w)) as [|m r IH]; simpl; constructor.
    + destruct (_ && _); auto.
    + exact IH.
  - reflexivity.
  - reflexivity.
  - rewrite (markMessagesAsRead_mock_branch _ _ _ _ _ Hmock Hcaller).
    unfold markMessagesAsRead_mock, write, set_messages. simpl.
    now rewrite mark_twice.
Qed.

Lemma markMessagesAsRead_clears_the_conversation_witness :
  exists w',
    markMessagesAsRead mock_mode "conv-001" (as_user "user-001") loaded
    = (Resolved tt, w')
    /\ unread_in "conv-001" "user-001" (mockMessages (vars w')) = 0.
Proof.
  destruct (markMessagesAsRead_clears_the_conversation
              mock_mode (as_user "user-001") loaded "user-001" "conv-001")
    as [w' [H1 [H2 _]]]; try reflexivity.
  exists w'. split; assumption.
Defined.

End MarkAsRead.

(** *** Calls that are refused before anything is sent *)

Section Refusals.
Import MessageService.

(** X9.  [startConversation] with the caller as the seller is rejected
    with the error [Cannot start a conversation with yourself], with
    either value of [USE_MOCK_DATA] and of the flag; no request is sent
    and no variable changes. *)
Theorem startConversation_with_oneself_is_refused (cfg : Config) (env : Env)
        (w : Run Vars) (listingId sellerId initialMessage : string) :
  caller cfg env = Resolved sellerId ->
  startConversation cfg listingId sellerId initialMessage env w
  = (Rejected (Error "Cannot start a conversation with yourself"), w).
Proof.
  intros Hcaller. unfold startConversation, bind at 1.
  rewrite getUserId_caller, Hcaller, (caller_not_empty _ _ _ Hcaller).
  now rewrite String.eqb_refl.
Qed.

Lemma startConversation_with_oneself_is_refused_witness :
  startConversation shipped "book-001" "user-001" "Hello"
                    (as_user "user-001") loaded
  = (Rejected (Error "Cannot start a conversation with yourself"), loaded).
Proof.
  apply (startConversation_with_oneself_is_refused
           shipped (as_user "user-001") loaded "book-001" "user-001" "Hello").
  reflexivity.
Defined.

(** X10.  When [getUserId] rejects, the methods that start with it
    reject with the same error: nothing is sent and no variable changes,
    for the writes of both modules and for [getConversations]. *)
Theorem a_failed_getUserId_fails_the_call (cfg : Config) (env : Env)
        (e : JsError) (ws : Run SavedItemsService.Vars) (wm : Run Vars)
        (bookId : string) (type : SavedItemType)
        (conversationId content listingId sellerId initialMessage : string) :
  caller cfg env = Rejected e ->
  SavedItemsService.addSavedItem cfg bookId type env ws = (Rejected e, ws)
  /\ SavedItemsService.removeSavedItem cfg bookId type env ws
     = (Rejected e, ws)
  /\ SavedItemsService.toggleSavedItem cfg bookId type env ws
     = (Rejected e, ws)
  /\ sendMessage cfg conversationId content env wm = (Rejected e, wm)
  /\ markMessagesAsRead cfg conversationId env wm = (Rejected e, wm)
  /\ startConversation cfg listingId sellerId initialMessage env wm
     = (Rejected e, wm)
  /\ getConversations cfg env wm = (Rejected e, wm).
Proof.
  intros Hcaller.
  assert (Hs : SavedItemsService.isSavedItem cfg bookId type env ws
               = (Rejected e, ws)).
  { unfold SavedItemsService.isSavedItem. simpl. unfold bind at 1.
    now rewrite getUserId_caller, Hcaller. }
  repeat split.
  - unfold SavedItemsService.addSavedItem. simpl. unfold bind at 1.
    now rewrite getUserId_caller, Hcaller.
  - unfold SavedItemsService.removeSavedItem. simpl. unfold bind at 1.
    now rewrite getUserId_caller, Hcaller.
  - unfold SavedItemsService.toggleSavedItem, bind at 1. now rewrite Hs.
  - unfold sendMessage, bind at 1. now rewrite getUserId_caller, Hcaller.
  - unfold markMessagesAsRead, bind at 1.
    now rewrite getUserId_caller, Hcaller.
  - unfold startConversation, bind at 1.
    now rewrite getUserId_caller, Hcaller.
  - unfold getConversations. simpl. unfold bind at 1.
    now rewrite getUserId_caller, Hcaller.
Qed.

Lemma a_failed_getUserId_fails_the_call_witness :
  sendMessage shipped "conv-001" "Hello"
    {| session := anonymous; remote := no_tables; clock := fixed_clock |}
    loaded
  = (Rejected (Error "Not authenticated"), loaded).
Proof.
  apply (a_failed_getUserId_fails_the_call
           shipped
           {| session := anonymous; remote := no_tables; clock := fixed_clock |}
           (Error "Not authenticated")
           (Build_Run SavedItemsService.initial [] 0) loaded
           "book-001" FAVORITE "conv-001" "Hello" "book-001" "user-002" "Hello").
  reflexivity.
Defined.

End Refusals.

(** *** The flags and the fixture store over the life of the process *)

Ltac vars_side :=
  idtac;
  first
    [ reflexivity
    | congruence
    | intros; simpl in *; first [assumption | reflexivity | congruence] ].

Section MessagingFlag.
Import MessageService.
Variable cfg : Config.

Lemma raised_getMessages fuel conversationId :
  keeps (fun w : Run Vars => DETECTED_MISSING_TABLES (vars w) = true)
        (getMessages_ cfg fuel conversationId).
Proof.
  induction fuel as [|fuel IH]; simpl;
    triple_auto ltac:(vars_side).
Qed.

Lemma raised_getUnreadCount fuel :
  keeps (fun w : Run Vars => DETECTED_MISSING_TABLES (vars w) = true)
        (getUnreadCount_ cfg fuel).
Proof.
  induction fuel as [|fuel IH]; simpl;
    triple_auto ltac:(vars_side).
Qed.

Lemma raised_getConversations fuel :
  keeps (fun w : Run Vars => DETECTED_MISSING_TABLES (vars w) = true)
        (getConversations_ cfg fuel).
Proof.
  induction fuel as [|fuel IH]; simpl;
    unfold unread_count_of, last_message_of, fetch_users, fetch_summaries;
    triple_auto ltac:(vars_side).
Qed.

Lemma raised_sendMessage conversationId content :
  keeps (fun w : Run Vars => DETECTED_MISSING_TABLES (vars w) = true)
        (sendMessage cfg conversationId content).
Proof.
  unfold sendMessage, sendMessage_mock. triple_auto ltac:(vars_side).
Qed.

Lemma raised_markMessagesAsRead conversationId :
  keeps (fun w : Run Vars => DETECTED_MISSING_TABLES (vars w) = true)
        (markMessagesAsRead cfg conversationId).
Proof.
  unfold markMessagesAsRead, markMessagesAsRead_mock.
  triple_auto ltac:(vars_side).
Qed.

Lemma raised_startConversation listingId sellerId initialMessage :
  keeps (fun w : Run Vars => DETECTED_MISSING_TABLES (vars w) = true)
        (startConversation cfg listingId sellerId initialMessage).
Proof.
  unfold startConversation, startConversation_mock.
  triple_auto ltac:(vars_side).
Qed.

(** X11.  No exported method of the messaging module lowers the flag
    [DETECTED_MISSING_TABLES]: raised before a call, it is raised after
    it, however the call settles. *)
Theorem the_messaging_flag_is_never_lowered (env : Env) (w : Run Vars)
        (conversationId content listingId sellerId initialMessage : string) :
  DETECTED_MISSING_TABLES (vars w) = true ->
  Forall (fun w' : Run Vars => DETECTED_MISSING_TABLES (vars w') = true)
    [ snd (getConversations cfg env w);
      snd (getMessages cfg conversationId env w);
      snd (sendMessage cfg conversationId content env w);
      snd (markMessagesAsRead cfg conversationId env w);
      snd (startConversation cfg listingId sellerId initialMessage env w);
      snd (getUnreadCount cfg env w) ].
Proof.
  intros Hw. repeat constructor.
  - apply (raised_getConversations 2 env w Hw).
  - apply (raised_getMessages 2 conversationId env w Hw).
  - apply (raised_sendMessage conversationId content env w Hw).
  - apply (raised_markMessagesAsRead conversationId env w Hw).
  - apply (raised_startConversation listingId sellerId initialMessage env w Hw).
  - apply (raised_getUnreadCount 2 env w Hw).
Qed.

End MessagingFlag.

Lemma the_messaging_flag_is_never_lowered_witness :
  Forall (fun w' : Run MessageService.Vars =>
            MessageService.DETECTED_MISSING_TABLES (vars w') = true)
    [ snd (MessageService.getConversations shipped (as_user "user-001")
             (Build_Run (MessageService.set_detected MessageService.initial)
                        [] 0));
      snd (MessageService.getMessages shipped "conv-001" (as_user "user-001")
             (Build_Run (MessageService.set_detected MessageService.initial)
                        [] 0));
      snd (MessageService.sendMessage shipped "conv-001" "Hello"
             (as_user "user-001")
             (Build_Run (MessageService.set_detected MessageService.initial)
                        [] 0));
      snd (MessageService.markMessagesAsRead shipped "conv-001"
             (as_user "user-001")
             (Build_Run (MessageService.set_detected MessageService.initial)
                        [] 0));
      snd (MessageService.startConversation shipped "book-003" "user-003"
             "Hello" (as_user "user-001")
             (Build_Run (MessageService.set_detected MessageService.initial)
                        [] 0));
      snd (MessageService.getUnreadCount shipped (as_user "user-001")
             (Build_Run (MessageService.set_detected MessageService.initial)
                        [] 0)) ].
Proof.
  apply (the_messaging_flag_is_never_lowered
           shipped (as_user "user-001")
           (Build_Run (MessageService.set_detected MessageService.initial) [] 0)
           "conv-001" "Hello" "book-003" "user-003" "Hello").
  reflexivity.
Defined.

Section ShippedStore.
Import MessageService.
Variable cfg : Config.
Hypothesis Hremote : message_USE_MOCK_DATA cfg = false.
Variables (convs : list Conversation) (msgs : list Message).

Lemma store_getMessages fuel conversationId :
  keeps (fun w : Run Vars =>
           mockConversations (vars w) = convs /\ mockMessages (vars w) = msgs)
        (getMessages_ cfg fuel conversationId).
Proof.
  induction fuel as [|fuel IH]; simpl; triple_auto ltac:(vars_side).
Qed.

Lemma store_getUnreadCount fuel :
  keeps (fun w : Run Vars =>
           mockConversations (vars w) = convs /\ mockMessages (vars w) = msgs)
        (getUnreadCount_ cfg fuel).
Proof.
  induction fuel as [|fuel IH]; simpl; triple_auto ltac:(vars_side).
Qed.

Lemma store_getConversations fuel :
  keeps (fun w : Run Vars =>
           mockConversations (vars w) = convs /\ mockMessages (vars w) = msgs)
        (getConversations_ cfg fuel).
Proof.
  induction fuel as [|fuel IH]; simpl;
    unfold unread_count_of, last_message_of, fetch_users, fetch_summaries;
    triple_auto ltac:(vars_side).
Qed.

Lemma store_sendMessage conversationId content :
  keeps (fun w : Run Vars =>
           mockConversations (vars w) = convs /\ mockMessages (vars w) = msgs)
        (sendMessage cfg conversationId content).
Proof.
  unfold sendMessage. rewrite Hremote. triple_auto ltac:(vars_side).
Qed.

Lemma store_markMessagesAsRead conversationId :
  keeps (fun w : Run Vars =>
           mockConversations (vars w) = convs /\ mockMessages (vars w) = msgs)
        (markMessagesAsRead cfg conversationId).
Proof.
  unfold markMessagesAsRead. rewrite Hremote. triple_auto ltac:(vars_side).
Qed.

Lemma store_startConversation listingId sellerId initialMessage :
  keeps (fun w : Run Vars =>
           mockConversations (vars w) = convs /\ mockMessages (vars w) = msgs)
        (startConversation cfg listingId sellerId initialMessage).
Proof.
  unfold startConversation. rewrite Hremote. triple_auto ltac:(vars_side).
Qed.

End ShippedStore.

(** X12.  With [USE_MOCK_DATA = false] no call of the messaging module
    ever writes the mock collections: in every state that calls of the
    exported methods lead to, they hold the two conversations and the six
    messages installed at load time, also after the flag has been raised
    and after messages have been sent. *)
Theorem the_shipped_store_is_never_written (cfg : Config)
        (w : Run MessageService.Vars) :
  message_USE_MOCK_DATA cfg = false ->
  reachable cfg w ->
  MessageService.mockConversations (vars w)
  = MessageService.mockConversations MessageService.initial
  /\ MessageService.mockMessages (vars w)
     = MessageService.mockMessages MessageService.initial.
Proof.
  intros Hremote.
  induction 1 as [|env w _ IH|env w cid _ IH|env w cid content _ IH
                  |env w cid _ IH|env w l s m _ IH|env w _ IH].
  - split; reflexivity.
  - apply (store_getConversations cfg _ _ 2 env w IH).
  - apply (store_getMessages cfg _ _ 2 cid env w IH).
  - apply (store_sendMessage cfg Hremote _ _ cid content env w IH).
  - apply (store_markMessagesAsRead cfg Hremote _ _ cid env w IH).
  - apply (store_startConversation cfg Hremote _ _ l s m env w IH).
  - apply (store_getUnreadCount cfg _ _ 2 env w IH).
Qed.

Lemma the_shipped_store_is_never_written_witness :
  MessageService.mockMessages
    (vars (snd (MessageService.sendMessage shipped "conv-001" "Hello"
                  (as_user "user-002")
                  (snd (MessageService.getMessages shipped "conv-001"
                          (as_user "user-002") loaded)))))
  = MessageService.mockMessages MessageService.initial.
Proof.
  apply (the_shipped_store_is_never_written shipped).
  - reflexivity.
  - apply reach_sendMessage, reach_getMessages, reach_loaded.
Defined.

(** *** The remote branches of the messaging module *)

Section MessagingRemote.
Import MessageService.

(** X13.  The remote branch of [getMessages] sends one query.  When the
    answer reports the missing relation, as a returned or as a thrown
    error, the call raises the flag and resolves with the fixture answer
    in the same call; any other error rejects the call as it is and
    leaves the flag down; without an error the rows are the result.  One
    re-entry is all the recursion takes. *)
Theorem getMessages_falls_back_within_the_call (cfg : Config) (fuel : nat)
        (env : Env) (w : Run Vars) (conversationId : string) :
  message_USE_MOCK_DATA cfg = false ->
  DETECTED_MISSING_TABLES (vars w) = false ->
  let q := {| table := "messages"; verb := v_select "*" false;
              filters := [f_eq "conversation_id" (VString conversationId)];
              order := Some ("created_at", true); limit := None;
              returning := false; single := false |} in
  getMessages_ cfg (S (S fuel)) conversationId env w
  = match remote env (q :: sent w) with
    | Returned {| data := d; error := None |} =>
        (Resolved (match d with d_messages l => l | _ => [] end),
         Build_Run (vars w) (q :: sent w) (ticks w))
    | Returned {| error := Some e |} | Threw e =>
        if isTableNotExistError e
        then (Resolved (getMessages_mock conversationId (vars w)),
              Build_Run (set_detected (vars w)) (q :: sent w) (ticks w))
        else (Rejected e, Build_Run (vars w) (q :: sent w) (ticks w))
    end.
Proof.
  intros Hremote Hflag q. cbn [getMessages_].
  unfold bind at 1, read at 1. rewrite Hremote, Hflag. cbn [orb].
  rewrite try_catch_bind. unfold call. fold q.
  destruct (remote env (q :: sent w)) as [[d c [e|]]|e]; simpl.
  - destruct (isTableNotExistError e) eqn:E.
    + unfold try_catch, bind, write, tail, ret, read. reflexivity.
    + unfold try_catch, throw. rewrite E. reflexivity.
  - reflexivity.
  - unfold try_catch, throw. destruct (isTableNotExistError e) eqn:E.
    + unfold bind, write, tail, ret, read. reflexivity.
    + reflexivity.
Qed.

Lemma getMessages_falls_back_within_the_call_witness :
  getMessages shipped "conv-001" (as_user "user-001") loaded
  = (Resolved (getMessages_mock "conv-001" initial),
     Build_Run (set_detected initial)
       [{| table := "messages"; verb := v_select "*" false;
           filters := [f_eq "conversation_id" (VString "conv-001")];
           order := Some ("created_at", true); limit := None;
           returning := false; single := false |}] 0).
Proof.
  exact (getMessages_falls_back_within_the_call
           shipped 0 (as_user "user-001") loaded "conv-001"
           eq_refl eq_refl).
Defined.

(** X14.  For a caller whom [getUserId] identifies, [getUnreadCount]
    never rejects and never stays pending, whatever the remote client
    answers: it resolves with a number after at most one request, and with
    [0] when the request fails with an error other than the missing
    relation.  It writes no mock collection. *)
Theorem getUnreadCount_always_resolves (cfg : Config) (fuel : nat)
        (env : Env) (w : Run Vars) (userId : string) :
  caller cfg env = Resolved userId ->
  exists n w',
    getUnreadCount_ cfg (S (S fuel)) env w = (Resolved n, w')
    /\ mockMessages (vars w') = mockMessages (vars w)
    /\ mockConversations (vars w') = mockConversations (vars w)
    /\ (length (sent w') <= S (length (sent w)))%nat
    /\ (forall q e,
          sent w' = q :: sent w ->
          (remote env (q :: sent w) = Threw e
           \/ exists r, remote env (q :: sent w) = Returned r
                        /\ error r = Some e) ->
          isTableNotExistError e = false -> n = 0).
Proof.
  intros Hcaller. remember (S fuel) as again eqn:Hfuel.
  cbn [getUnreadCount_]. unfold bind at 1.
  rewrite getUserId_caller, Hcaller, (caller_not_empty _ _ _ Hcaller).
  unfold bind at 1, read at 1.
  destruct (message_USE_MOCK_DATA cfg || DETECTED_MISSING_TABLES (vars w))
    eqn:Hmock.
  - do 2 eexists. split; [reflexivity|]. repeat split; [simpl; lia|].
    intros q e Hsent. exfalso. simpl in Hsent.
    apply (f_equal (@length Request)) in Hsent. simpl in Hsent. lia.
  - rewrite try_catch_bind. unfold call.
    match goal with
    | |- context [remote env (?q0 :: sent w)] => set (q := q0)
    end.
    assert (Hagain :
      forall w1, DETECTED_MISSING_TABLES (vars w1) = true ->
        getUnreadCount_ cfg again env w1
        = (Resolved (getUnreadCount_mock userId (vars w1)), w1)).
    { intros w1 H1. subst again. cbn [getUnreadCount_]. unfold bind at 1.
      rewrite getUserId_caller, Hcaller, (caller_not_empty _ _ _ Hcaller).
      unfold bind at 1, read at 1. rewrite H1, orb_true_r. reflexivity. }
    destruct (remote env (q :: sent w)) as [[d c [e|]]|e] eqn:Hreply; simpl.
    + destruct (isTableNotExistError e) eqn:E.
      * unfold try_catch, bind, write, tail, ret. simpl.
        rewrite Hagain by reflexivity.
        do 2 eexists. split; [reflexivity|]. repeat split; [simpl; lia|].
        simpl. intros q' e' [= <-] [H|[r [H Hr]]]; [congruence|].
        rewrite Hreply in H. injection H as <-. simpl in Hr. congruence.
      * unfold try_catch, throw. rewrite E. unfold done, ret.
        do 2 eexists. split; [reflexivity|]. repeat split; simpl; lia.
    + unfold try_catch, done, ret.
      do 2 eexists. split; [reflexivity|]. repeat split; [simpl; lia|].
      simpl. intros q' e' [= <-] [H|[r [H Hr]]]; [congruence|].
      rewrite Hreply in H. injection H as <-. simpl in Hr. discriminate.
    + unfold try_catch, throw. destruct (isTableNotExistError e) eqn:E.
      * unfold bind, write, tail, ret. simpl.
        rewrite Hagain by reflexivity.
        do 2 eexists. split; [reflexivity|]. repeat split; [simpl; lia|].
        simpl. intros q' e' [= <-] [H|[r [H Hr]]]; congruence.
      * unfold done, ret.
        do 2 eexists. split; [reflexivity|]. repeat split; simpl; lia.
Qed.

Lemma getUnreadCount_always_resolves_witness :
  exists n w',
    getUnreadCount shipped (as_user "user-001") loaded = (Resolved n, w').
Proof.
  destruct (getUnreadCount_always_resolves
              shipped 0 (as_user "user-001") loaded "user-001" eq_refl)
    as [n [w' [H _]]].
  exists n, w'. exact H.
Defined.

End MessagingRemote.

Section SendRemote.
Import MessageService.

(** X15.  The remote branch of [sendMessage] first looks the conversation
    up.  When that fails nothing else is sent and the call rejects with
    the error of the lookup, also when it is the missing relation: there
    is no fallback here.  Otherwise the row is inserted for the other
    participant with the first clock reading, [last_message_at] is set to
    a second clock reading, and the call resolves with the inserted row
    whatever the update returns. *)
Theorem sendMessage_remote_sends_lookup_insert_update (cfg : Config)
        (env : Env) (w : Run Vars) (userId conversationId content : string) :
  message_USE_MOCK_DATA cfg = false ->
  caller cfg env = Resolved userId ->
  let lookup := {| table := "conversations"; verb := v_select "*" false;
                   filters := [f_eq "id" (VString conversationId)];
                   order := None; limit := None; returning := false;
                   single := true |} in
  (forall e,
     (remote env (lookup :: sent w) = Threw e
      \/ exists c, remote env (lookup :: sent w) = Returned c
                   /\ error c = Some e) ->
     sendMessage cfg conversationId content env w
     = (Rejected e, Build_Run (vars w) (lookup :: sent w) (ticks w)))
  /\ (forall c conversation r u,
        remote env (lookup :: sent w) = Returned c ->
        error c = None ->
        data c = d_conversation conversation ->
        let insert :=
          {| table := "messages";
             verb := v_insert
               (message_row conversationId userId
                            (other_party userId conversation) content
                            (clock env (ticks w)));
             filters := []; order := None; limit := None;
             returning := true; single := true |} in
        let update := touch_remote conversationId (clock env (S (ticks w))) in
        remote env (insert :: lookup :: sent w) = Returned r ->
        error r = None ->
        remote env (update :: insert :: lookup :: sent w) = Returned u ->
        sendMessage cfg conversationId content env w
        = (Resolved (the_message (data r)),
           Build_Run (vars w) (update :: insert :: lookup :: sent w)
                     (S (S (ticks w))))).
Proof.
  intros Hremote Hcaller lookup.
  split;
    [intros e He
    |intros c conversation r u H Herr Hdata insert update Hinsert Hr Hupdate;
     subst update insert];
    unfold sendMessage, bind at 1;
    rewrite getUserId_caller, Hcaller, (caller_not_empty _ _ _ Hcaller), Hremote;
    rewrite try_catch_bind; unfold call at 1; fold lookup.
  - destruct He as [H | [c [H Herr]]]; rewrite H; simpl.
    + reflexivity.
    + rewrite Herr. reflexivity.
  - rewrite H. simpl. rewrite Herr, Hdata. simpl.
    unfold try_catch, bind, now, call. simpl.
    fold (other_party userId conversation). fold lookup.
    rewrite Hinsert. simpl. rewrite Hr. simpl.
    fold lookup. unfold touch_remote in Hupdate |- *. rewrite Hupdate.
    reflexivity.
Qed.

Lemma sendMessage_remote_sends_lookup_insert_update_witness :
  sendMessage shipped "conv-001" "Hello" (as_user "user-002") loaded
  = (Rejected relation_missing,
     Build_Run initial
       [{| table := "conversations"; verb := v_select "*" false;
           filters := [f_eq "id" (VString "conv-001")];
           order := None; limit := None; returning := false;
           single := true |}] 0).
Proof.
  apply (proj1 (sendMessage_remote_sends_lookup_insert_update
                  shipped (as_user "user-002") loaded "user-002" "conv-001"
                  "Hello" eq_refl eq_refl)).
  right. eexists. split; reflexivity.
Defined.

End SendRemote.

(** *** The saved items *)

Section SavedMembership.
Import SavedItemsService.

Lemma includes_filter_other (b other : string) (ids : list string) :
  Js.includes b (List.filter (fun id => negb (String.eqb id other)) ids)
  = Js.includes b ids && negb (String.eqb b other).
Proof.
  apply eq_true_iff_eq.
  rewrite andb_true_iff, negb_true_iff, String.eqb_neq, !includes_elem_of,
    elem_of_filter_other.
  reflexivity.
Qed.

Lemma includes_snoc (b other : string) (ids : list string) :
  Js.includes b (ids ++ [other]) = Js.includes b ids || String.eqb b other.
Proof.
  unfold Js.includes. rewrite existsb_app. simpl. now rewrite orb_false_r.
Qed.

Lemma entry_add_to record userId bookId u :
  entry (add_to record userId bookId) u
  = if decide (u = userId)
    then if Js.includes bookId (entry record userId)
         then entry record userId
         else (entry record userId ++ [bookId])%list
    else entry record u.
Proof.
  unfold add_to. rewrite entry_insert.
  destruct (decide (u = userId)) as [->|Hne];
    destruct (Js.includes bookId (entry record userId)); simpl;
    rewrite ?entry_insert, ?entry_insert_ne by congruence; reflexivity.
Qed.

Lemma entry_remove_from record userId bookId u :
  entry (remove_from record userId bookId) u
  = if decide (u = userId)
    then List.filter (fun id => negb (String.eqb id bookId))
                     (entry record userId)
    else entry record u.
Proof.
  unfold remove_from.
  destruct (decide (u = userId)) as [->|Hne];
    rewrite ?entry_insert, ?entry_insert_ne by congruence; reflexivity.
Qed.

Lemma includes_add_to record userId bookId u b :
  Js.includes b (entry (add_to record userId bookId) u)
  = Js.includes b (entry record u)
    || (String.eqb u userId && String.eqb b bookId).
Proof.
  rewrite entry_add_to.
  destruct (decide (u = userId)) as [->|Hne].
  - rewrite String.eqb_refl. simpl.
    destruct (Js.includes bookId (entry record userId)) eqn:E.
    + destruct (String.eqb_spec b bookId) as [->|_];
        [now rewrite E | now rewrite orb_false_r].
    + apply includes_snoc.
  - apply String.eqb_neq in Hne. rewrite Hne. simpl. now rewrite orb_false_r.
Qed.

Lemma includes_remove_from record userId bookId u b :
  Js.includes b (entry (remove_from record userId bookId) u)
  = Js.includes b (entry record u)
    && negb (String.eqb u userId && String.eqb b bookId).
Proof.
  rewrite entry_remove_from.
  destruct (decide (u = userId)) as [->|Hne].
  - rewrite String.eqb_refl. simpl. apply includes_filter_other.
  - apply String.eqb_neq in Hne. rewrite Hne. simpl. now rewrite andb_true_r.
Qed.

Lemma is_saved_add_mock userId bookId type u b t v :
  is_saved_mock u b t (add_mock userId bookId type v)
  = if bool_decide (u = userId /\ b = bookId /\ t = type) then true
    else is_saved_mock u b t v.
Proof.
  unfold is_saved_mock, savedIds, add_mock.
  destruct type, t; simpl; rewrite ?includes_add_to;
    destruct (String.eqb_spec u userId), (String.eqb_spec b bookId); simpl;
    rewrite ?orb_true_r, ?orb_false_r;
    case_bool_decide; first [reflexivity | count_absurd].
Qed.

Lemma is_saved_remove_mock userId bookId type u b t v :
  is_saved_mock u b t (remove_mock userId bookId type v)
  = if bool_decide (u = userId /\ b = bookId /\ t = type) then false
    else is_saved_mock u b t v.
Proof.
  unfold is_saved_mock, savedIds, remove_mock.
  destruct type, t; simpl; rewrite ?includes_remove_from;
    destruct (String.eqb_spec u userId), (String.eqb_spec b bookId); simpl;
    rewrite ?andb_true_r, ?andb_false_r;
    case_bool_decide; first [reflexivity | count_absurd].
Qed.

Lemma flag_add_mock userId bookId type v :
  DETECTED_MISSING_TABLE (add_mock userId bookId type v)
  = DETECTED_MISSING_TABLE v.
Proof. now destruct type. Qed.

Lemma flag_remove_mock userId bookId type v :
  DETECTED_MISSING_TABLE (remove_mock userId bookId type v)
  = DETECTED_MISSING_TABLE v.
Proof. now destruct type. Qed.

Lemma toggleSavedItem_mock_branch cfg env (w : Run Vars) userId bookId type :
  saved_USE_MOCK_DATA cfg || DETECTED_MISSING_TABLE (vars w) = true ->
  caller cfg env = Resolved userId ->
  toggleSavedItem cfg bookId type env w
  = (Resolved (negb (is_saved_mock userId bookId type (vars w))),
     Build_Run
       (if is_saved_mock userId bookId type (vars w)
        then remove_mock userId bookId type (vars w)
        else add_mock userId bookId type (vars w))
       (sent w) (ticks w)).
Proof.
  intros Hmock Hcaller. unfold toggleSavedItem, bind at 1.
  rewrite (isSavedItem_mock_branch _ _ _ _ _ _ Hmock Hcaller).
  destruct (is_saved_mock userId bookId type (vars w)); unfold bind.
  - now rewrite (removeSavedItem_mock_branch _ _ _ _ _ _ Hmock Hcaller).
  - now rewrite (addSavedItem_mock_branch _ _ _ _ _ _ Hmock Hcaller).
Qed.

(** X16.  On the fixture path [addSavedItem] makes the book a saved item
    of the caller for the type and [removeSavedItem] makes it none, as
    [isSavedItem] then reports; neither changes the membership of another
    book, another type or another user. *)
Theorem saving_changes_one_membership (cfg : Config) (env : Env)
        (w : Run Vars) (userId bookId : string) (type : SavedItemType) :
  saved_USE_MOCK_DATA cfg || DETECTED_MISSING_TABLE (vars w) = true ->
  caller cfg env = Resolved userId ->
  exists added removed,
    addSavedItem cfg bookId type env w = (Resolved tt, added)
    /\ removeSavedItem cfg bookId type env w = (Resolved tt, removed)
    /\ isSavedItem cfg bookId type env added = (Resolved true, added)
    /\ isSavedItem cfg bookId type env removed = (Resolved false, removed)
    /\ forall u b t,
         (u, b, t) <> (userId, bookId, type) ->
         is_saved_mock u b t (vars added) = is_saved_mock u b t (vars w)
         /\ is_saved_mock u b t (vars removed) = is_saved_mock u b t (vars w).
Proof.
  intros Hmock Hcaller. do 2 eexists.
  split; [exact (addSavedItem_mock_branch _ _ _ _ _ _ Hmock Hcaller)|].
  split; [exact (removeSavedItem_mock_branch _ _ _ _ _ _ Hmock Hcaller)|].
  split; [|split].
  - rewrite (isSavedItem_mock_branch _ _ _ userId)
      by (simpl; rewrite ?flag_add_mock; assumption).
    simpl. rewrite is_saved_add_mock.
    now rewrite bool_decide_eq_true_2.
  - rewrite (isSavedItem_mock_branch _ _ _ userId)
      by (simpl; rewrite ?flag_remove_mock; assumption).
    simpl. rewrite is_saved_remove_mock.
    now rewrite bool_decide_eq_true_2.
  - intros u b t Hne. simpl.
    rewrite is_saved_add_mock, is_saved_remove_mock.
    rewrite bool_decide_eq_false_2; [split; reflexivity|].
    intros [-> [-> ->]]. now apply Hne.
Qed.

Lemma saving_changes_one_membership_witness :
  exists added removed,
    addSavedItem mock_mode "book-001" FAVORITE (as_user "user-001")
                 (Build_Run initial [] 0)
    = (Resolved tt, added)
    /\ removeSavedItem mock_mode "book-001" FAVORITE (as_user "user-001")
                       (Build_Run initial [] 0)
       = (Resolved tt, removed)
    /\ isSavedItem mock_mode "book-001" FAVORITE (as_user "user-001") added
       = (Resolved true, added).
Proof.
  destruct (saving_changes_one_membership
              mock_mode (as_user "user-001") (Build_Run initial [] 0)
              "user-001" "book-001" FAVORITE eq_refl eq_refl)
    as [added [removed [H1 [H2 [H3 _]]]]].
  exists added, removed. repeat split; assumption.
Defined.

(** X17.  On the fixture path [toggleSavedItem] resolves with the new
    membership, which is the opposite of the one it found, and changes no
    other membership; a second toggle resolves with the first membership
    and restores every membership. *)
Theorem toggleSavedItem_flips_the_membership (cfg : Config) (env : Env)
        (w : Run Vars) (userId bookId : string) (type : SavedItemType) :
  saved_USE_MOCK_DATA cfg || DETECTED_MISSING_TABLE (vars w) = true ->
  caller cfg env = Resolved userId ->
  exists once twice,
    toggleSavedItem cfg bookId type env w
    = (Resolved (negb (is_saved_mock userId bookId type (vars w))), once)
    /\ is_saved_mock userId bookId type (vars once)
       = negb (is_saved_mock userId bookId type (vars w))
    /\ (forall u b t,
          (u, b, t) <> (userId, bookId, type) ->
          is_saved_mock u b t (vars once) = is_saved_mock u b t (vars w))
    /\ toggleSavedItem cfg bookId type env once
       = (Resolved (is_saved_mock userId bookId type (vars w)), twice)
    /\ forall u b t,
         is_saved_mock u b t (vars twice) = is_saved_mock u b t (vars w).
Proof.
  intros Hmock Hcaller.
  assert (Hflip : forall v,
            is_saved_mock userId bookId type
              (if is_saved_mock userId bookId type v
               then remove_mock userId bookId type v
               else add_mock userId bookId type v)
            = negb (is_saved_mock userId bookId type v)).
  { intros v. destruct (is_saved_mock userId bookId type v).
    - rewrite is_saved_remove_mock. now rewrite bool_decide_eq_true_2.
    - rewrite is_saved_add_mock. now rewrite bool_decide_eq_true_2. }
  assert (Hframe : forall v u b t,
            (u, b, t) <> (userId, bookId, type) ->
            is_saved_mock u b t
              (if is_saved_mock userId bookId type v
               then remove_mock userId bookId type v
               else add_mock userId bookId type v)
            = is_saved_mock u b t v).
  { intros v u b t Hne.
    assert (Hd : bool_decide (u = userId /\ b = bookId /\ t = type) = false).
    { apply bool_decide_eq_false_2. intros [-> [-> ->]]. now apply Hne. }
    destruct (is_saved_mock userId bookId type v).
    - now rewrite is_saved_remove_mock, Hd.
    - now rewrite is_saved_add_mock, Hd. }
  do 2 eexists.
  split; [exact (toggleSavedItem_mock_branch _ _ _ _ _ _ Hmock Hcaller)|].
  split; [apply Hflip|]. split; [intros u b t; apply Hframe|].
  set (once := Build_Run _ (sent w) (ticks w)).
  assert (Honce : saved_USE_MOCK_DATA cfg
                  || DETECTED_MISSING_TABLE (vars once) = true).
  { unfold once. simpl.
    destruct (is_saved_mock userId bookId type (vars w));
      rewrite ?flag_remove_mock, ?flag_add_mock; exact Hmock. }
  split.
  - rewrite (toggleSavedItem_mock_branch _ _ _ _ _ _ Honce Hcaller).
    unfold once at 1 2. simpl. rewrite Hflip, negb_involutive. reflexivity.
  - intros u b t. simpl.
    destruct (is_saved_mock userId bookId type (vars w)) eqn:Es; simpl;
      repeat (rewrite is_saved_add_mock || rewrite is_saved_remove_mock);
      case_bool_decide as Hd; try reflexivity;
      destruct Hd as [-> [-> ->]]; now rewrite Es.
Qed.

Lemma toggleSavedItem_flips_the_membership_witness :
  exists once,
    toggleSavedItem mock_mode "book-001" WISHLIST (as_user "user-001")
                    (Build_Run initial [] 0)
    = (Resolved true, once).
Proof.
  destruct (toggleSavedItem_flips_the_membership
              mock_mode (as_user "user-001") (Build_Run initial [] 0)
              "user-001" "book-001" WISHLIST eq_refl eq_refl)
    as [once [_ [H _]]].
  exists once. exact H.
Defined.

End SavedMembership.

Section SavedInvariant.
Import SavedItemsService.

Lemma no_duplicates_initial : no_duplicates initial.
Proof. intros u [|]; apply NoDup_nil_2. Qed.

Lemma no_duplicates_add_mock userId bookId type v :
  no_duplicates v -> no_duplicates (add_mock userId bookId type v).
Proof.
  intros Hv u t. pose proof (Hv u t) as Hu. pose proof (Hv userId t) as Hown.
  unfold savedIds, add_mock in *.
  destruct type, t; simpl in *; try exact Hu;
    rewrite entry_add_to;
    (destruct (decide (u = userId)); [|exact Hu]);
    (destruct (Js.includes bookId _) eqn:E; [exact Hown|]);
    (apply NoDup_app; split; [exact Hown|]; split; [|apply NoDup_singleton]);
    intros x Hx Hx'; apply list_elem_of_singleton in Hx' as ->;
    apply includes_elem_of in Hx; congruence.
Qed.

Lemma no_duplicates_remove_mock userId bookId type v :
  no_duplicates v -> no_duplicates (remove_mock userId bookId type v).
Proof.
  intros Hv u t. pose proof (Hv u t) as Hu. pose proof (Hv userId t) as Hown.
  unfold savedIds, remove_mock in *.
  destruct type, t; simpl in *; try exact Hu;
    rewrite entry_remove_from;
    (destruct (decide (u = userId)); [|exact Hu]);
    now apply NoDup_filter_other.
Qed.

Lemma keeps_getSavedItems_mock (P : Run Vars -> Prop) cfg userId type :
  (forall w q, P w -> P (Build_Run (vars w) (q :: sent w) (ticks w))) ->
  keeps P (getSavedItems_mock cfg userId type).
Proof.
  intros Hsent env w Hw. split; [|trivial].
  unfold getSavedItems_mock, BookService.getListings.
  destruct (book_USE_MOCK_DATA cfg); [exact Hw|].
  rewrite fetch_run.
  destruct (remote env _) as [[d c [e|]]|e]; simpl; apply Hsent, Hw.
Qed.

Ltac saved_side :=
  idtac;
  first
    [ assumption
    | apply keeps_getSavedItems_mock; intros; assumption
    | intros; simpl;
      first [ assumption
            | apply no_duplicates_add_mock; assumption
            | apply no_duplicates_remove_mock; assumption ] ].

Lemma unique_addSavedItem cfg fuel bookId type :
  keeps (fun w : Run Vars => no_duplicates (vars w))
        (addSavedItem_ cfg fuel bookId type).
Proof.
  induction fuel as [|fuel IH]; simpl; unfold fixture;
    triple_auto ltac:(saved_side).
Qed.

Lemma unique_removeSavedItem cfg fuel bookId type :
  keeps (fun w : Run Vars => no_duplicates (vars w))
        (removeSavedItem_ cfg fuel bookId type).
Proof.
  induction fuel as [|fuel IH]; simpl; unfold fixture;
    triple_auto ltac:(saved_side).
Qed.

Lemma unique_isSavedItem cfg fuel bookId type :
  keeps (fun w : Run Vars => no_duplicates (vars w))
        (isSavedItem_ cfg fuel bookId type).
Proof.
  induction fuel as [|fuel IH]; simpl; unfold fixture;
    triple_auto ltac:(saved_side).
Qed.

Lemma unique_getSavedItems cfg fuel type :
  keeps (fun w : Run Vars => no_duplicates (vars w))
        (getSavedItems_ cfg fuel type).
Proof.
  induction fuel as [|fuel IH]; simpl; unfold fixture;
    triple_auto ltac:(saved_side).
Qed.

Lemma unique_toggleSavedItem cfg bookId type :
  keeps (fun w : Run Vars => no_duplicates (vars w))
        (toggleSavedItem cfg bookId type).
Proof.
  unfold toggleSavedItem.
  apply triple_bind with (R := fun _ => True);
    [apply unique_isSavedItem|].
  intros [|] _.
  - apply triple_bind with (R := fun _ => True);
      [apply unique_removeSavedItem|].
    intros _ _. now apply triple_ret.
  - apply triple_bind with (R := fun _ => True);
      [apply unique_addSavedItem|].
    intros _ _. now apply triple_ret.
Qed.

(** X18.  In every state that calls of the exported methods of the
    saved-items module lead to, with any answers of the remote client and
    either value of [USE_MOCK_DATA], no book id occurs twice in the
    favorites or in the wishlist of a user. *)
Theorem saved_ids_are_never_repeated (cfg : Config) (w : Run Vars) :
  saved_reachable cfg w -> no_duplicates (vars w).
Proof.
  induction 1 as [|env w b t _ IH|env w b t _ IH|env w b t _ IH
                  |env w b t _ IH|env w t _ IH].
  - exact no_duplicates_initial.
  - apply (unique_addSavedItem cfg 2 b t env w IH).
  - apply (unique_removeSavedItem cfg 2 b t env w IH).
  - apply (unique_isSavedItem cfg 2 b t env w IH).
  - apply (unique_toggleSavedItem cfg b t env w IH).
  - apply (unique_getSavedItems cfg 2 t env w IH).
Qed.

Lemma saved_ids_are_never_repeated_witness :
  no_duplicates
    (vars (snd (addSavedItem mock_mode "book-001" FAVORITE (as_user "user-001")
                  (snd (addSavedItem mock_mode "book-001" FAVORITE
                          (as_user "user-001") (Build_Run initial [] 0)))))).
Proof.
  apply (saved_ids_are_never_repeated mock_mode).
  apply saved_add, saved_add, saved_loaded.
Defined.

End SavedInvariant.

Section SavedListings.
Import SavedItemsService.

Lemma getSavedItems_mock_branch cfg env (w : Run Vars) userId type :
  saved_USE_MOCK_DATA cfg || DETECTED_MISSING_TABLE (vars w) = true ->
  caller cfg env = Resolved userId ->
  getSavedItems cfg type env w = getSavedItems_mock cfg userId type env w.
Proof.
  intros Hmock Hcaller. unfold getSavedItems, getSavedItems_, bind at 1.
  rewrite getUserId_caller, Hcaller, (caller_not_empty _ _ _ Hcaller).
  unfold fixture, bind, read, ret. rewrite Hmock. reflexivity.
Qed.

Lemma sublist_List_filter {A} (p : A -> bool) (l : list A) :
  sublist (List.filter p l) l.
Proof.
  induction l as [|x r IH]; simpl; [constructor|].
  destruct (p x); now constructor.
Qed.

(** X19.  On the fixture path, with the mock catalogue, [getSavedItems]
    resolves with the catalogue listings whose id the caller has saved
    for the type, in the order of the catalogue; a saved id that no
    listing carries is left out.  [getFavorites] and [getWishlist] are
    the two instances.  After [addSavedItem] the listing of the book is
    in the result. *)
Theorem getSavedItems_gives_the_saved_catalogue_entries (cfg : Config)
        (env : Env) (w : Run Vars) (userId : string) (type : SavedItemType) :
  saved_USE_MOCK_DATA cfg || DETECTED_MISSING_TABLE (vars w) = true ->
  book_USE_MOCK_DATA cfg = true ->
  caller cfg env = Resolved userId ->
  exists saved,
    getSavedItems cfg type env w = (Resolved saved, w)
    /\ (forall listing,
          listing ∈ saved
          <-> listing ∈ mockListings
              /\ is_saved_mock userId (l_id listing) type (vars w) = true)
    /\ sublist saved mockListings
    /\ getFavorites cfg = getSavedItems cfg FAVORITE
    /\ getWishlist cfg = getSavedItems cfg WISHLIST
    /\ forall listing,
         listing ∈ mockListings ->
         exists later,
           getSavedItems cfg type env
             (snd (addSavedItem cfg (l_id listing) type env w))
           = (Resolved later, snd (addSavedItem cfg (l_id listing) type env w))
           /\ listing ∈ later.
Proof.
  intros Hmock Hbook Hcaller.
  assert (Hrun : forall w0 : Run Vars,
            saved_USE_MOCK_DATA cfg || DETECTED_MISSING_TABLE (vars w0) = true ->
            getSavedItems cfg type env w0
            = (Resolved (List.filter
                           (fun book => Js.includes (l_id book)
                                          (savedIds userId type (vars w0)))
                           mockListings), w0)).
  { intros w0 H0. rewrite (getSavedItems_mock_branch _ _ _ _ _ H0 Hcaller).
    unfold getSavedItems_mock, BookService.getListings. now rewrite Hbook. }
  eexists. split; [exact (Hrun w Hmock)|].
  split; [|split; [|split; [|split]]].
  - intros listing. rewrite elem_of_List_filter. reflexivity.
  - apply sublist_List_filter.
  - reflexivity.
  - reflexivity.
  - intros listing Hin.
    rewrite (addSavedItem_mock_branch _ _ _ _ _ _ Hmock Hcaller). simpl.
    eexists. split.
    + apply Hrun. simpl. now rewrite flag_add_mock.
    + apply elem_of_List_filter. split; [exact Hin|]. simpl.
      change (is_saved_mock userId (l_id listing) type
                (add_mock userId (l_id listing) type (vars w)) = true).
      rewrite is_saved_add_mock. now rewrite bool_decide_eq_true_2.
Qed.

Lemma getSavedItems_gives_the_saved_catalogue_entries_witness :
  exists saved,
    getSavedItems mock_mode FAVORITE (as_user "user-001")
                  (Build_Run initial [] 0)
    = (Resolved saved, Build_Run initial [] 0)
    /\ sublist saved mockListings.
Proof.
  destruct (getSavedItems_gives_the_saved_catalogue_entries
              mock_mode (as_user "user-001") (Build_Run initial [] 0)
              "user-001" FAVORITE eq_refl eq_refl eq_refl)
    as [saved [H1 [_ [H2 _]]]].
  exists saved. split; assumption.
Defined.

(** X20.  On the fixture path with [USE_MOCK_DATA = false] in the book
    service, [getSavedItems] awaits [getListings] inside a timer callback:
    when the listing query fails, the promise is neither resolved nor
    rejected.  The favorites tab of the home screen awaits that
    promise. *)
Theorem getSavedItems_stays_pending_when_the_listings_fail (cfg : Config)
        (env : Env) (w : Run Vars) (userId : string) (type : SavedItemType)
        (e : JsError) (filters : BookFilterOptions) :
  saved_USE_MOCK_DATA cfg || DETECTED_MISSING_TABLE (vars w) = true ->
  book_USE_MOCK_DATA cfg = false ->
  caller cfg env = Resolved userId ->
  (remote env (BookService.listings_query [] :: sent w) = Threw e
   \/ exists r, remote env (BookService.listings_query [] :: sent w)
                = Returned r /\ error r = Some e) ->
  getSavedItems cfg type env w
  = (Pending,
     Build_Run (vars w) (BookService.listings_query [] :: sent w) (ticks w))
  /\ HomeScreen.fetchListings_data cfg HomeScreen.favorites filters env w
     = (Pending,
        Build_Run (vars w) (BookService.listings_query [] :: sent w)
                  (ticks w)).
Proof.
  intros Hmock Hbook Hcaller Hfail.
  assert (Hrun : forall t, getSavedItems cfg t env w
            = (Pending,
               Build_Run (vars w) (BookService.listings_query [] :: sent w)
                         (ticks w))).
  { intros t. rewrite (getSavedItems_mock_branch _ _ _ _ _ Hmock Hcaller).
    unfold getSavedItems_mock, BookService.getListings. rewrite Hbook.
    rewrite fetch_run.
    destruct Hfail as [H | [r [H Hr]]]; rewrite H; [reflexivity|].
    now rewrite Hr. }
  split; [apply Hrun|]. apply (Hrun FAVORITE).
Qed.

Lemma getSavedItems_stays_pending_when_the_listings_fail_witness :
  getSavedItems shipped FAVORITE (as_user "user-001")
                (Build_Run (set_detected initial) [] 0)
  = (Pending,
     Build_Run (set_detected initial) [BookService.listings_query []] 0).
Proof.
  apply (getSavedItems_stays_pending_when_the_listings_fail
           shipped (as_user "user-001") (Build_Run (set_detected initial) [] 0)
           "user-001" FAVORITE relation_missing no_filters
           eq_refl eq_refl eq_refl).
  right. eexists. split; reflexivity.
Defined.

(** X21.  The remote branch of [addSavedItem] sends one upsert.  When
    the answer reports the missing relation, the same call raises the
    flag and saves the item in the mock collection, so that [isSavedItem]
    then answers [true] without a request.  One re-entry is all the
    recursion takes. *)
Theorem addSavedItem_falls_back_within_the_call (cfg : Config) (fuel : nat)
        (env : Env) (w : Run Vars) (userId bookId : string)
        (type : SavedItemType) :
  saved_USE_MOCK_DATA cfg = false ->
  DETECTED_MISSING_TABLE (vars w) = false ->
  caller cfg env = Resolved userId ->
  let q := {| table := "saved_items";
              verb := v_upsert
                [("user_id", VString userId); ("book_id", VString bookId);
                 ("type", VString (SavedItemType_text type));
                 ("created_at", VString (clock env (ticks w)))];
              filters := []; order := None; limit := None;
              returning := false; single := false |} in
  reports_missing (remote env (q :: sent w)) = true ->
  let w' := Build_Run (add_mock userId bookId type (set_detected (vars w)))
                      (q :: sent w) (S (ticks w)) in
  addSavedItem_ cfg (S (S fuel)) bookId type env w = (Resolved tt, w')
  /\ isSavedItem cfg bookId type env w' = (Resolved true, w').
Proof.
  intros Hremote Hflag Hcaller q Hmissing w'.
  assert (Hagain :
    forall w1, DETECTED_MISSING_TABLE (vars w1) = true ->
      addSavedItem_ cfg (S fuel) bookId type env w1
      = (Resolved tt,
         Build_Run (add_mock userId bookId type (vars w1)) (sent w1)
                   (ticks w1))).
  { intros w1 H1. cbn [addSavedItem_]. unfold bind at 1.
    rewrite getUserId_caller, Hcaller, (caller_not_empty _ _ _ Hcaller).
    unfold fixture, bind, read, ret. rewrite H1, orb_true_r. reflexivity. }
  split.
  - remember (S fuel) as again eqn:Hfuel. cbn [addSavedItem_].
    unfold bind at 1.
    rewrite getUserId_caller, Hcaller, (caller_not_empty _ _ _ Hcaller).
    unfold fixture. unfold bind at 1, bind at 1, read at 1, ret at 1.
    rewrite Hremote, Hflag. cbn [orb].
    rewrite try_catch_bind. unfold now at 1.
    rewrite try_catch_bind. unfold call at 1. cbn [sent vars ticks].
    fold q. unfold reports_missing in Hmissing.
    destruct (remote env (q :: sent w)) as [[d c [e|]]|e];
      try discriminate; simpl in Hmissing.
    + simpl. rewrite Hmissing.
      unfold try_catch, bind, write, tail, ret. simpl.
      now rewrite Hagain.
    + unfold try_catch, throw. rewrite Hmissing.
      unfold bind, write, tail, ret. simpl.
      now rewrite Hagain.
  - rewrite (isSavedItem_mock_branch _ _ _ userId);
      [| unfold w'; simpl; rewrite flag_add_mock; apply orb_true_r
       | exact Hcaller].
    unfold w'. simpl. rewrite is_saved_add_mock.
    now rewrite bool_decide_eq_true_2.
Qed.

Lemma addSavedItem_falls_back_within_the_call_witness :
  addSavedItem shipped "book-001" FAVORITE (as_user "user-001")
               (Build_Run initial [] 0)
  = (Resolved tt,
     Build_Run
       (add_mock "user-001" "book-001" FAVORITE (set_detected initial))
       [{| table := "saved_items";
           verb := v_upsert
             [("user_id", VString "user-001"); ("book_id", VString "book-001");
              ("type", VString (SavedItemType_text FAVORITE));
              ("created_at", VString (fixed_clock 0))];
           filters := []; order := None; limit := None;
           returning := false; single := false |}] 1).
Proof.
  apply (addSavedItem_falls_back_within_the_call
           shipped 0 (as_user "user-001") (Build_Run initial [] 0)
           "user-001" "book-001" FAVORITE eq_refl eq_refl eq_refl eq_refl).
Defined.

(** X22.  For a caller whom [getUserId] identifies, [isSavedItem] never
    rejects and never stays pending, whatever the remote client answers:
    it resolves after at most one request and writes no mock collection;
    when the request fails with an error that is neither [PGRST116] nor
    the missing relation, it resolves with [false]. *)
Theorem isSavedItem_always_resolves (cfg : Config) (fuel : nat) (env : Env)
        (w : Run Vars) (userId bookId : string) (type : SavedItemType) :
  caller cfg env = Resolved userId ->
  exists b w',
    isSavedItem_ cfg (S (S fuel)) bookId type env w = (Resolved b, w')
    /\ mockFavorites (vars w') = mockFavorites (vars w)
    /\ mockWishlist (vars w') = mockWishlist (vars w)
    /\ (length (sent w') <= S (length (sent w)))%nat
    /\ (forall q e,
          sent w' = q :: sent w ->
          (remote env (q :: sent w) = Threw e
           \/ exists r, remote env (q :: sent w) = Returned r
                        /\ error r = Some e) ->
          isTableNotExistError e = false ->
          error_code e <> Some "PGRST116" ->
          b = false).
Proof.
  intros Hcaller. remember (S fuel) as again eqn:Hfuel.
  cbn [isSavedItem_]. unfold bind at 1.
  rewrite getUserId_caller, Hcaller, (caller_not_empty _ _ _ Hcaller).
  unfold fixture. unfold bind at 1, bind at 1, read at 1, ret at 1.
  destruct (saved_USE_MOCK_DATA cfg || DETECTED_MISSING_TABLE (vars w))
    eqn:Hmock.
  - do 2 eexists. split; [reflexivity|]. repeat split; [simpl; lia|].
    intros q e Hsent. exfalso. simpl in Hsent.
    apply (f_equal (@length Request)) in Hsent. simpl in Hsent. lia.
  - rewrite try_catch_bind. unfold call.
    match goal with
    | |- context [remote env (?q0 :: sent w)] => set (q := q0)
    end.
    assert (Hagain :
      forall w1, DETECTED_MISSING_TABLE (vars w1) = true ->
        isSavedItem_ cfg again bookId type env w1
        = (Resolved (is_saved_mock userId bookId type (vars w1)), w1)).
    { intros w1 H1. subst again. cbn [isSavedItem_]. unfold bind at 1.
      rewrite getUserId_caller, Hcaller, (caller_not_empty _ _ _ Hcaller).
      unfold fixture, bind, read, ret. rewrite H1, orb_true_r. reflexivity. }
    destruct (remote env (q :: sent w)) as [[d c [e|]]|e] eqn:Hreply; simpl.
    + destruct (bool_decide (error_code e = Some "PGRST116")) eqn:Hcode; simpl.
      * unfold try_catch, done, ret.
        do 2 eexists. split; [reflexivity|]. repeat split; [simpl; lia|].
        simpl. intros q' e' [= <-] [H|[r [H Hr]]]; [congruence|].
        rewrite Hreply in H. injection H as <-. simpl in Hr.
        injection Hr as <-. intros _ Hne.
        apply bool_decide_eq_true_1 in Hcode. contradiction.
      * destruct (isTableNotExistError e) eqn:E.
        -- unfold try_catch, bind, write, tail, ret. simpl.
           rewrite Hagain by reflexivity.
           do 2 eexists. split; [reflexivity|]. repeat split; [simpl; lia|].
           simpl. intros q' e' [= <-] [H|[r [H Hr]]]; [congruence|].
           rewrite Hreply in H. injection H as <-. simpl in Hr. congruence.
        -- unfold try_catch, throw. rewrite E. unfold done, ret.
           do 2 eexists. split; [reflexivity|]. repeat split; simpl; lia.
    + unfold try_catch, done, ret.
      do 2 eexists. split; [reflexivity|]. repeat split; [simpl; lia|].
      simpl. intros q' e' [= <-] [H|[r [H Hr]]]; [congruence|].
      rewrite Hreply in H. injection H as <-. simpl in Hr. discriminate.
    + unfold try_catch, throw. destruct (isTableNotExistError e) eqn:E.
      * unfold bind, write, tail, ret. simpl.
        rewrite Hagain by reflexivity.
        do 2 eexists. split; [reflexivity|]. repeat split; [simpl; lia|].
        simpl. intros q' e' [= <-] [H|[r [H Hr]]]; congruence.
      * unfold done, ret.
        do 2 eexists. split; [reflexivity|]. repeat split; simpl; lia.
Qed.

Lemma isSavedItem_always_resolves_witness :
  exists b w',
    isSavedItem shipped "book-001" FAVORITE (as_user "user-001")
                (Build_Run initial [] 0)
    = (Resolved b, w').
Proof.
  destruct (isSavedItem_always_resolves
              shipped 0 (as_user "user-001") (Build_Run initial [] 0)
              "user-001" "book-001" FAVORITE eq_refl)
    as [b [w' [H _]]].
  exists b, w'. exact H.
Defined.

End SavedListings.

(** *** The user service *)

Section UserRemote.
Import UserService UserQueries.

(** X23.  [getUserById] never rejects and never stays pending: it
    resolves with a user or with [null] after at most one request.  On
    the fixture path the user is the mock user of that id.  On the remote
    path a returned missing-relation error raises the flag and gives the
    mock user, while a thrown error, the missing relation included,
    gives [null] and leaves the flag down. *)
Theorem getUserById_always_resolves (cfg : Config) (env : Env)
        (w : Run Vars) (userId : string) :
  exists result w',
    getUserById cfg userId env w = (Resolved result, w')
    /\ (length (sent w') <= S (length (sent w)))%nat
    /\ (user_USE_MOCK_DATA cfg || DETECTED_MISSING_TABLES (vars w) = true ->
        w' = w
        /\ result = option_map user_of_mock (getMockSellerById userId)
        /\ forall user, result = Some user -> u_id user = userId)
    /\ (user_USE_MOCK_DATA cfg || DETECTED_MISSING_TABLES (vars w) = false ->
        sent w' = profile_query userId :: sent w
        /\ (forall r e,
              remote env (profile_query userId :: sent w) = Returned r ->
              error r = Some e -> isTableNotExistError e = true ->
              DETECTED_MISSING_TABLES (vars w') = true
              /\ result = option_map user_of_mock (getMockSellerById userId))
        /\ (forall e,
              remote env (profile_query userId :: sent w) = Threw e ->
              result = None /\ vars w' = vars w)
        /\ (forall r row,
              remote env (profile_query userId :: sent w) = Returned r ->
              error r = None -> data r = d_profile row ->
              result = Some (user_of_row row))).
Proof.
  unfold getUserById, bind at 1, read at 1.
  destruct (user_USE_MOCK_DATA cfg || DETECTED_MISSING_TABLES (vars w))
    eqn:Hmock.
  - do 2 eexists. split; [reflexivity|]. split; [lia|].
    split; [|discriminate]. intros _. repeat split.
    unfold getMockSellerById.
    destruct (Js.find _ mockUsers) as [found|] eqn:E; [|discriminate].
    apply find_some in E as [_ E]. apply String.eqb_eq in E.
    simpl. intros user [= <-]. exact E.
  - rewrite try_catch_bind. unfold call.
    destruct (remote env (profile_query userId :: sent w))
      as [[d c [e|]]|e] eqn:Hreply; simpl.
    + destruct (isTableNotExistError e) eqn:E.
      * do 2 eexists. split; [reflexivity|]. simpl. split; [lia|].
        split; [discriminate|]. intros _. split; [reflexivity|].
        split; [|split]; [| discriminate | ].
        -- intros r e' [= <-] _ _. split; reflexivity.
        -- intros r row [= <-]. discriminate.
      * do 2 eexists. split; [reflexivity|]. simpl. split; [lia|].
        split; [discriminate|]. intros _. split; [reflexivity|].
        split; [|split]; [| discriminate | ].
        -- intros r e' [= <-] [= <-]. congruence.
        -- intros r row [= <-]. discriminate.
    + destruct d; simpl;
        (do 2 eexists; split; [reflexivity|]; simpl; split; [lia|];
         split; [discriminate|]; intros _; split; [reflexivity|];
         split; [|split]; [| discriminate | ];
         [ intros r e' [= <-]; discriminate
         | intros r row' [= <-] _; simpl; intros [= <-] || discriminate;
           reflexivity ]).
    + do 2 eexists. split; [reflexivity|]. simpl. split; [lia|].
      split; [discriminate|]. intros _. split; [reflexivity|].
      split; [|split]; [discriminate | | discriminate].
      intros e' _. split; reflexivity.
Qed.

Lemma key_elem_of (column name : string) (v : Value) (value : option Value) :
  (column, v) ∈ key name value <-> column = name /\ value = Some v.
Proof.
  destruct value as [y|]; simpl.
  - rewrite list_elem_of_singleton. split.
    + intros [= -> ->]. auto.
    + intros [-> [= ->]]. reflexivity.
  - rewrite elem_of_nil. split; [tauto | intros [_ H]; discriminate].
Qed.

Lemma property_defined (obj : JsObject) (name : string) (v : Value) :
  property obj name = Some v <-> obj !! name = Some (Some v).
Proof.
  unfold property. destruct (obj !! name) as [[y|]|]; split; congruence.
Qed.

(** X24.  The remote branch of [updateProfile] sends one update.  Its
    patch holds a column exactly when the update object holds the key of
    that column with a value other than [undefined], and it holds that
    value.  A returned missing-relation error raises the flag and the
    same call settles as the mock branch does; any other returned error,
    and every thrown error, the missing relation included, rejects the
    call as it is; a returned row is the user. *)
Theorem updateProfile_remote_sends_the_provided_keys (cfg : Config)
        (fuel : nat) (env : Env) (w : Run Vars) (userId : string)
        (profileUpdate : UserProfileUpdate) :
  user_USE_MOCK_DATA cfg = false ->
  DETECTED_MISSING_TABLES (vars w) = false ->
  let q := {| table := "user_profiles"; verb := v_update (patch profileUpdate);
              filters := [f_eq "id" (VString userId)];
              order := None; limit := None; returning := true;
              single := true |} in
  let result := updateProfile_ cfg (S (S fuel)) userId profileUpdate env w in
  (forall column v,
     (column, v) ∈ patch profileUpdate
     <-> exists name, (name, column) ∈ profile_columns
                      /\ profileUpdate !! name = Some (Some v))
  /\ (forall r e,
        remote env (q :: sent w) = Returned r -> error r = Some e ->
        isTableNotExistError e = true ->
        result = (updateProfile_mock mockUsers userId profileUpdate,
               Build_Run (set_detected (vars w)) (q :: sent w) (ticks w)))
  /\ (forall r e,
        remote env (q :: sent w) = Returned r -> error r = Some e ->
        isTableNotExistError e = false ->
        result = (Rejected e, Build_Run (vars w) (q :: sent w) (ticks w)))
  /\ (forall e,
        remote env (q :: sent w) = Threw e ->
        result = (Rejected e, Build_Run (vars w) (q :: sent w) (ticks w)))
  /\ (forall r row,
        remote env (q :: sent w) = Returned r -> error r = None ->
        data r = d_profile row ->
        result = (Resolved (object_of_user (user_of_row row)),
               Build_Run (vars w) (q :: sent w) (ticks w))).
Proof.
  intros Hremote Hflag q result. split.
  - intros column v. unfold patch, profile_columns.
    rewrite !elem_of_app, !key_elem_of, !property_defined. split.
    + intros H.
      repeat match goal with
             | H : _ \/ _ |- _ => destruct H
             | H : _ /\ _ |- _ => destruct H
             end; subst; eexists; (split; [|eassumption]);
        repeat first [apply list_elem_of_here | apply list_elem_of_further].
    + intros [name [Hin H]].
      repeat (apply elem_of_cons in Hin as [[= -> ->] | Hin]; [auto 10|]).
      inversion Hin.
  - assert (Hrun : result
      = match remote env (q :: sent w) with
        | Returned r =>
            match error r with
            | Some e =>
                if isTableNotExistError e
                then (updateProfile_mock mockUsers userId profileUpdate,
                      Build_Run (set_detected (vars w)) (q :: sent w) (ticks w))
                else (Rejected e, Build_Run (vars w) (q :: sent w) (ticks w))
            | None =>
                (match data r with
                 | d_profile row => Resolved (object_of_user (user_of_row row))
                 | _ => Rejected (TypeError "id")
                 end,
                 Build_Run (vars w) (q :: sent w) (ticks w))
            end
        | Threw e => (Rejected e, Build_Run (vars w) (q :: sent w) (ticks w))
        end).
    { unfold result. cbn [updateProfile_]. unfold bind at 1, read at 1.
      rewrite Hremote, Hflag. cbn [orb].
      rewrite try_catch_bind. unfold call. fold q.
      destruct (remote env (q :: sent w)) as [[d c [e|]]|e]; simpl.
      + destruct (isTableNotExistError e) eqn:E.
        * unfold try_catch, bind, write, tail, ret, read, settle. reflexivity.
        * unfold try_catch, throw. reflexivity.
      + destruct d; reflexivity.
      + reflexivity. }
    rewrite Hrun. repeat split.
    + intros r e -> -> ->. reflexivity.
    + intros r e -> -> ->. reflexivity.
    + intros e ->. reflexivity.
    + intros r row -> -> ->. reflexivity.
Qed.

Lemma updateProfile_remote_sends_the_provided_keys_witness :
  UserService.updateProfile shipped "user-001"
    (<["bio" := None]> (<["name" := Some (VString "John")]> ∅))
    (as_user "user-001") (Build_Run initial [] 0)
  = (updateProfile_mock mockUsers "user-001"
       (<["bio" := None]> (<["name" := Some (VString "John")]> ∅)),
     Build_Run (set_detected initial)
       [{| table := "user_profiles";
           verb := v_update
                     (patch (<["bio" := None]>
                               (<["name" := Some (VString "John")]> ∅)));
           filters := [f_eq "id" (VString "user-001")];
           order := None; limit := None; returning := true;
           single := true |}] 0).
Proof.
  destruct (updateProfile_remote_sends_the_provided_keys
              shipped 0 (as_user "user-001") (Build_Run initial [] 0)
              "user-001"
              (<["bio" := None]> (<["name" := Some (VString "John")]> ∅))
              eq_refl eq_refl)
    as [_ [H _]].
  exact (H _ relation_missing eq_refl eq_refl eq_refl).
Defined.

End UserRemote.

(** *** The caller and the mock catalogue *)

(** X25.  [getUserId] settles at once, sends nothing and changes no
    variable; it never resolves with the empty string.  With
    [USE_MOCK_DATA] it resolves with the id of the first mock user;
    otherwise a session error rejects with [Authentication error: ] and
    its message, a session without a user id rejects with
    [Not authenticated], and the id of the session is the result. *)
Theorem getUserId_gives_a_user_id_or_rejects {St : Type} (cfg : Config)
        (env : Env) (w : Run St) :
  exists o,
    Auth.getUserId cfg env w = (o, w)
    /\ o <> Pending
    /\ o <> Resolved ""
    /\ (auth_USE_MOCK_DATA cfg = true -> o = Resolved "user-001")
    /\ (auth_USE_MOCK_DATA cfg = false ->
        match session_error (session env), session_user_id (session env) with
        | Some message, _ =>
            o = Rejected (Error ("Authentication error: " ++ message))
        | None, Some id =>
            if String.eqb id "" then o = Rejected (Error "Not authenticated")
            else o = Resolved id
        | None, None => o = Rejected (Error "Not authenticated")
        end).
Proof.
  exists (caller cfg env). split; [apply getUserId_caller|].
  split; [|split; [|split]].
  - unfold caller, Auth.getUserId.
    destruct (auth_USE_MOCK_DATA cfg); [discriminate|].
    unfold bind, getSession; simpl.
    destruct (session_error (session env)); [discriminate|].
    destruct (session_user_id (session env)) as [id|]; [|discriminate].
    destruct (String.eqb id ""); discriminate.
  - intros H. apply caller_not_empty in H. discriminate.
  - intros Hmock. unfold caller, Auth.getUserId. now rewrite Hmock.
  - intros Hmock. unfold caller, Auth.getUserId. rewrite Hmock.
    unfold bind, getSession; simpl.
    destruct (session_error (session env)); [reflexivity|].
    destruct (session_user_id (session env)) as [id|]; [|reflexivity].
    destruct (String.eqb id ""); reflexivity.
Qed.

Section MockCatalogue.

Lemma find_unique {A} (key : A -> string) (l : list A) (x : A) :
  NoDup (List.map key l) -> x ∈ l ->
  Js.find (fun y => String.eqb (key y) (key x)) l = Some x.
Proof.
  induction l as [|y r IH]; simpl; intros Hnd Hin; [inversion Hin|].
  apply NoDup_cons in Hnd as [Hy Hr].
  apply elem_of_cons in Hin as [->|Hin]; [now rewrite String.eqb_refl|].
  destruct (String.eqb_spec (key y) (key x)) as [E|_]; [|now apply IH].
  exfalso. apply Hy. rewrite E.
  change (List.map key r) with (key <$> r). apply list_elem_of_fmap.
  now exists x.
Qed.

Lemma mockListings_ids : NoDup (List.map l_id mockListings).
Proof. apply (bool_decide_unpack _). vm_compute. exact I. Qed.

Lemma mockUsers_ids : NoDup (List.map mu_id mockUsers).
Proof. apply (bool_decide_unpack _). vm_compute. exact I. Qed.

(** X26.  The lookups of the mock data are by identifier:
    [getMockListingById] and [getMockSellerById] find a listing or a
    user exactly when it is the one of the catalogue that carries the
    id; [getMockListingsBySeller] gives the listings of the seller; and
    the seller of every listing of the catalogue is a mock user. *)
Theorem mock_lookups_are_by_identifier :
  (forall id listing,
     getMockListingById id = Some listing
     <-> listing ∈ mockListings /\ l_id listing = id)
  /\ (forall id user,
        getMockSellerById id = Some user
        <-> user ∈ mockUsers /\ mu_id user = id)
  /\ (forall sellerId listing,
        listing ∈ getMockListingsBySeller sellerId
        <-> listing ∈ mockListings /\ l_seller_id listing = sellerId)
  /\ (forall listing,
        listing ∈ mockListings ->
        exists user, getMockSellerById (l_seller_id listing) = Some user).
Proof.
  split; [|split; [|split]].
  - intros id listing. unfold getMockListingById. split.
    + intros H. apply find_some in H as [Hin E].
      apply String.eqb_eq in E. auto.
    + intros [Hin <-]. apply (find_unique l_id _ _ mockListings_ids Hin).
  - intros id user. unfold getMockSellerById. split.
    + intros H. apply find_some in H as [Hin E].
      apply String.eqb_eq in E. auto.
    + intros [Hin <-]. apply (find_unique mu_id _ _ mockUsers_ids Hin).
  - intros sellerId listing. unfold getMockListingsBySeller.
    rewrite elem_of_List_filter, String.eqb_eq. reflexivity.
  - apply Forall_forall. unfold mockListings.
    repeat (constructor; [eexists; vm_compute; reflexivity|]).
    constructor.
Qed.

End MockCatalogue.

(** *** The remote branch of [getConversations] *)

Section ConversationsRemote.
Import MessageService.

Lemma for_each_resolves {A B} (f : A -> M Vars B) (l : list A) :
  (forall x env w, exists y w', f x env w = (Resolved y, w')) ->
  forall env w, exists ys w', for_each f l env w = (Resolved ys, w').
Proof.
  intros Hf. induction l as [|x r IH]; intros env w; simpl.
  - do 2 eexists. reflexivity.
  - unfold bind. destruct (Hf x env w) as [y [w1 H1]]. rewrite H1.
    destruct (IH env w1) as [ys [w2 H2]]. rewrite H2.
    do 2 eexists. reflexivity.
Qed.

Lemma unread_count_of_resolves userId conv env (w : Run Vars) :
  exists y w', unread_count_of userId conv env w = (Resolved y, w').
Proof.
  unfold unread_count_of. rewrite try_catch_bind. unfold call.
  destruct (remote env _) as [[d c [e|]]|e]; simpl;
    try destruct (isTableNotExistError e) eqn:E;
    unfold try_catch, bind, write, throw, done, ret; simpl; rewrite ?E;
    do 2 eexists; reflexivity.
Qed.

Lemma last_message_of_resolves conv env (w : Run Vars) :
  exists y w', last_message_of conv env w = (Resolved y, w').
Proof.
  unfold last_message_of. rewrite try_catch_bind. unfold call.
  destruct (remote env _) as [[d c [e|]]|e]; simpl;
    try destruct (isTableNotExistError e) eqn:E;
    try (destruct d as [| | | |[|msg rows]| | | | | |]);
    unfold try_catch, bind, write, throw, done, ret; simpl; rewrite ?E;
    do 2 eexists; reflexivity.
Qed.

Lemma fetch_users_resolves userIds env (w : Run Vars) :
  exists y w', fetch_users userIds env w = (Resolved y, w').
Proof.
  unfold fetch_users. rewrite try_catch_bind. unfold call.
  destruct (remote env _) as [[d c [e|]]|e]; simpl;
    unfold try_catch, throw, done, ret; do 2 eexists; reflexivity.
Qed.

Lemma fetch_summaries_resolves listingIds env (w : Run Vars) :
  exists y w', fetch_summaries listingIds env w = (Resolved y, w').
Proof.
  unfold fetch_summaries. rewrite try_catch_bind. unfold call.
  destruct (remote env _) as [[d c [e|]]|e]; simpl;
    unfold try_catch, throw, done, ret; do 2 eexists; reflexivity.
Qed.

Lemma raised_last_messages convs :
  keeps (fun w : Run Vars => DETECTED_MISSING_TABLES (vars w) = true)
        (for_each last_message_of convs).
Proof. unfold last_message_of. triple_auto ltac:(vars_side). Qed.

(** X27.  Once the conversation query of [getConversations] has
    succeeded the call resolves, whatever the later queries answer: the
    callbacks for the unread counts and the last messages and the two
    lookups swallow their errors.  The result lists the conversations of
    the answer in the order of the answer, or it is the fixture answer,
    the flag being raised; the mock collections are not written. *)
Theorem getConversations_resolves_after_its_first_query (cfg : Config)
        (fuel : nat) (env : Env) (w : Run Vars) (userId : string)
        (r : Response) (rows : list Conversation) :
  message_USE_MOCK_DATA cfg = false ->
  DETECTED_MISSING_TABLES (vars w) = false ->
  caller cfg env = Resolved userId ->
  let q := {| table := "conversations"; verb := v_select "*" false;
              filters :=
                [f_or ("buyer_id.eq." ++ userId ++ ",seller_id.eq." ++ userId);
                 f_eq "is_active" (VBool true)];
              order := Some ("last_message_at", false); limit := None;
              returning := false; single := false |} in
  remote env (q :: sent w) = Returned r ->
  error r = None ->
  data r = d_conversations rows ->
  exists result w',
    getConversations_ cfg (S (S fuel)) env w = (Resolved result, w')
    /\ (List.map cd_conversation result = rows
        \/ (DETECTED_MISSING_TABLES (vars w') = true
            /\ result = getConversations_mock userId (vars w')))
    /\ mockConversations (vars w') = mockConversations (vars w)
    /\ mockMessages (vars w') = mockMessages (vars w).
Proof.
  intros Hremote Hflag Hcaller q Hreply Herr Hdata.
  pose proof (store_getConversations cfg _ _ (S (S fuel)) env w
                (conj eq_refl eq_refl)) as [Hstore _].
  cut (exists result w',
         getConversations_ cfg (S (S fuel)) env w = (Resolved result, w')
         /\ (List.map cd_conversation result = rows
             \/ (DETECTED_MISSING_TABLES (vars w') = true
                 /\ result = getConversations_mock userId (vars w')))).
  { intros [result [w' [Hrun Hres]]]. exists result, w'.
    rewrite Hrun in Hstore. simpl in Hstore. tauto. }
  clear Hstore. remember (S fuel) as again eqn:Hfuel.
  assert (Hagain :
    forall w1, DETECTED_MISSING_TABLES (vars w1) = true ->
      getConversations_ cfg again env w1
      = (Resolved (getConversations_mock userId (vars w1)), w1)).
  { intros w1 H1. subst again. cbn [getConversations_]. unfold bind at 1.
    rewrite getUserId_caller, Hcaller.
    unfold bind at 1, read at 1. rewrite H1, orb_true_r. reflexivity. }
  cbn [getConversations_]. unfold bind at 1.
  rewrite getUserId_caller, Hcaller.
  unfold bind at 1, read at 1. rewrite Hremote, Hflag. cbn [orb].
  rewrite try_catch_bind. unfold call at 1. fold q. rewrite Hreply.
  cbn [vars sent ticks]. rewrite Herr, Hdata.
  destruct rows as [|first rest].
  { do 2 eexists. split; [reflexivity|]. left. reflexivity. }
  rewrite try_catch_bind. unfold read at 1. cbn [vars]. rewrite Hflag.
  rewrite try_catch_bind.
  destruct (for_each_resolves (unread_count_of userId) (first :: rest)
              (unread_count_of_resolves userId) env
              (Build_Run (vars w) (q :: sent w) (ticks w)))
    as [counts [w2 Hcounts]].
  rewrite Hcounts.
  rewrite try_catch_bind. unfold read at 1.
  rewrite try_catch_bind.
  destruct (for_each_resolves last_message_of (first :: rest)
              last_message_of_resolves env w2)
    as [lasts [w3 Hlasts]].
  rewrite Hlasts.
  destruct (DETECTED_MISSING_TABLES (vars w2)) eqn:Hw2.
  - pose proof (raised_last_messages (first :: rest) env w2 Hw2) as [Hw3 _].
    rewrite Hlasts in Hw3. simpl in Hw3.
    unfold try_catch, tail, ret. rewrite (Hagain w3 Hw3).
    do 2 eexists. split; [reflexivity|]. right. split; [exact Hw3|reflexivity].
  - rewrite try_catch_bind.
    destruct (fetch_users_resolves
                (List.map (other_party userId) (first :: rest)) env w3)
      as [users [w4 Husers]].
    rewrite Husers. rewrite try_catch_bind.
    destruct (fetch_summaries_resolves
                (List.map c_listing_id (first :: rest)) env w4)
      as [listings [w5 Hlistings]].
    rewrite Hlistings. unfold try_catch, done, ret.
    do 2 eexists. split; [reflexivity|]. left.
    rewrite map_map. cbn [cd_conversation combine]. apply map_id.
Qed.

Lemma getConversations_resolves_after_its_first_query_witness :
  exists result w',
    getConversations shipped
      (answering "user-001" (mockConversations initial)) loaded
    = (Resolved result, w')
    /\ (List.map cd_conversation result = mockConversations initial
        \/ (DETECTED_MISSING_TABLES (vars w') = true
            /\ result = getConversations_mock "user-001" (vars w'))).
Proof.
  destruct (getConversations_resolves_after_its_first_query
              shipped 0 (answering "user-001" (mockConversations initial))
              loaded "user-001"
              {| data := d_conversations (mockConversations initial);
                 count := None; error := None |}
              (mockConversations initial)
              eq_refl eq_refl eq_refl eq_refl eq_refl eq_refl)
    as [result [w' [H1 [H2 _]]]].
  exists result, w'. split; assumption.
Defined.

End ConversationsRemote.

(** ** The listing queries against the store *)

Section ListingStore.
Import BookService.







Lemma satisfies_conditions (filters : BookFilterOptions)
      (listing : BookListing) :
  forallb (satisfies listing) (filter_conditions filters)
  = meets filters listing.
Proof.
  unfold filter_conditions, meets, meets_stated. simpl.
  destruct (categories filters) as [[|c cats]|],
    (conditions filters) as [[|d conds]|],
    (minPrice filters), (maxPrice filters), (isNegotiable filters),
    (exchangeOption filters); simpl;
    rewrite ?eqb_bool_decide, ?andb_true_r, ?andb_assoc; reflexivity.
Qed.

(** C8, as amended.  [getFilteredListings] resolves with exactly the
    listings of the store that meet the conjunction of the provided
    predicates, each one once, an empty list of categories or of
    conditions counting as omitted; with nothing provided, or only empty
    lists, it resolves with every listing.  The store is the table that
    the remote client answers from, and the mock catalogue under
    [USE_MOCK_DATA]. *)
Theorem filtered_listings_meet_every_filter {St} (cfg : Config)
        (filters : BookFilterOptions) (table : list BookListing)
        (env : Env) (w : Run St) :
  (forall q, remote env (q :: sent w) = book_store table (q :: sent w)) ->
  let store := if book_USE_MOCK_DATA cfg then mockListings else table in
  exists listings,
    fst (getFilteredListings cfg filters env w) = Resolved listings
    /\ listings ≡ₚ List.filter (meets filters) store
    /\ (forall listing,
          listing ∈ listings
          <-> listing ∈ store /\ meets filters listing = true)
    /\ (nonempty (categories filters) = None ->
        nonempty (conditions filters) = None ->
        minPrice filters = None -> maxPrice filters = None ->
        isNegotiable filters = None -> exchangeOption filters = None ->
        listings ≡ₚ store).
Proof.
  intros Hstore store.
  assert (Hrun : exists listings,
            fst (getFilteredListings cfg filters env w) = Resolved listings
            /\ listings ≡ₚ List.filter (meets filters) store).
  { unfold getFilteredListings, store.
    destruct (book_USE_MOCK_DATA cfg).
    - eexists. split; [reflexivity|].
      now rewrite (applyFilters_meets _ _ mockListings_categories).
    - rewrite fetch_run, Hstore. simpl. eexists. split; [reflexivity|].
      unfold select. simpl. rewrite sort_perm.
      erewrite filter_agree; [reflexivity|].
      apply Forall_forall. intros listing _. apply satisfies_conditions. }
  destruct Hrun as [listings [Hrun Hperm]].
  exists listings. split; [exact Hrun|]. split; [exact Hperm|]. split.
  - intros listing. rewrite Hperm. apply elem_of_List_filter.
  - intros Hc Hd Hlo Hhi Hn He. rewrite Hperm.
    erewrite filter_agree; [now rewrite filter_true|].
    apply Forall_forall. intros listing _. unfold meets, meets_stated. simpl.
    now rewrite Hc, Hd, Hlo, Hhi, Hn, He.
Qed.

Lemma filtered_listings_meet_every_filter_witness :
  exists listings,
    fst (getFilteredListings shipped
           {| categories := Some ["Fiction"]; conditions := Some [];
              minPrice := Some (10 # 1)%Q; maxPrice := None;
              isNegotiable := Some true; exchangeOption := None |}
           {| session := signed_in "user-001";
              remote := book_store mockListings; clock := fixed_clock |}
           (Build_Run tt [] 0))
    = Resolved listings
    /\ listings
       ≡ₚ List.filter
            (meets {| categories := Some ["Fiction"]; conditions := Some [];
                      minPrice := Some (10 # 1)%Q; maxPrice := None;
                      isNegotiable := Some true; exchangeOption := None |})
            mockListings.
Proof.
  destruct (filtered_listings_meet_every_filter
              shipped
              {| categories := Some ["Fiction"]; conditions := Some [];
                 minPrice := Some (10 # 1)%Q; maxPrice := None;
                 isNegotiable := Some true; exchangeOption := None |}
              mockListings
              {| session := signed_in "user-001";
                 remote := book_store mockListings; clock := fixed_clock |}
              (Build_Run tt [] 0) (fun q => eq_refl))
    as [listings [H1 [H2 _]]].
  exists listings. split; assumption.
Defined.

(** C8, the claim as stated fails.  An empty list of categories, and
    likewise an empty list of conditions, is a provided predicate that no
    listing satisfies; as shipped, the request then carries no condition
    at all, and a store that holds the fifteen listings of the mock
    catalogue answers with all of them. *)
Lemma empty_category_list_is_ignored :
  let env := {| session := signed_in "user-001";
                remote := book_store mockListings; clock := fixed_clock |} in
  Forall (fun filters =>
            exists listings,
              fst (getFilteredListings shipped filters env (Build_Run tt [] 0))
              = Resolved listings
              /\ length listings = 15
              /\ List.filter (meets_stated filters) mockListings = []
              /\ sent (snd (getFilteredListings shipped filters env
                              (Build_Run tt [] 0)))
                 = [listings_query []])
         [{| categories := Some []; conditions := None;
             minPrice := None; maxPrice := None;
             isNegotiable := None; exchangeOption := None |};
          {| categories := None; conditions := Some [];
             minPrice := None; maxPrice := None;
             isNegotiable := None; exchangeOption := None |}].
Proof.
  repeat constructor;
    (eexists; split; [reflexivity|];
     split; [vm_compute; reflexivity|]; split; reflexivity).
Qed.

End ListingStore.

(** ** The writes of the messaging module as shipped *)

Section WritesAsShipped.
Import MessageService.

(** C6.  As shipped ([USE_MOCK_DATA = false]) [sendMessage] looks the
    conversation up first.  When the lookup gives a conversation, one
    message row is sent for insertion: from the caller to the other
    participant, unread, stamped with the clock reading taken then.  When
    the insertion succeeds, [last_message_at] of the conversation is
    written once, with the next clock reading and not with the
    [created_at] of the message, which the branch under [USE_MOCK_DATA]
    assigns.  When the lookup gives no conversation the call rejects and
    no message row is sent.  No mock collection is written. *)
Theorem sendMessage_stamps_the_conversation_after_the_message
        (cfg : Config) (env : Env) (w : Run Vars)
        (userId conversationId content : string) :
  message_USE_MOCK_DATA cfg = false ->
  caller cfg env = Resolved userId ->
  let lookup := {| table := "conversations"; verb := v_select "*" false;
                   filters := [f_eq "id" (VString conversationId)];
                   order := None; limit := None; returning := false;
                   single := true |} in
  let settled := sendMessage cfg conversationId content env w in
  exists new,
    sent (snd settled) = (new ++ sent w)%list
    /\ vars (snd settled) = vars w
    /\ match remote env (lookup :: sent w) with
       | Returned {| data := d_conversation conversation; error := None |} =>
           message_inserts new
           = [message_row conversationId userId
                          (other_party userId conversation) content
                          (clock env (ticks w))]
           /\ (stamps new = []
               \/ stamps new = [(conversationId, clock env (S (ticks w)))])
           /\ (forall message,
                 fst settled = Resolved message ->
                 stamps new = [(conversationId, clock env (S (ticks w)))])
       | _ =>
           message_inserts new = [] /\ stamps new = []
           /\ exists e, fst settled = Rejected e
       end.
Proof.
  intros Hremote Hcaller lookup settled.
  destruct settled as [o w'] eqn:Hs. unfold settled, sendMessage in Hs.
  unfold bind at 1 in Hs.
  rewrite getUserId_caller, Hcaller, (caller_not_empty _ _ _ Hcaller), Hremote
    in Hs.
  rewrite try_catch_bind in Hs. unfold call at 1 in Hs. fold lookup in Hs.
  cbn [fst snd].
  destruct (remote env (lookup :: sent w)) as [[d c [e|]]|e].
  - unfold try_catch, throw in Hs. simpl in Hs. injection Hs as <- <-.
    exists [lookup]. destruct d; simpl; repeat split; eauto.
  - destruct d as [| | |conversation| | | | | | |];
      try (unfold try_catch, throw in Hs; simpl in Hs; injection Hs as <- <-;
           exists [lookup]; simpl; repeat split; eauto; fail).
    simpl in Hs. unfold try_catch, bind, now, call in Hs. simpl in Hs.
    fold (other_party userId conversation) in Hs.
    match type of Hs with
    | context [remote env (?q0 :: lookup :: sent w)] => set (insert := q0) in *
    end.
    destruct (remote env (insert :: lookup :: sent w)) as [[d2 c2 [e2|]]|e2];
      simpl in Hs.
    + injection Hs as <- <-. exists [insert; lookup].
      repeat split; [now left | discriminate].
    + match type of Hs with
      | context [remote env (?q0 :: insert :: lookup :: sent w)] =>
          set (update := q0) in *
      end.
      destruct (remote env (update :: insert :: lookup :: sent w)) as [u|e3];
        simpl in Hs; injection Hs as <- <-; exists [update; insert; lookup];
        repeat split; now right.
    + injection Hs as <- <-. exists [insert; lookup].
      repeat split; [now left | discriminate].
  - unfold try_catch, throw in Hs. simpl in Hs. injection Hs as <- <-.
    exists [lookup]. simpl. repeat split; eauto.
Qed.

Lemma sendMessage_stamps_the_conversation_after_the_message_witness :
  let inserted :=
    {| m_id := "msg-100"; m_conversation_id := "conv-001";
       m_sender_id := "user-002"; m_receiver_id := "user-001";
       m_content := "Hello"; m_created_at := "2024-01-01T00:00:00.000Z";
       m_read := false |} in
  let env :=
    {| session := signed_in "user-002";
       remote := scripted
         [found (d_conversation
                   {| c_id := "conv-001"; c_listing_id := "book-001";
                      c_buyer_id := "user-002"; c_seller_id := "user-001";
                      c_created_at := "2023-08-10T09:15:00Z";
                      c_last_message_at := "2023-08-12T14:30:00Z";
                      c_is_active := true |});
          found (d_message inserted); found d_null];
       clock := ticking_clock |} in
  exists new,
    sent (snd (sendMessage shipped "conv-001" "Hello" env loaded)) = new
    /\ fst (sendMessage shipped "conv-001" "Hello" env loaded)
       = Resolved (Some inserted)
    /\ message_inserts new
       = [message_row "conv-001" "user-002" "user-001" "Hello"
                      "2024-01-01T00:00:00.000Z"]
    /\ stamps new = [("conv-001", "2024-01-01T00:00:01.000Z")].
Proof.
  intros inserted env.
  destruct (sendMessage_stamps_the_conversation_after_the_message
              shipped env loaded "user-002" "conv-001" "Hello"
              eq_refl eq_refl)
    as [new [Hsent [_ [Hrows [_ Hstamp]]]]].
  exists new. split; [rewrite Hsent; apply app_nil_r|].
  split; [reflexivity|].
  split; [exact Hrows|]. apply (Hstamp (Some inserted)). reflexivity.
Defined.

(** C3.  As shipped ([USE_MOCK_DATA = false]) [startConversation] asks
    for the active conversations of the (listing, caller, seller) triple.
    When the answer holds one, no conversation is inserted: the call
    writes [last_message_at] of the first one found, then inserts its
    message into that conversation, and resolves with the conversation
    read back.  The [last_message_at] written is the clock reading taken
    before the one that stamps the message, not the [created_at] of the
    message, which the branch under [USE_MOCK_DATA] assigns.  When the
    answer holds none, one conversation of the triple is inserted, then
    the message. *)
Theorem startConversation_stamps_the_conversation_before_the_message
        (cfg : Config) (env : Env) (w : Run Vars)
        (userId listingId sellerId initialMessage : string) :
  message_USE_MOCK_DATA cfg = false ->
  caller cfg env = Resolved userId ->
  userId <> sellerId ->
  let lookup :=
    query "conversations"
      [f_eq "listing_id" (VString listingId); f_eq "buyer_id" (VString userId);
       f_eq "seller_id" (VString sellerId); f_eq "is_active" (VBool true)] in
  let message conversationId t :=
    {| table := "messages";
       verb := v_insert
                 (message_row conversationId userId sellerId initialMessage t);
       filters := []; order := None; limit := None;
       returning := false; single := false |} in
  let read_back conversationId :=
    {| table := "conversations"; verb := v_select "*" false;
       filters := [f_eq "id" (VString conversationId)];
       order := None; limit := None; returning := false; single := true |} in
  let create :=
    {| table := "conversations";
       verb := v_insert
                 [("listing_id", VString listingId);
                  ("buyer_id", VString userId);
                  ("seller_id", VString sellerId);
                  ("created_at", VString (clock env (ticks w)));
                  ("last_message_at", VString (clock env (S (ticks w))));
                  ("is_active", VBool true)];
       filters := []; order := None; limit := None;
       returning := true; single := true |} in
  let settled := startConversation cfg listingId sellerId initialMessage env w in
  (forall x existing rest u m,
     remote env (lookup :: sent w) = Returned x -> error x = None ->
     data x = d_conversations (existing :: rest) ->
     let stamp_it := touch_remote (c_id existing) (clock env (ticks w)) in
     let insert := message (c_id existing) (clock env (S (ticks w))) in
     let log := read_back (c_id existing) :: insert :: stamp_it :: lookup
                :: sent w in
     remote env (stamp_it :: lookup :: sent w) = Returned u ->
     remote env (insert :: stamp_it :: lookup :: sent w) = Returned m ->
     snd settled = Build_Run (vars w) log (S (S (ticks w)))
     /\ forall g conversation,
          remote env log = Returned g -> error g = None ->
          data g = d_conversation conversation ->
          fst settled = Resolved conversation)
  /\ (forall x n created m,
        remote env (lookup :: sent w) = Returned x -> error x = None ->
        (forall existing rest, data x <> d_conversations (existing :: rest)) ->
        remote env (create :: lookup :: sent w) = Returned n ->
        error n = None -> data n = d_conversation created ->
        let insert := message (c_id created) (clock env (S (S (ticks w)))) in
        let log := read_back (c_id created) :: insert :: create :: lookup
                   :: sent w in
        remote env (insert :: create :: lookup :: sent w) = Returned m ->
        snd settled = Build_Run (vars w) log (S (S (S (ticks w))))
        /\ forall g conversation,
             remote env log = Returned g -> error g = None ->
             data g = d_conversation conversation ->
             fst settled = Resolved conversation).
Proof.
  intros Hremote Hcaller Hne lookup message read_back create settled.
  destruct settled as [o w'] eqn:Hs.
  unfold settled, startConversation in Hs. unfold bind at 1 in Hs.
  rewrite getUserId_caller, Hcaller, (caller_not_empty _ _ _ Hcaller) in Hs.
  apply String.eqb_neq in Hne. rewrite Hne, Hremote in Hs.
  rewrite try_catch_bind in Hs. unfold call at 1 in Hs. fold lookup in Hs.
  split.
  - intros x existing rest u m Hx Herr Hdata stamp_it insert log Hu Hm.
    rewrite Hx in Hs. simpl in Hs. rewrite Herr, Hdata in Hs.
    unfold try_catch, bind, now, call, ret in Hs. simpl in Hs.
    fold stamp_it in Hs. rewrite Hu in Hs. simpl in Hs.
    fold (message (c_id existing) (clock env (S (ticks w)))) in Hs.
    fold insert in Hs. rewrite Hm in Hs. simpl in Hs.
    fold (read_back (c_id existing)) in Hs. fold log in Hs.
    destruct (remote env log) as [g|e] eqn:Hg; simpl in Hs.
    + destruct (error g) eqn:Eg; simpl in Hs.
      * injection Hs as <- <-. split; [reflexivity|].
        intros g' conversation [= <-] Hnone _. congruence.
      * destruct (the_conversation (data g)) eqn:Ec; simpl in Hs;
          injection Hs as <- <-; (split; [reflexivity|]);
          intros g' conversation [= <-] _ Hd;
          rewrite Hd in Ec; simpl in Ec |- *; congruence.
    + injection Hs as <- <-. split; [reflexivity|].
      intros g conversation. discriminate.
  - intros x n created m Hx Herr Hnone Hn Hnerr Hndata insert log Hm.
    rewrite Hx in Hs. simpl in Hs. rewrite Herr in Hs.
    assert (Hdata : forall (A : Type) (a : Conversation -> A) (b : A),
              match data x with
              | d_conversations (existing :: _) => a existing
              | _ => b
              end = b).
    { intros A a b. destruct (data x) as [| |[|existing rest]| | | | | | | |];
        try reflexivity.
      exfalso. now apply (Hnone existing rest). }
    rewrite Hdata in Hs.
    unfold try_catch, bind, now, call, ret in Hs. simpl in Hs.
    fold create in Hs. rewrite Hn in Hs. simpl in Hs.
    rewrite Hnerr, Hndata in Hs. simpl in Hs.
    fold (message (c_id created) (clock env (S (S (ticks w))))) in Hs.
    fold insert in Hs. rewrite Hm in Hs. simpl in Hs.
    fold (read_back (c_id created)) in Hs. fold log in Hs.
    destruct (remote env log) as [g|e] eqn:Hg; simpl in Hs.
    + destruct (error g) eqn:Eg; simpl in Hs.
      * injection Hs as <- <-. split; [reflexivity|].
        intros g' conversation [= <-] Hgnone _. congruence.
      * destruct (the_conversation (data g)) eqn:Ec; simpl in Hs;
          injection Hs as <- <-; (split; [reflexivity|]);
          intros g' conversation [= <-] _ Hd;
          rewrite Hd in Ec; simpl in Ec |- *; congruence.
    + injection Hs as <- <-. split; [reflexivity|].
      intros g conversation. discriminate.
Qed.

Lemma startConversation_stamps_the_conversation_before_the_message_witness :
  let existing :=
    {| c_id := "conv-001"; c_listing_id := "book-001";
       c_buyer_id := "user-002"; c_seller_id := "user-001";
       c_created_at := "2023-08-10T09:15:00Z";
       c_last_message_at := "2023-08-12T14:30:00Z"; c_is_active := true |} in
  let env :=
    {| session := signed_in "user-002";
       remote := scripted [found (d_conversations [existing]); found d_null;
                           found d_null; found (d_conversation existing)];
       clock := ticking_clock |} in
  exists new,
    startConversation shipped "book-001" "user-001" "Hello again" env loaded
    = (Resolved existing, Build_Run initial new 2)
    /\ stamps new = [("conv-001", "2024-01-01T00:00:00.000Z")]
    /\ message_inserts new
       = [message_row "conv-001" "user-002" "user-001" "Hello again"
                      "2024-01-01T00:00:01.000Z"]
    /\ length new = 4.
Proof.
  intros existing env.
  destruct (proj1 (startConversation_stamps_the_conversation_before_the_message
                     shipped env loaded "user-002" "book-001" "user-001"
                     "Hello again" eq_refl eq_refl ltac:(discriminate))
                  {| data := d_conversations [existing]; count := None;
                     error := None |}
                  existing []
                  {| data := d_null; count := None; error := None |}
                  {| data := d_null; count := None; error := None |}
                  eq_refl eq_refl eq_refl eq_refl eq_refl)
    as [Hstate Hvalue].
  eexists. split.
  - apply injective_projections.
    + apply (Hvalue {| data := d_conversation existing; count := None;
                       error := None |} existing); reflexivity.
    + exact Hstate.
  - repeat split.
Defined.

End WritesAsShipped.
